(** * Scheduling and delivery engine of the reminder bot (src/bot.py)

    A shallow embedding of the parts of [bot.py] that decide how stored
    reminder and poll records become jobs, how a firing fans a record out
    to the subscribed chats, and how the local JSON collections are read
    and rewritten.

    Conventions.
    - A stored reminder or poll is a Python dict; it is embedded as the
      record [item], one optional field per key the code reads or writes
      ([None] = the key is absent).
    - A JSON file is embedded by what [open], [read().strip()] and
      [json.loads] make of it.  The three files of the bot are text
      ([file]): what [json.dump] leaves, or what an editor saved; reading
      existing text and writing a file always succeed.  The loaders are
      also given what is outside that ([disk]): bytes that do not decode
      and text nested too deep to parse.
    - Python exceptions are values of [exn]; a computation that may raise
      returns a [result].
    - The job runner of python-telegram-bot is the list of its live jobs;
      [schedule_removal] takes a job out of that list.
    - Clock readings, gateway answers and the answers of the Google Sheets
      manager are inputs ([Env]). *)

From Stdlib Require Import ZArith Lia Ascii String.
From stdpp Require Import base decidable option list strings pretty.

Open Scope string_scope.
Open Scope list_scope.
Open Scope Z_scope.

(** ** Python values the code relies on *)

Module Py.

(** Exception classes the code raises or catches by name. *)
Inductive exn : Type :=
| FileNotFoundError
| JSONDecodeError     (* json.JSONDecodeError, a ValueError *)
| UnicodeDecodeError  (* a ValueError *)
| ValueError (msg : string)
| KeyError (key : string)
| TypeError
| RecursionError
| SheetsError.       (* anything raised inside the Sheets manager *)

Inductive result (A : Type) : Type :=
| Ok (a : A)
| Raise (e : exn).
Arguments Ok {A} a.
Arguments Raise {A} e.

Definition bind {A B} (r : result A) (k : A -> result B) : result B :=
  match r with
  | Ok a => k a
  | Raise e => Raise e
  end.

(** [try: body except classes: handler]; an exception outside
    [classes] propagates. *)
Definition try_except {A} (body : result A) (catches : exn -> bool)
    (handler : exn -> result A) : result A :=
  match body with
  | Ok a => Ok a
  | Raise e => if catches e then handler e else Raise e
  end.

(** [except Exception] catches every class above. *)
Definition any_exception (e : exn) : bool := true.

(** [except ValueError] catches the class and its two subclasses. *)
Definition is_ValueError (e : exn) : bool :=
  match e with
  | ValueError _ | JSONDecodeError | UnicodeDecodeError => true
  | _ => false
  end.

(** [needle in haystack] on strings. *)
Fixpoint contains (needle haystack : string) : bool :=
  String.prefix needle haystack ||
  match haystack with
  | EmptyString => false
  | String _ rest => contains needle rest
  end.

(** [s.startswith(p)]. *)
Definition startswith (s p : string) : bool := String.prefix p s.

(** [s.split(sep)] for a one-character separator. *)
Fixpoint split_on (sep : ascii) (s : string) : list string :=
  match s with
  | EmptyString => [EmptyString]
  | String c rest =>
      if Ascii.eqb c sep then EmptyString :: split_on sep rest
      else match split_on sep rest with
           | [] => [String c EmptyString]
           | w :: ws => String c w :: ws
           end
  end.

End Py.
Export Py.

Notation "x <- r ;; k" := (Py.bind r (fun x => k))
  (at level 100, r at next level, right associativity).

(** ** The local JSON collections *)

(** Text of a file.  [Blank] is text whose [strip()] is the empty
    string, [Garbage] any other text that [json.loads] rejects with
    [JSONDecodeError], [Json a] text that parses to [a]. *)
Inductive text (A : Type) : Type :=
| Blank
| Garbage
| Json (a : A).
Arguments Blank {A}.
Arguments Garbage {A}.
Arguments Json {A} a.

(** A file of the bot: not there, or text. *)
Inductive file (A : Type) : Type :=
| Absent
| Text (t : text A).
Arguments Absent {A}.
Arguments Text {A} t.

(** What can be on the disk under the path of a file: a [file], bytes
    that are not UTF-8, or text whose brackets are nested deeper than
    the recursion limit of the interpreter allows [json.loads] to
    follow. *)
Inductive disk (A : Type) : Type :=
| Kept (f : file A)
| NotUtf8
| TooDeep.
Arguments Kept {A} f.
Arguments NotUtf8 {A}.
Arguments TooDeep {A}.

Coercion Kept : file >-> disk.

(** What [f.read()] returns. *)
Inductive contents (A : Type) : Type :=
| Chars (t : text A)
| Nested.
Arguments Chars {A} t.
Arguments Nested {A}.

(** [open(path, "r", encoding='utf-8')] followed by [f.read()]. *)
Definition open_read {A} (f : disk A) : result (contents A) :=
  match f with
  | Kept Absent => Raise FileNotFoundError
  | Kept (Text t) => Ok (Chars t)
  | NotUtf8 => Raise UnicodeDecodeError
  | TooDeep => Ok Nested
  end.

(** [not data] after [data = f.read().strip()]. *)
Definition is_blank {A} (data : contents A) : bool :=
  match data with Chars Blank => true | _ => false end.

(** [json.loads(data)] and [json.load(f)]. *)
Definition json_loads {A} (data : contents A) : result A :=
  match data with
  | Chars (Json a) => Ok a
  | Chars Blank | Chars Garbage => Raise JSONDecodeError
  | Nested => Raise RecursionError
  end.

(** [json.dump(x, f)] on a file opened with mode "w". *)
Definition json_dump {A} (a : A) : file A := Text (Json a).

(** A stored reminder or poll (a dict). *)
Record item : Type := Item {
  k_id : option string;
  k_type : option string;
  k_datetime : option string;
  k_time : option string;
  k_day : option string;
  k_status : option string;
  k_last_sent : option string;
  k_delivery_status : option string;
  k_text : option string;
  k_question : option string;
  k_options : option (list string);
  k_allow_multiple_answers : option bool
}.

#[global] Instance item_eq_dec : EqDecision item.
Proof. solve_decision. Defined.

(** The dict with no key at all ([not poll] is true for it). *)
Definition empty_dict : item :=
  Item None None None None None None None None None None None None.

Definition load_reminders (reminders_json : disk (list item)) : result (list item) :=
  try_except
    (data <- open_read reminders_json ;;
     if is_blank data then Ok [] else json_loads data)
    (fun e => match e with
              | FileNotFoundError | JSONDecodeError => true
              | _ => false
              end)
    (fun _ => Ok []).

Definition load_polls (polls_json : disk (list item)) : result (list item) :=
  try_except
    (content <- open_read polls_json ;;
     if is_blank content then Ok [] else json_loads content)
    any_exception
    (fun _ => Ok []).

(** [save_reminders] and [save_polls]: the whole collection replaces the
    file. *)
Definition save_reminders (reminders : list item) : file (list item) :=
  json_dump reminders.

Definition save_polls (polls : list item) : file (list item) :=
  json_dump polls.

(** ** Library functions of the Python platform

    [datetime.strptime], [pytz], [int] and [str.lower] are not code of
    the repository: the development is parametric in them. *)
Class PyLib : Type := {
  (** [MOSCOW_TZ.localize(datetime.strptime(s, "%Y-%m-%d %H:%M"))] as an
      instant, in microseconds since the epoch; [None] is [ValueError]. *)
  strptime_msk : string -> option Z;
  (** [int(s)]; [None] is [ValueError]. *)
  py_int : string -> option Z;
  (** [s.lower()]. *)
  lower : string -> string
}.

(** One reading of [get_moscow_time()] and one of [datetime.utcnow()],
    as instants in microseconds. *)
Record Clock : Type := {
  moscow_now : Z;
  utc_now : Z
}.

Definition seconds (n : Z) : Z := n * 1000000.

(** ** The job queue *)

Inductive callback : Type :=
| send_reminder_cb
| send_poll_cb
| other_cb (name : string).

Inductive trigger : Type :=
| RunOnce (when : Z)                            (* run_once(cb, when) *)
| RunDaily (hour minute : Z) (days : list Z)    (* run_daily(cb, time, days) *)
| RunRepeating (interval first : Z).            (* run_repeating(cb, ...) *)

Record Job : Type := {
  job_callback : callback;
  job_trigger : trigger;
  job_context : option item;
  job_name : string
}.

#[global] Instance callback_eq_dec : EqDecision callback.
Proof. solve_decision. Defined.
#[global] Instance trigger_eq_dec : EqDecision trigger.
Proof. solve_decision. Defined.
#[global] Instance Job_eq_dec : EqDecision Job.
Proof. solve_decision. Defined.

(** [days=tuple(range(7))], the default of [run_daily]. *)
Definition every_day : list Z := [0; 1; 2; 3; 4; 5; 6].

Definition run_once (cb : callback) (when : Z) (context : item) (name : string)
    (job_queue : list Job) : list Job :=
  job_queue ++ [Build_Job cb (RunOnce when) (Some context) name].

Definition run_daily (cb : callback) (time : Z * Z) (days : list Z)
    (context : item) (name : string) (job_queue : list Job) : list Job :=
  job_queue ++ [Build_Job cb (RunDaily (fst time) (snd time) days) (Some context) name].

(** [for job in job_queue.jobs(): if job.name == name: job.schedule_removal()]. *)
Definition remove_named (name : string) (job_queue : list Job) : list Job :=
  filter (fun job => job_name job <> name) job_queue.

(** [for job in job_queue.jobs(): if job.name and job.name.startswith(p):
    job.schedule_removal()]. *)
Definition remove_prefixed (p : string) (job_queue : list Job) : list Job :=
  filter (fun job => startswith (job_name job) p = false) job_queue.

(** ** Scheduler *)

(** [d[key]]: [KeyError] on an absent key. *)
Definition getitem {A} (key : string) (field : option A) : result A :=
  match field with
  | Some a => Ok a
  | None => Raise (KeyError key)
  end.

(** [d.get(key, default)]. *)
Definition get_or {A} (field : option A) (default : A) : A :=
  match field with
  | Some a => a
  | None => default
  end.

(** [datetime.time(hour=h, minute=m)]. *)
Definition dt_time (h m : Z) : result (Z * Z) :=
  if (0 <=? h) && (h <? 24) && (0 <=? m) && (m <? 60) then Ok (h, m)
  else Raise (ValueError "hour or minute out of range").

Definition days_map (day : string) : result Z :=
  if String.eqb day "понедельник" then Ok 0
  else if String.eqb day "вторник" then Ok 1
  else if String.eqb day "среда" then Ok 2
  else if String.eqb day "четверг" then Ok 3
  else if String.eqb day "пятница" then Ok 4
  else if String.eqb day "суббота" then Ok 5
  else if String.eqb day "воскресенье" then Ok 6
  else Raise (KeyError day).

Section Scheduler.
Context `{PyLib}.

Definition strptime (s : string) : result Z :=
  match strptime_msk s with
  | Some t => Ok t
  | None => Raise (ValueError "time data does not match format")
  end.

(** [h, m = map(int, s.split(":"))]. *)
Definition split_hm (s : string) : result (Z * Z) :=
  match split_on ":" s with
  | [a; b] =>
      match py_int a, py_int b with
      | Some h, Some m => Ok (h, m)
      | _, _ => Raise (ValueError "invalid literal for int()")
      end
  | _ => Raise (ValueError "wrong number of values to unpack")
  end.

(** The name [schedule_reminder] gives its job: [f"reminder_{reminder.get('id')}"]. *)
Definition reminder_job_name (reminder : item) : string :=
  "reminder_" +:+ get_or (k_id reminder) "None".

(** The body of [schedule_reminder] after the removal loop.  Every
    statement that can raise comes before the one call that adds a job,
    so an exception leaves the queue as the removal loop left it. *)
Definition schedule_reminder_body (clock : Clock) (job_queue : list Job)
    (reminder : item) : result (list Job) :=
  ty <- getitem "type" (k_type reminder) ;;
  if String.eqb ty "once" then
    s <- getitem "datetime" (k_datetime reminder) ;;
    moscow_dt <- strptime s ;;
    let utc_dt := moscow_dt in
    if moscow_now clock <? moscow_dt then
      Ok (run_once send_reminder_cb utc_dt reminder (reminder_job_name reminder) job_queue)
    else Ok job_queue
  else if String.eqb ty "daily" then
    s <- getitem "time" (k_time reminder) ;;
    hm <- split_hm s ;;
    let '(h, m) := hm in
    _ <- dt_time h m ;;
    let utc_hour := (h - 3) `mod` 24 in
    utc_time <- dt_time utc_hour m ;;
    Ok (run_daily send_reminder_cb utc_time every_day reminder
          (reminder_job_name reminder) job_queue)
  else if String.eqb ty "weekly" then
    d <- getitem "day" (k_day reminder) ;;
    weekday <- days_map (lower d) ;;
    s <- getitem "time" (k_time reminder) ;;
    hm <- split_hm s ;;
    let '(h, m) := hm in
    let utc_hour := (h - 3) `mod` 24 in
    utc_time <- dt_time utc_hour m ;;
    Ok (run_daily send_reminder_cb utc_time [weekday] reminder
          (reminder_job_name reminder) job_queue)
  else Ok job_queue.

Definition schedule_reminder (clock : Clock) (job_queue : list Job)
    (reminder : item) : list Job :=
  let job_queue := remove_named (reminder_job_name reminder) job_queue in
  match schedule_reminder_body clock job_queue reminder with
  | Ok q => q
  | Raise _ => job_queue
  end.

(** [f"poll_{poll_id}"] with [poll_id = poll.get('id', 'unknown')]. *)
Definition poll_job_name (poll : item) : string :=
  "poll_" +:+ get_or (k_id poll) "unknown".

Definition schedule_poll_body (clock : Clock) (job_queue : list Job)
    (poll : item) : result (list Job) :=
  ty <- getitem "type" (k_type poll) ;;
  if String.eqb ty "once" || String.eqb ty "one_time" then
    let datetime_str := get_or (k_datetime poll) "" in
    moscow_dt <- strptime datetime_str ;;
    let utc_dt := moscow_dt in
    let current_moscow_time := moscow_now clock in
    let time_diff := moscow_dt - current_moscow_time in
    if current_moscow_time <? moscow_dt then
      Ok (run_once send_poll_cb utc_dt poll (poll_job_name poll) job_queue)
    else if (moscow_dt <=? current_moscow_time) && (seconds (-3600) <=? time_diff) then
      Ok (run_once send_poll_cb (utc_now clock + seconds 5) poll
            (poll_job_name poll +:+ "_missed") job_queue)
    else Ok job_queue
  else if String.eqb ty "daily" || String.eqb ty "daily_poll" then
    let time_str := get_or (k_time poll) "" in
    hm <- split_hm time_str ;;
    let '(h, m) := hm in
    _ <- dt_time h m ;;
    let utc_hour := (h - 3) `mod` 24 in
    utc_time <- dt_time utc_hour m ;;
    Ok (run_daily send_poll_cb utc_time every_day poll (poll_job_name poll) job_queue)
  else if String.eqb ty "weekly" || String.eqb ty "weekly_poll" then
    let day_str := get_or (k_day poll) "" in
    let time_str := get_or (k_time poll) "" in
    weekday <- days_map (lower day_str) ;;
    hm <- split_hm time_str ;;
    let '(h, m) := hm in
    let utc_hour := (h - 3) `mod` 24 in
    utc_time <- dt_time utc_hour m ;;
    Ok (run_daily send_poll_cb utc_time [weekday] poll (poll_job_name poll) job_queue)
  else Ok job_queue.

Definition schedule_poll (clock : Clock) (job_queue : list Job) (poll : item)
    : list Job :=
  let job_queue := remove_named (poll_job_name poll) job_queue in
  match schedule_poll_body clock job_queue poll with
  | Ok q => q
  | Raise _ => job_queue
  end.

(** One pass reads the clock once per record; the pass is taken at one
    reading. *)
Definition schedule_polls (clock : Clock) (polls : list item)
    (job_queue : list Job) : list Job :=
  fold_left
    (fun q poll =>
       if bool_decide (k_status poll = Some "Active")
       then schedule_poll clock q poll else q)
    polls job_queue.

Definition schedule_all_polls (clock : Clock) (polls_json : file (list item))
    (job_queue : list Job) : list Job :=
  match load_polls polls_json with
  | Ok polls => schedule_polls clock polls job_queue
  | Raise _ => job_queue
  end.

Definition reschedule_all_polls (clock : Clock) (polls_json : file (list item))
    (job_queue : list Job) : list Job :=
  schedule_all_polls clock polls_json (remove_prefixed "poll_" job_queue).

Definition schedule_reminders (clock : Clock) (reminders : list item)
    (job_queue : list Job) : list Job :=
  fold_left (schedule_reminder clock) reminders job_queue.

Definition schedule_all_reminders (clock : Clock)
    (reminders_json : file (list item)) (job_queue : list Job) : list Job :=
  match load_reminders reminders_json with
  | Ok reminders => schedule_reminders clock reminders job_queue
  | Raise _ => job_queue
  end.

Definition reschedule_all_reminders (clock : Clock)
    (reminders_json : file (list item)) (job_queue : list Job) : list Job :=
  schedule_all_reminders clock reminders_json (remove_prefixed "reminder_" job_queue).

End Scheduler.

(** ** The world a firing or a reconciliation runs in *)

(** Calls the code makes on [sheets_manager] that mirror local data to the
    backup store.  The purely diagnostic calls ([log_send_history],
    [log_poll_sent], [log_reminder_action], [log_poll_action]) are left
    out: each of them stands alone in its [try/except] or is the last
    statement of one, so it changes neither the flow nor the local data. *)
Inductive sheets_call : Type :=
| sync_reminder (reminder : item) (action : string)
| sync_poll (poll : item) (action : string)
| sync_subscribed_chats_to_sheets (chats : option (list Z))
| update_chat_stats (chat_id : Z) (status : string)
| log_operation (action : string).

Inductive parse_mode : Type :=
| HTML        (* send_message(..., parse_mode=ParseMode.HTML) *)
| Plain       (* send_message without parse_mode: the fallback *)
| PollMessage (* send_poll *).

#[global] Instance parse_mode_eq_dec : EqDecision parse_mode.
Proof. solve_decision. Defined.

(** What the code reads and writes.  The three files are text or absent:
    every writer of [bot.py] goes through [json.dump], so the states of
    [disk] outside [file] do not arise from the bot itself. *)
Record World : Type := {
  reminders_json : file (list item);
  polls_json : file (list item);
  subscribed_chats_json : file (list Z);
  job_queue : list Job;
  (** calls received by the Sheets manager, oldest first *)
  sheets : list sheets_call;
  (** gateway sends attempted, oldest first *)
  outbox : list (Z * parse_mode)
}.

Definition set_reminders (f : file (list item)) (w : World) : World :=
  {| reminders_json := f; polls_json := polls_json w;
     subscribed_chats_json := subscribed_chats_json w;
     job_queue := job_queue w; sheets := sheets w; outbox := outbox w |}.

Definition set_polls (f : file (list item)) (w : World) : World :=
  {| reminders_json := reminders_json w; polls_json := f;
     subscribed_chats_json := subscribed_chats_json w;
     job_queue := job_queue w; sheets := sheets w; outbox := outbox w |}.

Definition set_chats (f : file (list Z)) (w : World) : World :=
  {| reminders_json := reminders_json w; polls_json := polls_json w;
     subscribed_chats_json := f;
     job_queue := job_queue w; sheets := sheets w; outbox := outbox w |}.

Definition set_jobs (q : list Job) (w : World) : World :=
  {| reminders_json := reminders_json w; polls_json := polls_json w;
     subscribed_chats_json := subscribed_chats_json w;
     job_queue := q; sheets := sheets w; outbox := outbox w |}.

Definition set_sheets (l : list sheets_call) (w : World) : World :=
  {| reminders_json := reminders_json w; polls_json := polls_json w;
     subscribed_chats_json := subscribed_chats_json w;
     job_queue := job_queue w; sheets := l; outbox := outbox w |}.

Definition set_outbox (l : list (Z * parse_mode)) (w : World) : World :=
  {| reminders_json := reminders_json w; polls_json := polls_json w;
     subscribed_chats_json := subscribed_chats_json w;
     job_queue := job_queue w; sheets := sheets w; outbox := l |}.

(** Answer of the gateway to one send. *)
Inductive send_result : Type :=
| Sent
| Failed (error_str : string).

(** Answer of a Sheets restore call. *)
Inductive restore (A : Type) : Type :=
| Restored (a : A)
| NotRestored
| RestoreRaised.
Arguments Restored {A} a.
Arguments NotRestored {A}.
Arguments RestoreRaised {A}.

(** What the outside gives one run of a callback or handler. *)
Record Env : Type := {
  (** [SHEETS_AVAILABLE and sheets_manager and sheets_manager.is_initialized] *)
  sheets_ready : bool;
  (** whether a mirror call raises *)
  sheets_raises : sheets_call -> bool;
  (** answers of the three restore calls *)
  backup_chats : restore (list Z);
  backup_reminders : restore (list item);
  backup_polls : restore (list item);
  (** answer of the gateway to the send made for the chat at a position
      of the subscriber list *)
  bot_send_message : nat -> Z -> parse_mode -> send_result;
  bot_send_poll : nat -> Z -> send_result;
  (** [get_moscow_time().strftime("%Y-%m-%d %H:%M:%S")] read when the
      record is updated *)
  moscow_sent_time : string;
  (** clock readings of a scheduling pass *)
  clock : Clock
}.

(** State and exceptions: a computation changes the world and returns or
    raises. *)
Definition M (A : Type) : Type := World -> World * result A.

Definition ret {A} (a : A) : M A := fun w => (w, Ok a).

Definition raise {A} (e : exn) : M A := fun w => (w, Raise e).

Definition mbind {A B} (m : M A) (k : A -> M B) : M B :=
  fun w =>
    match m w with
    | (w', Ok a) => k a w'
    | (w', Raise e) => (w', Raise e)
    end.

Notation "x <~ m ;; k" := (mbind m (fun x => k))
  (at level 100, m at next level, right associativity).

(** [try: body except classes: handler]; what [body] did before it
    raised stays done. *)
Definition catch {A} (body : M A) (catches : exn -> bool) (handler : M A) : M A :=
  fun w =>
    match body w with
    | (w', Ok a) => (w', Ok a)
    | (w', Raise e) => if catches e then handler w' else (w', Raise e)
    end.

Definition get {A} (proj : World -> A) : M A := fun w => (w, Ok (proj w)).

Definition modify (f : World -> World) : M unit := fun w => (f w, Ok tt).

Definition lift {A} (r : result A) : M A := fun w => (w, r).

(** The world a callback leaves: its own [except Exception] swallows
    whatever is still raised. *)
Definition run (m : M unit) (w : World) : World := fst (m w).

(** [save_chats(chats)]. *)
Definition save_chats (chats : list Z) : M unit :=
  modify (set_chats (json_dump chats)).

(** A call on the Sheets manager: it is received, then returns or raises. *)
Definition sheets_manager (env : Env) (c : sheets_call) : M unit :=
  _ <~ modify (fun w => set_sheets (sheets w ++ [c]) w) ;;
  if sheets_raises env c then raise SheetsError else ret tt.

(** [load_reminders()] and [load_polls()] on the files of the world. *)
Definition load_reminders_m : M (list item) :=
  f <~ get reminders_json ;; lift (load_reminders f).

Definition load_polls_m : M (list item) :=
  f <~ get polls_json ;; lift (load_polls f).

(** [for a in l: body(a)]. *)
Fixpoint for_each {A} (l : list A) (body : A -> M unit) : M unit :=
  match l with
  | [] => ret tt
  | a :: rest => _ <~ body a ;; for_each rest body
  end.

(** [if SHEETS_AVAILABLE and sheets_manager and sheets_manager.is_initialized:
       try: call; call; ... except Exception as e: logger.error(...)]:
    the calls are made in order until one raises. *)
Definition mirror (env : Env) (calls : list sheets_call) : M unit :=
  if sheets_ready env then
    catch (for_each calls (sheets_manager env)) any_exception (ret tt)
  else ret tt.

(** ** Subscriber registry *)

(** [with open("subscribed_chats.json", "r") as f: chats = json.load(f)]. *)
Definition read_chats : M (list Z) :=
  f <~ get subscribed_chats_json ;;
  lift (t <- open_read f ;; json_loads t).

(** Modelled from the spec: [sheets_manager.restore_subscribed_chats_file()]
    is code of the repository outside [bot.py].  Reconciliation pulls the
    subscriber set from the backup store and fully overwrites the local
    collection; when the backup store cannot be reached the local
    collection stays as it was. *)
Definition restore_subscribed_chats_file (env : Env) : M bool :=
  match backup_chats env with
  | Restored chats => _ <~ save_chats chats ;; ret true
  | NotRestored => ret false
  | RestoreRaised => raise SheetsError
  end.

Definition ensure_subscribed_chats_file (env : Env) : M bool :=
  found <~ catch
      (chats <~ read_chats ;;
       ret (match chats with [] => false | _ :: _ => true end))
      (fun e => match e with
                | FileNotFoundError | JSONDecodeError | TypeError => true
                | _ => false
                end)
      (ret false) ;;
  if found then ret true
  else
    restored <~ (if sheets_ready env then restore_subscribed_chats_file env
                 else ret false) ;;
    if restored then ret true
    else _ <~ save_chats [] ;; ret false.

(** The block that opens both callbacks: read the subscriber list, and on
    a missing, invalid or empty file try the emergency restore.
    [None] is the early [return] ("no reminders will be sent"). *)
Definition load_chats_or_restore (env : Env) : M (option (list Z)) :=
  catch
    (chats <~ read_chats ;;
     match chats with
     | [] => raise (ValueError "Empty chats list")
     | _ :: _ => ret (Some chats)
     end)
    (fun e => match e with
              | FileNotFoundError => true
              | _ => is_ValueError e
              end)
    (ok <~ ensure_subscribed_chats_file env ;;
     if ok then
       catch (chats <~ read_chats ;; ret (Some chats)) any_exception (ret None)
     else ret None).

(** [chats.remove(chat_id)]: the first occurrence goes. *)
Fixpoint list_remove (chat_id : Z) (chats : list Z) : list Z :=
  match chats with
  | [] => []
  | c :: rest => if bool_decide (c = chat_id) then rest else c :: list_remove chat_id rest
  end.

Definition unsubscribe_user (env : Env) (chat_id : Z) : M bool :=
  catch
    (chats <~ catch read_chats
         (fun e => match e with
                   | FileNotFoundError | JSONDecodeError => true
                   | _ => false
                   end)
         (ret []) ;;
     if bool_decide (chat_id ∈ chats) then
       let chats := list_remove chat_id chats in
       _ <~ save_chats chats ;;
       _ <~ mirror env [log_operation "CHAT_UNSUBSCRIBE";
                        sync_subscribed_chats_to_sheets (Some chats);
                        update_chat_stats chat_id "Unsubscribed"] ;;
       ret true
     else ret false)
    any_exception (ret false).

(** ** Delivery engine *)

(** The four error texts that mean the chat is gone for good. *)
Definition is_unreachable (error_str : string) : bool :=
  contains "Forbidden: bot was blocked by the user" error_str ||
  contains "Forbidden: user is deactivated" error_str ||
  contains "Forbidden: the group chat was deleted" error_str ||
  contains "Bad Request: chat not found" error_str.

(** The variables the fan-out loop carries, and the sends it attempted. *)
Record tally : Type := {
  total_sent : nat;
  total_failed : nat;
  blocked_chats : list Z;
  attempts : list (Z * parse_mode)
}.

Definition no_tally : tally :=
  {| total_sent := 0; total_failed := 0; blocked_chats := []; attempts := [] |}.

(** One iteration of the loop of [send_reminder] for the chat [cid] at
    position [i].  The two [get_chat] calls only choose the keyboard of
    the message and are left out. *)
Definition reminder_step (env : Env) (i : nat) (cid : Z) (t : tally) : tally :=
  match bot_send_message env i cid HTML with
  | Sent =>
      {| total_sent := S (total_sent t); total_failed := total_failed t;
         blocked_chats := blocked_chats t;
         attempts := attempts t ++ [(cid, HTML)] |}
  | Failed error_str =>
      if is_unreachable error_str then
        {| total_sent := total_sent t; total_failed := S (total_failed t);
           blocked_chats := blocked_chats t ++ [cid];
           attempts := attempts t ++ [(cid, HTML)] |}
      else
        match bot_send_message env i cid Plain with
        | Sent =>
            {| total_sent := S (total_sent t); total_failed := total_failed t;
               blocked_chats := blocked_chats t;
               attempts := attempts t ++ [(cid, HTML); (cid, Plain)] |}
        | Failed error_str2 =>
            {| total_sent := total_sent t; total_failed := S (total_failed t);
               blocked_chats :=
                 if is_unreachable error_str2 then blocked_chats t ++ [cid]
                 else blocked_chats t;
               attempts := attempts t ++ [(cid, HTML); (cid, Plain)] |}
        end
  end.

(** One iteration of the loop of [send_poll]. *)
Definition poll_step (env : Env) (i : nat) (cid : Z) (t : tally) : tally :=
  match bot_send_poll env i cid with
  | Sent =>
      {| total_sent := S (total_sent t); total_failed := total_failed t;
         blocked_chats := blocked_chats t;
         attempts := attempts t ++ [(cid, PollMessage)] |}
  | Failed error_str =>
      {| total_sent := total_sent t; total_failed := S (total_failed t);
         blocked_chats :=
           if is_unreachable error_str then blocked_chats t ++ [cid]
           else blocked_chats t;
         attempts := attempts t ++ [(cid, PollMessage)] |}
  end.

(** [for cid in chats[:]: ...], positions counted from [i]. *)
Fixpoint fan_out (step : nat -> Z -> tally -> tally) (i : nat) (chats : list Z)
    (t : tally) : tally :=
  match chats with
  | [] => t
  | cid :: rest => fan_out step (S i) rest (step i cid t)
  end.

(** [updated = record.copy(); updated['last_sent'] = sent_time;
    updated['delivery_status'] = status]. *)
Definition updated (record : item) (sent_time status : string) : item :=
  {| k_id := k_id record; k_type := k_type record;
     k_datetime := k_datetime record; k_time := k_time record;
     k_day := k_day record; k_status := k_status record;
     k_last_sent := Some sent_time;
     k_delivery_status := Some status;
     k_text := k_text record; k_question := k_question record;
     k_options := k_options record;
     k_allow_multiple_answers := k_allow_multiple_answers record |}.

(** [[r for r in records if r.get("id") != record.get("id")]]. *)
Definition without_id (record : item) (records : list item) : list item :=
  filter (fun r => k_id r <> k_id record) records.

(** [for i, p in enumerate(polls): if p.get('id') == poll.get('id'):
    polls[i] = updated_poll; break]. *)
Definition rewrite_in_place (poll updated_poll : item) (polls : list item)
    : list item :=
  match list_find (fun p => k_id p = k_id poll) polls with
  | Some (i, _) => <[i := updated_poll]> polls
  | None => polls
  end.

(** [f"Sent to {total_sent} chats, failed to {total_failed} chats, removed
    {len(blocked_chats)} blocked"]. *)
Definition reminder_delivery_status (t : tally) : string :=
  "Sent to " +:+ pretty (total_sent t) +:+ " chats, failed to " +:+
  pretty (total_failed t) +:+ " chats, removed " +:+
  pretty (length (blocked_chats t)) +:+ " blocked".

(** [f"Sent to {total_sent} chats, {total_failed} failed"]. *)
Definition poll_delivery_status (t : tally) : string :=
  "Sent to " +:+ pretty (total_sent t) +:+ " chats, " +:+
  pretty (total_failed t) +:+ " failed".

(** The text both callbacks store when nobody is subscribed. *)
Definition no_recipients : string := "No recipients available - auto-deleted".

Definition is_once_reminder (reminder : item) : bool :=
  bool_decide (k_type reminder = Some "once").

Definition is_once_poll (poll : item) : bool :=
  bool_decide (k_type poll = Some "once") || bool_decide (k_type poll = Some "one_time").

(** Removal of a one-time reminder: local file first, then the mirror. *)
Definition delete_once_reminder (env : Env) (reminder updated_reminder : item)
    : M unit :=
  reminders <~ load_reminders_m ;;
  _ <~ modify (set_reminders (save_reminders (without_id reminder reminders))) ;;
  mirror env [sync_reminder updated_reminder "UPDATE";
              sync_reminder updated_reminder "DELETE"].

Definition send_reminder (env : Env) (reminder : item) : M unit :=
  catch
    (loaded <~ load_chats_or_restore env ;;
     match loaded with
     | None => ret tt
     | Some [] =>
         if is_once_reminder reminder then
           delete_once_reminder env reminder
             (updated reminder (moscow_sent_time env) no_recipients)
         else ret tt
     | Some chats =>
         let t := fan_out (reminder_step env) 0 chats no_tally in
         _ <~ modify (fun w => set_outbox (outbox w ++ attempts t) w) ;;
         _ <~ match blocked_chats t with
              | [] => ret tt
              | _ :: _ =>
                  _ <~ save_chats (filter (fun cid => cid ∉ blocked_chats t) chats) ;;
                  for_each (blocked_chats t)
                    (fun blocked_chat_id =>
                       catch (_ <~ unsubscribe_user env blocked_chat_id ;; ret tt)
                         any_exception (ret tt))
              end ;;
         if is_once_reminder reminder then
           delete_once_reminder env reminder
             (updated reminder (moscow_sent_time env) (reminder_delivery_status t))
         else ret tt
     end)
    any_exception (ret tt).

Definition send_poll (env : Env) (poll : item) : M unit :=
  catch
    (if bool_decide (poll = empty_dict) then ret tt
     else
     loaded <~ load_chats_or_restore env ;;
     match loaded with
     | None => ret tt
     | Some [] =>
         if is_once_poll poll then
           let updated_poll :=
             updated poll (moscow_sent_time env) no_recipients in
           polls <~ load_polls_m ;;
           _ <~ modify (set_polls (save_polls (without_id poll polls))) ;;
           mirror env [sync_poll updated_poll "UPDATE"; sync_poll updated_poll "DELETE"]
         else ret tt
     | Some chats =>
         let t := fan_out (poll_step env) 0 chats no_tally in
         _ <~ modify (fun w => set_outbox (outbox w ++ attempts t) w) ;;
         _ <~ match blocked_chats t with
              | [] => ret tt
              | _ :: _ =>
                  _ <~ save_chats (filter (fun cid => cid ∉ blocked_chats t) chats) ;;
                  mirror env [sync_subscribed_chats_to_sheets None]
              end ;;
         let updated_poll :=
           updated poll (moscow_sent_time env) (poll_delivery_status t) in
         polls <~ load_polls_m ;;
         _ <~ modify (set_polls (save_polls (rewrite_in_place poll updated_poll polls))) ;;
         _ <~ mirror env [sync_poll updated_poll "UPDATE"] ;;
         if is_once_poll poll then
           polls <~ load_polls_m ;;
           _ <~ modify (set_polls (save_polls (without_id poll polls))) ;;
           mirror env [sync_poll updated_poll "DELETE"]
         else ret tt
     end)
    any_exception (ret tt).

(** ** Reconciliation with the backup store *)

(** Modelled from the spec: [sheets_manager.restore_reminders_from_sheets()]
    is code of the repository outside [bot.py].  It pulls the
    authoritative reminder set from the backup store and fully overwrites
    the local collection (replace, not merge), returning [(True, message)];
    when the backup store cannot be reached or the restore fails it
    returns [(False, message)] or raises, and the previous local contents
    remain. *)
Definition restore_reminders_from_sheets (env : Env) : M bool :=
  match backup_reminders env with
  | Restored reminders =>
      _ <~ modify (set_reminders (save_reminders reminders)) ;; ret true
  | NotRestored => ret false
  | RestoreRaised => raise SheetsError
  end.

(** Modelled from the spec: [sheets_manager.restore_polls_from_sheets()],
    the same operation on the poll collection. *)
Definition restore_polls_from_sheets (env : Env) : M bool :=
  match backup_polls env with
  | Restored polls => _ <~ modify (set_polls (save_polls polls)) ;; ret true
  | NotRestored => ret false
  | RestoreRaised => raise SheetsError
  end.

Section Reconciliation.
Context `{PyLib}.

(** The two reschedule functions, run on the queue of the world. *)
Definition do_reschedule_all_reminders (env : Env) : M unit :=
  modify (fun w =>
    set_jobs (reschedule_all_reminders (clock env) (reminders_json w) (job_queue w)) w).

Definition do_reschedule_all_polls (env : Env) : M unit :=
  modify (fun w =>
    set_jobs (reschedule_all_polls (clock env) (polls_json w) (job_queue w)) w).

(** The [/restore] command.  The replies and progress edits sent to the
    operator touch neither the files nor the queue and are left out.
    The command tells the manager when it starts and, unless a restore
    call raised, when it is through. *)
Definition restore_reminders (env : Env) : M unit :=
  catch
    (if negb (sheets_ready env) then ret tt
     else
       _ <~ mirror env [log_operation "RESTORE_ALL_START"] ;;
       _ <~ catch (_ <~ restore_subscribed_chats_file env ;; ret tt)
              any_exception (ret tt) ;;
       success <~ restore_reminders_from_sheets env ;;
       polls_success <~ restore_polls_from_sheets env ;;
       _ <~ (if success || polls_success then
               _ <~ (if success then do_reschedule_all_reminders env else ret tt) ;;
               if polls_success then do_reschedule_all_polls env else ret tt
             else ret tt) ;;
       mirror env [log_operation "RESTORE_ALL_COMPLETE"])
    any_exception (ret tt).

Definition ensure_reminders_file (env : Env) : M (bool * nat) :=
  found <~ catch
      (existing_reminders <~ load_reminders_m ;;
       ret (match existing_reminders with
            | [] => None
            | _ :: _ => Some (length existing_reminders)
            end))
      any_exception (ret None) ;;
  match found with
  | Some n => ret (true, n)
  | None =>
      restored <~ (if sheets_ready env then
                     catch
                       (success <~ restore_reminders_from_sheets env ;;
                        if success then
                          restored_reminders <~ load_reminders_m ;;
                          ret (Some (length restored_reminders))
                        else ret None)
                       any_exception (ret None)
                   else ret None) ;;
      match restored with
      | Some n => ret (true, n)
      | None =>
          _ <~ modify (set_reminders (save_reminders [])) ;; ret (false, 0%nat)
      end
  end.

Definition ensure_polls_file (env : Env) : M (bool * nat) :=
  existing_polls <~ catch load_polls_m any_exception (ret []) ;;
  let local_count := length existing_polls in
  let use_local : M (option (bool * nat)) :=
    if (0 <? local_count)%nat then ret (Some (true, local_count)) else ret None in
  decided <~ (if sheets_ready env then
                catch
                  (success <~ restore_polls_from_sheets env ;;
                   if success then
                     synced_polls <~ load_polls_m ;;
                     ret (Some (true, length synced_polls))
                   else use_local)
                  any_exception use_local
              else use_local) ;;
  match decided with
  | Some answer => ret answer
  | None => _ <~ modify (set_polls (save_polls [])) ;; ret (false, 0%nat)
  end.

Definition auto_sync_reminders (env : Env) : M unit :=
  catch
    (if negb (sheets_ready env) then ret tt
     else
       catch
         (current_reminders <~ load_reminders_m ;;
          success <~ restore_reminders_from_sheets env ;;
          if success then
            synced_reminders <~ load_reminders_m ;;
            if bool_decide (length synced_reminders <> length current_reminders)
            then
              _ <~ do_reschedule_all_reminders env ;;
              mirror env [log_operation "AUTO_SYNC_REMINDERS"]
            else ret tt
          else ret tt)
         any_exception (ret tt))
    any_exception (ret tt).

Definition auto_sync_polls (env : Env) : M unit :=
  catch
    (if negb (sheets_ready env) then ret tt
     else
       catch
         (current_polls <~ load_polls_m ;;
          success <~ restore_polls_from_sheets env ;;
          if success then
            synced_polls <~ load_polls_m ;;
            if bool_decide (length synced_polls <> length current_polls)
            then
              _ <~ do_reschedule_all_polls env ;;
              mirror env [log_operation "AUTO_SYNC_POLLS"]
            else ret tt
          else ret tt)
         any_exception (ret tt))
    any_exception (ret tt).

End Reconciliation.

(** ** A concrete platform for the examples

    A strict reading of the formats the bot itself writes: zero-padded
    ["YYYY-MM-DD HH:MM"] at the fixed offset UTC+3, decimal integers with
    an optional sign, ASCII lower-casing.  The theorems below hold for any
    [PyLib]; this instance only serves to run the code on concrete
    records. *)
Module Example.

Definition digit (c : ascii) : option Z :=
  let n := Z.of_nat (nat_of_ascii c) in
  if (48 <=? n) && (n <=? 57) then Some (n - 48) else None.

Fixpoint digits (acc : Z) (s : string) : option Z :=
  match s with
  | EmptyString => Some acc
  | String c rest =>
      match digit c with
      | Some d => digits (10 * acc + d) rest
      | None => None
      end
  end.

Definition number (s : string) : option Z :=
  match s with
  | EmptyString => None
  | _ => digits 0 s
  end.

Definition int (s : string) : option Z :=
  match s with
  | String "-" rest => Z.opp <$> number rest
  | String "+" rest => number rest
  | _ => number s
  end.

Definition lower_ascii (c : ascii) : ascii :=
  let n := nat_of_ascii c in
  if (65 <=? n)%nat && (n <=? 90)%nat then ascii_of_nat (n + 32) else c.

Fixpoint to_lower (s : string) : string :=
  match s with
  | EmptyString => EmptyString
  | String c rest => String (lower_ascii c) (to_lower rest)
  end.

Definition is_leap (y : Z) : bool :=
  ((y mod 4 =? 0) && negb (y mod 100 =? 0)) || (y mod 400 =? 0).

Definition days_in_month (y m : Z) : Z :=
  if m =? 2 then (if is_leap y then 29 else 28)
  else if (m =? 4) || (m =? 6) || (m =? 9) || (m =? 11) then 30
  else 31.

(** Days from 1970-01-01 to the civil date. *)
Definition days_from_civil (y m d : Z) : Z :=
  let y := if m <=? 2 then y - 1 else y in
  let era := y / 400 in
  let yoe := y - era * 400 in
  let doy := (153 * (m + (if 2 <? m then -3 else 9)) + 2) / 5 + d - 1 in
  let doe := yoe * 365 + yoe / 4 - yoe / 100 + doy in
  era * 146097 + doe - 719468.

(** The instant of a Moscow civil time, in microseconds. *)
Definition moscow (y mo d h mi s : Z) : Z :=
  seconds (days_from_civil y mo d * 86400 + h * 3600 + mi * 60 + s - 3 * 3600).

Definition parse_msk (s : string) : option Z :=
  if negb (String.length s =? 16)%nat then None
  else if negb (String.eqb (substring 4 1 s) "-" && String.eqb (substring 7 1 s) "-"
                && String.eqb (substring 10 1 s) " "
                && String.eqb (substring 13 1 s) ":") then None
  else
    match number (substring 0 4 s), number (substring 5 2 s),
          number (substring 8 2 s), number (substring 11 2 s),
          number (substring 14 2 s) with
    | Some y, Some mo, Some d, Some h, Some mi =>
        if (1 <=? mo) && (mo <=? 12) && (1 <=? d) && (d <=? days_in_month y mo)
           && (h <? 24) && (mi <? 60)
        then Some (moscow y mo d h mi 0) else None
    | _, _, _, _, _ => None
    end.

Definition lib : PyLib :=
  {| strptime_msk := parse_msk; py_int := int; lower := to_lower |}.

End Example.

(** ** Notions the statements use *)

(** The calls of a [try] block that reach the Sheets manager: all of them
    up to and including the first one that raises. *)
Fixpoint received (env : Env) (calls : list sheets_call) : list sheets_call :=
  match calls with
  | [] => []
  | c :: rest => c :: (if sheets_raises env c then [] else received env rest)
  end.

Definition mirrored (env : Env) (calls : list sheets_call) : list sheets_call :=
  if sheets_ready env then received env calls else [].


(** What a loader returns is what the file holds. *)
Definition collection {A} (f : file (list A)) : list A :=
  match f with
  | Text (Json l) => l
  | _ => []
  end.

(** Live jobs of one collection ([prefix] is "reminder_" or "poll_")
    whose context is the record with the given id. *)
Definition jobs_for (prefix : string) (id : option string) (q : list Job) : list Job :=
  filter (fun j => startswith (job_name j) prefix = true /\
                   k_id <$> job_context j = Some id) q.

Definition job_key (j : Job) : callback * trigger * string :=
  (job_callback j, job_trigger j, job_name j).

(** [reminder['status'] = s] *)
Definition with_status (s : option string) (r : item) : item :=
  {| k_id := k_id r; k_type := k_type r;
     k_datetime := k_datetime r; k_time := k_time r;
     k_day := k_day r; k_status := s;
     k_last_sent := k_last_sent r;
     k_delivery_status := k_delivery_status r;
     k_text := k_text r; k_question := k_question r;
     k_options := k_options r;
     k_allow_multiple_answers := k_allow_multiple_answers r |}.

(** Reminder jobs: the name of a job is the name of its record. *)
Definition named_after_record (q : list Job) : Prop :=
  forall j, j ∈ q -> startswith (job_name j) "reminder_" = true ->
    exists r, job_context j = Some r /\ job_name j = reminder_job_name r.

Definition at_most_one (prefix : string) (q : list Job) : Prop :=
  forall id, (length (jobs_for prefix id q) <= 1)%nat.

(** Poll jobs: every job of the collection belongs to a record already
    seen by the pass. *)
Definition contexts_among (seen : list (option string)) (q : list Job) : Prop :=
  forall j, j ∈ q -> startswith (job_name j) "poll_" = true ->
    exists r, job_context j = Some r /\ k_id r ∈ seen.

Definition poll_1 : item :=
  {| k_id := Some "1"; k_type := Some "once";
     k_datetime := Some "2024-05-01 11:30"; k_time := None; k_day := None;
     k_status := Some "Active"; k_last_sent := None; k_delivery_status := None;
     k_text := None; k_question := Some "Lunch?";
     k_options := Some ["yes"; "no"]; k_allow_multiple_answers := Some true |}.

Definition reminder_1 : item :=
  {| k_id := Some "1"; k_type := Some "once";
     k_datetime := Some "2024-05-01 11:30"; k_time := None; k_day := None;
     k_status := None; k_last_sent := None; k_delivery_status := None;
     k_text := Some "X"; k_question := None;
     k_options := None; k_allow_multiple_answers := None |}.

(** Noon in Moscow on 2024-05-01, half an hour after the trigger above. *)
Definition noon : Clock :=
  {| moscow_now := Example.moscow 2024 5 1 12 0 0;
     utc_now := Example.moscow 2024 5 1 12 0 0 |}.

(** A loop step only appends to what the loop has gathered so far. *)
Definition additive (step : nat -> Z -> tally -> tally) : Prop :=
  forall i cid t,
    blocked_chats (step i cid t) = blocked_chats t ++ blocked_chats (step i cid no_tally) /\
    attempts (step i cid t) = attempts t ++ attempts (step i cid no_tally).

(** One firing: a callback, the record of its job, and what the outside
    answers during that run. *)
Inductive firing : Type :=
| fire_reminder (env : Env) (reminder : item)
| fire_poll (env : Env) (poll : item).

Definition firing_env (f : firing) : Env :=
  match f with
  | fire_reminder env _ => env
  | fire_poll env _ => env
  end.

Definition fire (f : firing) (w : World) : World :=
  match f with
  | fire_reminder env reminder => run (send_reminder env reminder) w
  | fire_poll env poll => run (send_poll env poll) w
  end.

(** Firings one after the other, with no other writer in between. *)
Definition fire_all (fs : list firing) (w : World) : World :=
  fold_left (fun w f => fire f w) fs w.

(** The backup store does not hand the chat back to a firing that
    restores the subscriber list. *)
Definition backup_without (cid : Z) (f : firing) : Prop :=
  forall l, backup_chats (firing_env f) = Restored l -> cid ∉ l.

(** The chat is not in the persisted subscriber list. *)
Definition not_subscribed (cid : Z) (w : World) : Prop :=
  forall l, subscribed_chats_json w = Text (Json l) -> cid ∉ l.

(** Between two worlds no send was attempted to the chat. *)
Definition never_sent_to (cid : Z) (before after : World) : Prop :=
  exists new, outbox after = outbox before ++ new /\ forall mode, (cid, mode) ∉ new.

(** The chat is gone from the persisted list, and no later firing sends
    to it. *)
Definition removed_for_good (cid : Z) (w : World) : Prop :=
  (exists rest, subscribed_chats_json w = json_dump rest /\ cid ∉ rest) /\
  forall fs, Forall (backup_without cid) fs -> never_sent_to cid w (fire_all fs w).

(** The restore of a collection did not succeed: the Sheets manager is
    not available, or its restore call reports failure or raises. *)
Definition backup_failed {A} (ready : bool) (answer : restore A) : Prop :=
  ready = false \/ answer = NotRestored \/ answer = RestoreRaised.

(** The live jobs of one collection. *)
Definition reminder_jobs (q : list Job) : list Job :=
  filter (fun job => startswith (job_name job) "reminder_" = true) q.

Definition poll_jobs (q : list Job) : list Job :=
  filter (fun job => startswith (job_name job) "poll_" = true) q.

(** ** Concrete records, worlds and environments *)

Definition daily_reminder : item :=
  {| k_id := Some "2"; k_type := Some "daily";
     k_datetime := None; k_time := Some "09:00"; k_day := None;
     k_status := None; k_last_sent := None; k_delivery_status := None;
     k_text := Some "Stand-up"; k_question := None;
     k_options := None; k_allow_multiple_answers := None |}.

Definition daily_poll : item :=
  {| k_id := Some "3"; k_type := Some "daily";
     k_datetime := None; k_time := Some "09:00"; k_day := None;
     k_status := Some "Active"; k_last_sent := None; k_delivery_status := None;
     k_text := None; k_question := Some "Office today?";
     k_options := Some ["yes"; "no"]; k_allow_multiple_answers := Some false |}.

Definition deleted_poll : item :=
  {| k_id := Some "4"; k_type := Some "daily";
     k_datetime := None; k_time := Some "10:00"; k_day := None;
     k_status := Some "Deleted"; k_last_sent := None; k_delivery_status := None;
     k_text := None; k_question := Some "Old question";
     k_options := Some ["a"; "b"]; k_allow_multiple_answers := Some false |}.

(** Two subscribers, one record of each kind in each collection. *)
Definition two_chats : World :=
  {| reminders_json := json_dump [reminder_1; daily_reminder];
     polls_json := json_dump [poll_1; daily_poll];
     subscribed_chats_json := json_dump [100; 200];
     job_queue := []; sheets := []; outbox := [] |}.

(** The same collections with no subscriber file. *)
Definition no_chats_file : World :=
  {| reminders_json := json_dump [reminder_1; daily_reminder];
     polls_json := json_dump [poll_1; daily_poll];
     subscribed_chats_json := Absent;
     job_queue := []; sheets := []; outbox := [] |}.

(** Every send succeeds; no Sheets manager. *)
Definition quiet : Env :=
  {| sheets_ready := false;
     sheets_raises := fun _ => false;
     backup_chats := NotRestored;
     backup_reminders := NotRestored;
     backup_polls := NotRestored;
     bot_send_message := fun _ _ _ => Sent;
     bot_send_poll := fun _ _ => Sent;
     moscow_sent_time := "2024-05-01 12:00:05";
     clock := noon |}.

(** Chat 200 has blocked the bot; the Sheets manager works and its
    subscriber list is empty. *)
Definition blocked_200 : Env :=
  {| sheets_ready := true;
     sheets_raises := fun _ => false;
     backup_chats := Restored [];
     backup_reminders := NotRestored;
     backup_polls := NotRestored;
     bot_send_message := fun _ cid _ =>
       if cid =? 200 then Failed "Forbidden: bot was blocked by the user" else Sent;
     bot_send_poll := fun _ cid =>
       if cid =? 200 then Failed "Forbidden: bot was blocked by the user" else Sent;
     moscow_sent_time := "2024-05-02 09:00:03";
     clock := noon |}.

(** The same collections with a subscriber file that lists nobody. *)
Definition nobody_subscribed : World :=
  {| reminders_json := json_dump [reminder_1; daily_reminder];
     polls_json := json_dump [poll_1; daily_poll];
     subscribed_chats_json := json_dump [];
     job_queue := []; sheets := []; outbox := [] |}.

(** Chat 200 is the only subscriber. *)
Definition only_200 : World :=
  {| reminders_json := json_dump [daily_reminder];
     polls_json := json_dump [daily_poll];
     subscribed_chats_json := json_dump [200];
     job_queue := []; sheets := []; outbox := [] |}.

(** Chat 200 has blocked the bot; the Sheets manager works and its
    subscriber list holds chat 200. *)
Definition backup_lists_200 : Env :=
  {| sheets_ready := true;
     sheets_raises := fun _ => false;
     backup_chats := Restored [200];
     backup_reminders := NotRestored;
     backup_polls := NotRestored;
     bot_send_message := fun _ cid _ =>
       if cid =? 200 then Failed "Forbidden: bot was blocked by the user" else Sent;
     bot_send_poll := fun _ cid =>
       if cid =? 200 then Failed "Forbidden: bot was blocked by the user" else Sent;
     moscow_sent_time := "2024-05-03 09:00:02";
     clock := noon |}.

(** Chat 200 does not exist any more: every send to it fails with the
    text the Telegram client gives a "chat not found" answer of the
    gateway. *)
Definition chat_200_not_found : Env :=
  {| sheets_ready := true;
     sheets_raises := fun _ => false;
     backup_chats := Restored [200];
     backup_reminders := NotRestored;
     backup_polls := NotRestored;
     bot_send_message := fun _ cid _ =>
       if cid =? 200 then Failed "Chat not found" else Sent;
     bot_send_poll := fun _ cid =>
       if cid =? 200 then Failed "Chat not found" else Sent;
     moscow_sent_time := "2024-05-03 09:00:02";
     clock := noon |}.

(** The record is the only stored one that takes its job name. *)
Definition only_one_named (name : item -> string) (r : item) (l : list item) : Prop :=
  forall r', r' ∈ l -> name r' = name r -> r' = r.

(** What a firing leaves on the machine of the bot: the three files, the
    queue and the sends attempted; the calls received by the Sheets
    manager are the rest of the world. *)
Definition local_state (w : World)
    : file (list item) * file (list item) * file (list Z) * list Job *
      list (Z * parse_mode) :=
  (reminders_json w, polls_json w, subscribed_chats_json w, job_queue w, outbox w).

(** Two environments whose gateway answers and sent-time readings agree;
    the Sheets manager may differ in every respect. *)
Definition same_gateway (env env' : Env) : Prop :=
  (forall i cid mode, bot_send_message env i cid mode = bot_send_message env' i cid mode) /\
  (forall i cid, bot_send_poll env i cid = bot_send_poll env' i cid) /\
  moscow_sent_time env = moscow_sent_time env'.

(** The first attempt of [send_reminder] for each chat. *)
Definition first_attempts (l : list (Z * parse_mode)) : list Z :=
  fst <$> filter (fun a => a.2 = HTML) l.

(** ** Identifiers of new records *)

(** [str(n)] of an int, the inverse of [int]. *)
Class PyStr `{PyLib} : Type := {
  py_str : Z -> string;
  py_int_str : forall n, py_int (py_str n) = Some n
}.

Section Identifiers.
Context `{PyStr}.

(** [int(record.get("id", "0"))]; [None] is [ValueError]. *)
Definition id_number (record : item) : option Z :=
  py_int (get_or (k_id record) "0").

(** [max_id = 0
     for record in records:
         try:
             n = int(record.get("id", "0"))
             if n > max_id: max_id = n
         except ValueError: continue]. *)
Definition max_id_of (records : list item) : Z :=
  fold_left
    (fun max_id record =>
       match id_number record with
       | Some n => if max_id <? n then n else max_id
       | None => max_id
       end)
    records 0.

Definition get_next_reminder_id (reminders_json : file (list item)) : result string :=
  try_except
    (reminders <- load_reminders reminders_json ;;
     match reminders with
     | [] => Ok "1"
     | _ :: _ => Ok (py_str (max_id_of reminders + 1))
     end)
    any_exception
    (fun _ => Ok "1").

(** [get_max_poll_id] is the answer of [sheets_manager.get_max_poll_id()],
    an int or an exception; it is asked only when the manager is ready. *)
Definition get_next_poll_id (env : Env) (get_max_poll_id : result Z)
    (polls_json : file (list item)) : result string :=
  try_except
    (polls <- load_polls polls_json ;;
     let sheets_max_id :=
       if sheets_ready env then
         match get_max_poll_id with
         | Ok n => n
         | Raise _ => 0
         end
       else 0 in
     let local_max_id := max_id_of polls in
     let max_id := Z.max local_max_id sheets_max_id in
     Ok (py_str (max_id + 1)))
    any_exception
    (fun _ => Ok "1").

End Identifiers.

(** ** Subscribing a chat *)

(** [update_chat_stats(chat_id, chat_name, chat_type, members_count)]
    gives no [status]; the call is recorded with the empty status. *)
Definition no_status : string := "".

Definition subscribe_chat (env : Env) (chat_id : Z) : M unit :=
  chats <~ catch
      (f <~ get subscribed_chats_json ;;
       lift (data <- open_read f ;;
             if is_blank data then Ok [] else json_loads data))
      (fun e => match e with
                | FileNotFoundError | JSONDecodeError => true
                | _ => false
                end)
      (ret []) ;;
  let is_new_chat := bool_decide (chat_id ∉ chats) in
  if is_new_chat then
    let chats := chats ++ [chat_id] in
    _ <~ save_chats chats ;;
    mirror env [update_chat_stats chat_id no_status;
                log_operation "CHAT_SUBSCRIBE";
                sync_subscribed_chats_to_sheets (Some chats)]
  else
    mirror env [update_chat_stats chat_id no_status].

(** ** Job statistics *)

(** [check_active_jobs]: the numbers of live reminder and poll jobs.  The
    listing of the next run times only writes to the log. *)
Definition check_active_jobs (job_queue : list Job) : nat * nat :=
  (length (reminder_jobs job_queue), length (poll_jobs job_queue)).

(** ** Texts *)

Module PyText.

(** The one-character string of a double quote. *)
Definition quote : string := String (ascii_of_nat 34) EmptyString.

(** What [html.escape] makes of one character (with [quote=True]). *)
Definition escape_char (c : ascii) : string :=
  if Ascii.eqb c "&" then "&amp;"
  else if Ascii.eqb c "<" then "&lt;"
  else if Ascii.eqb c ">" then "&gt;"
  else if Ascii.eqb c (ascii_of_nat 34) then "&quot;"
  else if Ascii.eqb c "'" then "&#x27;"
  else String c EmptyString.

(** [html.escape(s)]. *)
Fixpoint html_escape (s : string) : string :=
  match s with
  | EmptyString => EmptyString
  | String c rest => escape_char c +:+ html_escape rest
  end.

(** [s.replace(old, new)] for a non-empty [old]: the occurrences are
    taken from the left and do not overlap; [skip] counts the characters
    of an occurrence that are still to be passed over. *)
Fixpoint replace_from (old new : string) (skip : nat) (s : string) : string :=
  match s with
  | EmptyString => EmptyString
  | String c rest =>
      match skip with
      | S k => replace_from old new k rest
      | O =>
          if String.prefix old s
          then new +:+ replace_from old new (String.length old - 1) rest
          else String c (replace_from old new 0 rest)
      end
  end.

Definition replace (old new s : string) : string := replace_from old new 0 s.

End PyText.
Export PyText.

(** [safe_html_escape].  Its list [allowed_tags] is never read, and no
    statement of its [try] block raises on a string. *)
Definition safe_html_escape (text : string) : string :=
  if String.eqb text "" then ""
  else
    let text :=
      if contains "<a " text && contains ("href=" +:+ quote +:+ quote) text
      then replace "</a>" "" (replace ("<a href=" +:+ quote +:+ quote +:+ ">") "" text)
      else text in
    if contains "<" text && contains ">" text then text
    else html_escape text.

(** ** Command handlers *)

(** What the chat of the operator and the bookkeeping calls of the Sheets
    manager answer during one run of a handler. *)
Record Operator : Type := {
  (** a reply sent from the [try] block of the handler cannot be
      delivered: the HTML attempt and its plain-text fallback both raise *)
  reply_fails : bool;
  (** a reply sent from an [except] branch of the handler cannot be
      delivered *)
  error_reply_fails : bool;
  (** [log_reminder_action] or [log_poll_action] raises *)
  log_action_raises : bool;
  (** [update_reminders_count] or [update_polls_count] raises *)
  update_count_raises : bool
}.

(** A call on the Sheets manager that carries no stored record: it is not
    listed among the received calls; it returns or raises. *)
Definition bookkeeping (raises : bool) : M unit :=
  if raises then raise SheetsError else ret tt.

(** What a handler hands to the dispatcher: the value it returns, or an
    exception of the Telegram client that no [except] of the handler
    catches. *)
Inductive handled (A : Type) : Type :=
| Returns (a : A)
| Uncaught.
Arguments Returns {A} a.
Arguments Uncaught {A}.

(** [except ...: reply; return a].  Nothing guards the reply of an
    [except] branch: when it cannot be delivered its exception leaves
    the handler. *)
Definition after_error_reply {A} (op : Operator) (a : A) : handled A :=
  if error_reply_fails op then Uncaught else Returns a.

(** A reply of the [try] block followed by [return a].  When the reply
    cannot be delivered its exception is caught by the
    [except Exception] of the handler, whose own reply is followed by
    [return b]. *)
Definition after_reply {A} (op : Operator) (a b : A) : handled A :=
  if reply_fails op then after_error_reply op b else Returns a.

(** [ConversationHandler.END] and the states of the conversations. *)
Definition END : Z := -1.
Definition REMINDER_DATE : Z := 0.
Definition REMINDER_TEXT : Z := 1.
Definition REM_DEL_ID : Z := 0.
Definition POLL_DEL_ID : Z := 0.

(** [int(s)] in a handler. *)
Definition to_int `{PyLib} (s : string) : result Z :=
  match py_int s with
  | Some n => Ok n
  | None => Raise (ValueError "invalid literal for int()")
  end.

(** The dicts [receive_reminder_text], [receive_daily_text] and
    [receive_weekly_text] append. *)
Definition new_once_reminder (new_id datetime text : string) : item :=
  {| k_id := Some new_id; k_type := Some "once";
     k_datetime := Some datetime; k_time := None; k_day := None;
     k_status := None; k_last_sent := None; k_delivery_status := None;
     k_text := Some text; k_question := None;
     k_options := None; k_allow_multiple_answers := None |}.

Definition new_daily_reminder (new_id time text : string) : item :=
  {| k_id := Some new_id; k_type := Some "daily";
     k_datetime := None; k_time := Some time; k_day := None;
     k_status := None; k_last_sent := None; k_delivery_status := None;
     k_text := Some text; k_question := None;
     k_options := None; k_allow_multiple_answers := None |}.

Definition new_weekly_reminder (new_id day time text : string) : item :=
  {| k_id := Some new_id; k_type := Some "weekly";
     k_datetime := None; k_time := Some time; k_day := Some day;
     k_status := None; k_last_sent := None; k_delivery_status := None;
     k_text := Some text; k_question := None;
     k_options := None; k_allow_multiple_answers := None |}.

(** The dict [reminder_data] a creating handler sends to the manager:
    the trigger goes under "time"; the keys outside [item] ([chat_id],
    [chat_name], [created_at], [username], [days_of_week]) are not
    represented. *)
Definition created_data (new_id ty time text : string) : item :=
  {| k_id := Some new_id; k_type := Some ty;
     k_datetime := None; k_time := Some time; k_day := None;
     k_status := None; k_last_sent := None; k_delivery_status := None;
     k_text := Some text; k_question := None;
     k_options := None; k_allow_multiple_answers := None |}.

Section Handlers.
Context `{PyStr}.

(** [receive_reminder_datetime] on the stripped text of the message: the
    next state, and what [user_data["reminder_datetime"]] holds after
    the call ([None]: not set by this call).  The key is set before the
    reply that asks for the text is sent. *)
Definition receive_reminder_datetime (env : Env) (op : Operator) (text : string)
    : handled Z * option string :=
  match strptime_msk text with
  | None => (after_error_reply op REMINDER_DATE, None)
  | Some moscow_dt =>
      if moscow_dt <? moscow_now (clock env)
      then (after_reply op REMINDER_DATE REMINDER_DATE, None)
      else (after_reply op REMINDER_TEXT REMINDER_DATE, Some text)
  end.

(** The part the three creating handlers share after the record is
    appended and saved: the Sheets block, the scheduling, the reply. *)
Definition announce_and_schedule (env : Env) (op : Operator) (data reminder : item)
    : M (handled Z) :=
  _ <~ (if sheets_ready env then
          catch
            (_ <~ bookkeeping (log_action_raises op) ;;
             _ <~ sheets_manager env (sync_reminder data "CREATE") ;;
             bookkeeping (update_count_raises op))
            any_exception (ret tt)
        else ret tt) ;;
  _ <~ modify (fun w =>
         set_jobs (schedule_reminder (clock env) (job_queue w) reminder) w) ;;
  ret (after_reply op END END).

(** [receive_reminder_text].  [reminder_datetime] is
    [context.user_data["reminder_datetime"]] ([None]: the key is absent),
    [message_text] the value of
    [update.message.text_html if update.message.text_html else
     update.message.text.strip()]. *)
Definition receive_reminder_text (env : Env) (op : Operator)
    (reminder_datetime : option string) (message_text : string) : M (handled Z) :=
  catch
    (reminders <~ load_reminders_m ;;
     new_id <~ (f <~ get reminders_json ;; lift (get_next_reminder_id f)) ;;
     let reminder_text := safe_html_escape message_text in
     datetime <~ lift (getitem "reminder_datetime" reminder_datetime) ;;
     let reminder := new_once_reminder new_id datetime reminder_text in
     _ <~ modify (set_reminders (save_reminders (reminders ++ [reminder]))) ;;
     announce_and_schedule env op
       (created_data new_id "once" datetime reminder_text) reminder)
    any_exception (ret (after_error_reply op END)).

Definition receive_daily_text (env : Env) (op : Operator)
    (daily_time : option string) (message_text : string) : M (handled Z) :=
  catch
    (reminders <~ load_reminders_m ;;
     new_id <~ (f <~ get reminders_json ;; lift (get_next_reminder_id f)) ;;
     let reminder_text := safe_html_escape message_text in
     time <~ lift (getitem "daily_time" daily_time) ;;
     let reminder := new_daily_reminder new_id time reminder_text in
     _ <~ modify (set_reminders (save_reminders (reminders ++ [reminder]))) ;;
     announce_and_schedule env op
       (created_data new_id "daily" time reminder_text) reminder)
    any_exception (ret (after_error_reply op END)).

Definition receive_weekly_text (env : Env) (op : Operator)
    (weekly_day weekly_time : option string) (message_text : string)
    : M (handled Z) :=
  catch
    (reminders <~ load_reminders_m ;;
     new_id <~ (f <~ get reminders_json ;; lift (get_next_reminder_id f)) ;;
     let reminder_text := safe_html_escape message_text in
     day <~ lift (getitem "weekly_day" weekly_day) ;;
     time <~ lift (getitem "weekly_time" weekly_time) ;;
     let reminder := new_weekly_reminder new_id day time reminder_text in
     _ <~ modify (set_reminders (save_reminders (reminders ++ [reminder]))) ;;
     announce_and_schedule env op
       (created_data new_id "weekly" (day +:+ " " +:+ time) reminder_text) reminder)
    any_exception (ret (after_error_reply op END)).

End Handlers.

(** The world a handler leaves. *)
Definition world_after {A} (m : M A) (w : World) : World := (m w).1.

(** ** Deleting records *)

(** [a or b] on strings: [a] unless it is absent or empty. *)
Definition str_or (a : option string) (b : string) : string :=
  match a with
  | Some s => if String.eqb s "" then b else s
  | None => b
  end.

(** The dict a deleting handler sends to the manager for a reminder: the
    trigger goes under "time"; the keys outside [item] ([chat_id],
    [chat_name], [created_at], [username], [days_of_week]) are not
    represented. *)
Definition deleted_reminder_data (reminder : item) : item :=
  {| k_id := k_id reminder;
     k_type := Some (get_or (k_type reminder) "");
     k_datetime := None;
     k_time := Some (str_or (k_datetime reminder) (get_or (k_time reminder) ""));
     k_day := None; k_status := None;
     k_last_sent := Some (get_or (k_last_sent reminder) "");
     k_delivery_status := None;
     k_text := Some (get_or (k_text reminder) "");
     k_question := None; k_options := None; k_allow_multiple_answers := None |}.

(** The same for a poll; its "options" value is the one string
    [', '.join(options)]. *)
Definition deleted_poll_data (poll : item) : item :=
  {| k_id := k_id poll;
     k_type := Some (get_or (k_type poll) "");
     k_datetime := None;
     k_time := Some (str_or (k_datetime poll) (get_or (k_time poll) ""));
     k_day := None; k_status := None;
     k_last_sent := Some (get_or (k_last_sent poll) "");
     k_delivery_status := None;
     k_text := None;
     k_question := Some (get_or (k_question poll) "");
     k_options := Some [String.concat ", " (get_or (k_options poll) [])];
     k_allow_multiple_answers := None |}.

(** [[r for r in records if r["id"] != target["id"]]]: [KeyError] when a
    record read on the way has no "id". *)
Fixpoint drop_by_id (target : item) (records : list item) : result (list item) :=
  match records with
  | [] => Ok []
  | r :: rest =>
      a <- getitem "id" (k_id r) ;;
      b <- getitem "id" (k_id target) ;;
      kept <- drop_by_id target rest ;;
      Ok (if bool_decide (a <> b) then r :: kept else kept)
  end.

(** [poll.get('id') == poll_number]: the stored id is a string (or
    absent) and [poll_number] an int; in Python a [str] and [None] are
    never equal to an [int]. *)
Definition id_equals_int (id : option string) (poll_number : Z) : bool := false.

Section Deleting.
Context `{PyStr}.

(** The keys of [sort]: [int(x.get("id", "0"))] for every record, all of
    them before any element moves. *)
Fixpoint with_keys (records : list item) : result (list (Z * item)) :=
  match records with
  | [] => Ok []
  | r :: rest =>
      match id_number r with
      | None => Raise (ValueError "invalid literal for int()")
      | Some k => keyed <- with_keys rest ;; Ok ((k, r) :: keyed)
      end
  end.

(** A record goes before the first one of the sorted rest whose key is
    not smaller: records with equal keys keep their order. *)
Fixpoint insert_by_key (x : Z * item) (sorted : list (Z * item)) : list (Z * item) :=
  match sorted with
  | [] => [x]
  | y :: rest => if x.1 <=? y.1 then x :: sorted else y :: insert_by_key x rest
  end.

(** [records.sort(key=lambda x: int(x.get("id", "0")))], a stable sort. *)
Definition sort_by_id (records : list item) : result (list item) :=
  keyed <- with_keys records ;;
  Ok (snd <$> foldr insert_by_key [] keyed).

(** [confirm_delete_reminder] on the text of the message.  The
    [ValueError] of [int] and of the sort key goes to [except ValueError],
    everything else to [except Exception]. *)
Definition confirm_delete_reminder (env : Env) (op : Operator) (message_text : string)
    : M (handled Z) :=
  catch
    (catch
       (reminder_number <~ lift (to_int message_text) ;;
        reminders <~ load_reminders_m ;;
        if (reminder_number <? 1) || (Z.of_nat (length reminders) <? reminder_number)
        then ret (after_reply op REM_DEL_ID END)
        else
          sorted <~ lift (sort_by_id reminders) ;;
          (* the index is within bounds by the check above *)
          let reminder_to_delete :=
            nth (Z.to_nat (reminder_number - 1)) sorted empty_dict in
          _ <~ (if sheets_ready env then
                  catch
                    (_ <~ bookkeeping (log_action_raises op) ;;
                     _ <~ sheets_manager env
                            (sync_reminder (deleted_reminder_data reminder_to_delete)
                               "DELETE") ;;
                     bookkeeping (update_count_raises op))
                    any_exception (ret tt)
                else ret tt) ;;
          all_reminders <~ load_reminders_m ;;
          new_list <~ lift (drop_by_id reminder_to_delete all_reminders) ;;
          _ <~ modify (set_reminders (save_reminders new_list)) ;;
          if reply_fails op then ret (after_error_reply op END)
          else
            _ <~ do_reschedule_all_reminders env ;;
            ret (Returns END))
       is_ValueError
       (ret (after_error_reply op REM_DEL_ID)))
    any_exception (ret (after_error_reply op END)).

(** [confirm_delete_poll]. *)
Definition confirm_delete_poll (env : Env) (op : Operator) (message_text : string)
    : M (handled Z) :=
  catch
    (catch
       (poll_number <~ lift (to_int message_text) ;;
        polls <~ load_polls_m ;;
        let poll_to_delete :=
          snd <$> list_find (fun poll => id_equals_int (k_id poll) poll_number = true)
                    polls in
        match poll_to_delete with
        | Some poll =>
            if bool_decide (poll = empty_dict) then
              ret (after_reply op POLL_DEL_ID END)
            else
              _ <~ modify (fun w =>
                     set_jobs (remove_named ("poll_" +:+ py_str poll_number)
                                 (job_queue w)) w) ;;
              _ <~ (if sheets_ready env then
                      catch
                        (_ <~ sheets_manager env
                                (sync_poll (deleted_poll_data poll) "DELETE") ;;
                         bookkeeping (update_count_raises op))
                        any_exception (ret tt)
                    else ret tt) ;;
              all_polls <~ load_polls_m ;;
              new_list <~ lift (drop_by_id poll all_polls) ;;
              _ <~ modify (set_polls (save_polls new_list)) ;;
              if reply_fails op then ret (after_error_reply op END)
              else
                _ <~ do_reschedule_all_polls env ;;
                ret (Returns END)
        | None => ret (after_reply op POLL_DEL_ID END)
        end)
       is_ValueError
       (ret (after_error_reply op POLL_DEL_ID)))
    any_exception (ret (after_error_reply op END)).

End Deleting.

(** [clear_reminders].  The progress message is the first statement of
    the Sheets block: when it cannot be delivered the block is left.
    The edits of that message are wrapped in [try/except: pass], and the
    closing message comes after the file and the queue are done. *)
Definition clear_reminders (env : Env) (op : Operator) : M (handled unit) :=
  catch
    (all_reminders <~ load_reminders_m ;;
     _ <~ (if sheets_ready env && bool_decide (all_reminders <> []) then
             if reply_fails op then ret tt
             else
               catch
                 (_ <~ bookkeeping (log_action_raises op) ;;
                  _ <~ for_each all_reminders
                         (fun reminder =>
                            catch
                              (sheets_manager env
                                 (sync_reminder (deleted_reminder_data reminder) "DELETE"))
                              any_exception (ret tt)) ;;
                  _ <~ bookkeeping (update_count_raises op) ;;
                  bookkeeping (log_action_raises op))
                 any_exception (ret tt)
           else ret tt) ;;
     _ <~ modify (set_reminders (save_reminders [])) ;;
     _ <~ modify (fun w => set_jobs (remove_prefixed "reminder_" (job_queue w)) w) ;;
     ret (after_reply op tt tt))
    any_exception (ret (after_error_reply op tt)).

(** [clear_polls]. *)
Definition clear_polls (env : Env) (op : Operator) : M (handled unit) :=
  catch
    (all_polls <~ load_polls_m ;;
     _ <~ (if sheets_ready env && bool_decide (all_polls <> []) then
             if reply_fails op then ret tt
             else
               catch
                 (_ <~ bookkeeping (log_action_raises op) ;;
                  _ <~ for_each all_polls
                         (fun poll =>
                            catch
                              (sheets_manager env
                                 (sync_poll (deleted_poll_data poll) "DELETE"))
                              any_exception (ret tt)) ;;
                  _ <~ bookkeeping (update_count_raises op) ;;
                  bookkeeping (log_action_raises op))
                 any_exception (ret tt)
           else ret tt) ;;
     _ <~ modify (set_polls (save_polls [])) ;;
     _ <~ modify (fun w => set_jobs (remove_prefixed "poll_" (job_queue w)) w) ;;
     ret (after_reply op tt tt))
    any_exception (ret (after_error_reply op tt)).

(** ** More concrete inputs *)

(** A queue with the job of a reminder that is no longer stored and the
    self-ping job of [main]. *)
Definition stale_queue : list Job :=
  [ {| job_callback := send_reminder_cb; job_trigger := RunOnce 0;
       job_context := Some reminder_1; job_name := "reminder_9" |};
    {| job_callback := other_cb "ping_self"; job_trigger := RunRepeating 300 30;
       job_context := None; job_name := "ping_self" |} ].

(** One minute after [noon]. *)
Definition a_minute_past_noon : Clock :=
  {| moscow_now := Example.moscow 2024 5 1 12 1 0;
     utc_now := Example.moscow 2024 5 1 12 1 0 |}.

(** The operator is reached and the bookkeeping calls return. *)
Definition reachable : Operator :=
  {| reply_fails := false; error_reply_fails := false;
     log_action_raises := false; update_count_raises := false |}.

(** The operator cannot be reached. *)
Definition unreachable : Operator :=
  {| reply_fails := true; error_reply_fails := true;
     log_action_raises := false; update_count_raises := false |}.

(** Every send succeeds as in [quiet]; the Sheets manager is there and
    every mirror call raises. *)
Definition failing_sheets : Env :=
  {| sheets_ready := true;
     sheets_raises := fun _ => true;
     backup_chats := RestoreRaised;
     backup_reminders := RestoreRaised;
     backup_polls := RestoreRaised;
     bot_send_message := fun _ _ _ => Sent;
     bot_send_poll := fun _ _ => Sent;
     moscow_sent_time := "2024-05-01 12:00:05";
     clock := noon |}.

(** A weekly reminder for Monday 01:30 Moscow time. *)
Definition monday_night : item :=
  {| k_id := Some "7"; k_type := Some "weekly";
     k_datetime := None; k_time := Some "01:30"; k_day := Some "понедельник";
     k_status := None; k_last_sent := None; k_delivery_status := None;
     k_text := Some "Backup"; k_question := None;
     k_options := None; k_allow_multiple_answers := None |}.

(** * Theorems *)




Lemma load_reminders_collection (f : file (list item)) :
  load_reminders f = Ok (collection f).
Proof. by destruct f as [|[| |l]]. Qed.

Lemma load_polls_collection (f : file (list item)) :
  load_polls f = Ok (collection f).
Proof. by destruct f as [|[| |l]]. Qed.

Section SchedulerFacts.
Context `{PyLib}.

Lemma schedule_reminder_body_app clock q r :
  schedule_reminder_body clock q r =
  (js <- schedule_reminder_body clock [] r ;; Ok (q ++ js)).
Proof.
  unfold schedule_reminder_body, bind, run_once, run_daily.
  repeat (case_match; simpl; try done); rewrite ?app_nil_r; done.
Qed.

Lemma schedule_reminder_app clock q r :
  schedule_reminder clock q r =
  remove_named (reminder_job_name r) q ++ schedule_reminder clock [] r.
Proof.
  unfold schedule_reminder.
  rewrite schedule_reminder_body_app.
  change (remove_named (reminder_job_name r) []) with (@nil Job).
  destruct (schedule_reminder_body clock [] r); simpl; [done | by rewrite app_nil_r].
Qed.

Lemma schedule_reminder_new clock r :
  schedule_reminder clock [] r = [] \/
  exists tr, schedule_reminder clock [] r =
    [Build_Job send_reminder_cb tr (Some r) (reminder_job_name r)].
Proof.
  unfold schedule_reminder, schedule_reminder_body, bind, run_once, run_daily. simpl.
  repeat case_match; simplify_eq/=; first [by left | by right; eexists].
Qed.

Lemma schedule_poll_body_app clock q r :
  schedule_poll_body clock q r =
  (js <- schedule_poll_body clock [] r ;; Ok (q ++ js)).
Proof.
  unfold schedule_poll_body, bind, run_once, run_daily.
  repeat (case_match; simpl; try done); rewrite ?app_nil_r; done.
Qed.

Lemma schedule_poll_app clock q r :
  schedule_poll clock q r =
  remove_named (poll_job_name r) q ++ schedule_poll clock [] r.
Proof.
  unfold schedule_poll.
  rewrite schedule_poll_body_app.
  change (remove_named (poll_job_name r) []) with (@nil Job).
  destruct (schedule_poll_body clock [] r); simpl; [done | by rewrite app_nil_r].
Qed.

Lemma schedule_poll_new clock r :
  schedule_poll clock [] r = [] \/
  exists tr name, schedule_poll clock [] r = [Build_Job send_poll_cb tr (Some r) name]
    /\ (name = poll_job_name r \/ name = poll_job_name r +:+ "_missed").
Proof.
  unfold schedule_poll, schedule_poll_body, bind, run_once, run_daily. simpl.
  repeat case_match; simplify_eq/=; first [by left | right; eexists _, _; split; [reflexivity|]; by auto].
Qed.

Lemma prefix_nil s : String.prefix "" s = true.
Proof. by destruct s. Qed.

Lemma poll_names_prefixed r name :
  name = poll_job_name r \/ name = poll_job_name r +:+ "_missed" ->
  startswith name "poll_" = true /\ startswith name "reminder_" = false.
Proof.
  intros [->| ->]; split; try reflexivity;
    unfold startswith, poll_job_name; cbn; apply prefix_nil.
Qed.

Lemma reminder_name_prefixed r :
  startswith (reminder_job_name r) "reminder_" = true /\
  startswith (reminder_job_name r) "poll_" = false.
Proof.
  split; try reflexivity.
  unfold startswith, reminder_job_name; cbn; apply prefix_nil.
Qed.

(** A job added by the scheduler of one collection carries the prefix of
    that collection and not the other one. *)
Lemma remove_prefixed_named p name q :
  startswith name p = true ->
  remove_prefixed p (remove_named name q) = remove_prefixed p q.
Proof.
  intros Hp. unfold remove_prefixed, remove_named.
  apply list_filter_filter_l. intros j Hj Heq. rewrite Heq in Hj. congruence.
Qed.

Lemma remove_prefixed_app p a b :
  remove_prefixed p (a ++ b) = remove_prefixed p a ++ remove_prefixed p b.
Proof. apply filter_app. Qed.

Lemma remove_prefixed_idem p q :
  remove_prefixed p (remove_prefixed p q) = remove_prefixed p q.
Proof. unfold remove_prefixed. by apply list_filter_filter_l. Qed.

Lemma remove_prefixed_schedule_reminder clock q r :
  remove_prefixed "reminder_" (schedule_reminder clock q r) =
  remove_prefixed "reminder_" q.
Proof.
  rewrite schedule_reminder_app, remove_prefixed_app.
  rewrite remove_prefixed_named by apply reminder_name_prefixed.
  destruct (schedule_reminder_new clock r) as [-> | [tr ->]];
    [by rewrite app_nil_r|].
  unfold remove_prefixed. rewrite filter_cons_False, filter_nil, app_nil_r; [done|].
  pose proof (proj1 (reminder_name_prefixed r)) as Hp.
  cbn [job_name]. congruence.
Qed.

Lemma remove_prefixed_schedule_poll clock q r :
  remove_prefixed "poll_" (schedule_poll clock q r) = remove_prefixed "poll_" q.
Proof.
  rewrite schedule_poll_app, remove_prefixed_app.
  rewrite remove_prefixed_named by (eapply poll_names_prefixed; by left).
  destruct (schedule_poll_new clock r) as [-> | (tr & name & -> & Hn)];
    [by rewrite app_nil_r|].
  apply poll_names_prefixed in Hn as [Hn _].
  unfold remove_prefixed. rewrite filter_cons_False, filter_nil, app_nil_r; [done|].
  cbn [job_name]. congruence.
Qed.

Lemma remove_prefixed_schedule_reminders clock rs q :
  remove_prefixed "reminder_" (schedule_reminders clock rs q) =
  remove_prefixed "reminder_" q.
Proof.
  revert q. induction rs as [|r rs IH]; intros q; [done|].
  unfold schedule_reminders in *. cbn [fold_left]. rewrite IH.
  apply remove_prefixed_schedule_reminder.
Qed.

Lemma remove_prefixed_schedule_polls clock ps q :
  remove_prefixed "poll_" (schedule_polls clock ps q) = remove_prefixed "poll_" q.
Proof.
  revert q. induction ps as [|p ps IH]; intros q; [done|].
  unfold schedule_polls in *. cbn [fold_left]. rewrite IH.
  case_bool_decide; [apply remove_prefixed_schedule_poll | done].
Qed.


Lemma filter_empty_if {A} (P : A -> Prop) `{!forall x, Decision (P x)} (l : list A) :
  (forall x, x ∈ l -> ~ P x) -> filter P l = [].
Proof.
  intros Hl. destruct (filter P l) as [|x l'] eqn:E; [done|].
  assert (x ∈ filter P l) as Hx by (rewrite E; left).
  apply list_elem_of_filter in Hx as [HP Hx]. by destruct (Hl x Hx).
Qed.

Lemma jobs_for_app prefix id a b :
  jobs_for prefix id (a ++ b) = jobs_for prefix id a ++ jobs_for prefix id b.
Proof. apply filter_app. Qed.

Lemma jobs_for_remove_named prefix id name q :
  (length (jobs_for prefix id (remove_named name q)) <= length (jobs_for prefix id q))%nat.
Proof.
  unfold jobs_for, remove_named.
  rewrite list_filter_filter.
  rewrite (list_filter_iff _ (fun j => job_name j <> name /\
     (startswith (job_name j) prefix = true /\ k_id <$> job_context j = Some id)))
    by tauto.
  rewrite <- list_filter_filter. apply length_filter.
Qed.

Lemma jobs_for_remove_prefixed prefix id q :
  jobs_for prefix id (remove_prefixed prefix q) = [].
Proof.
  apply filter_empty_if. intros j Hj [Hp _].
  apply list_elem_of_filter in Hj as [Hn _]. congruence.
Qed.

Lemma schedule_reminder_keeps_one clock q r :
  named_after_record q -> at_most_one "reminder_" q ->
  named_after_record (schedule_reminder clock q r) /\
  at_most_one "reminder_" (schedule_reminder clock q r).
Proof.
  intros Hnamed Hone. rewrite schedule_reminder_app. split.
  - intros j Hj Hp. apply elem_of_app in Hj as [Hj|Hj].
    + apply list_elem_of_filter in Hj as [_ Hj]. by apply Hnamed.
    + destruct (schedule_reminder_new clock r) as [E | [tr E]]; rewrite E in Hj.
      * by apply elem_of_nil in Hj.
      * apply list_elem_of_singleton in Hj as ->. by exists r.
  - intros id. rewrite jobs_for_app, length_app.
    destruct (decide (id = k_id r)) as [-> | Hid].
    + assert (jobs_for "reminder_" (k_id r) (remove_named (reminder_job_name r) q) = []) as ->.
      { apply filter_empty_if. intros j Hj [Hp Hc].
        apply list_elem_of_filter in Hj as [Hn Hj].
        destruct (Hnamed j Hj Hp) as (r' & Hr' & Hname).
        rewrite Hr' in Hc. simpl in Hc. apply Hn. rewrite Hname.
        unfold reminder_job_name. congruence. }
      simpl. destruct (schedule_reminder_new clock r) as [-> | [tr ->]]; [simpl; lia|].
      etransitivity; [apply length_filter | simpl; lia].
    + assert (jobs_for "reminder_" id (schedule_reminder clock [] r) = []) as ->.
      { destruct (schedule_reminder_new clock r) as [-> | [tr ->]]; [done|].
        apply filter_empty_if. intros j Hj [_ Hc].
        apply list_elem_of_singleton in Hj as ->. simpl in Hc. congruence. }
      rewrite Nat.add_0_r. etransitivity; [apply jobs_for_remove_named | apply Hone].
Qed.

Lemma schedule_reminders_keeps_one clock rs q :
  named_after_record q -> at_most_one "reminder_" q ->
  named_after_record (schedule_reminders clock rs q) /\
  at_most_one "reminder_" (schedule_reminders clock rs q).
Proof.
  revert q. induction rs as [|r rs IH]; intros q Hn Ho; [done|].
  unfold schedule_reminders in *. cbn [fold_left].
  destruct (schedule_reminder_keeps_one clock q r Hn Ho). by apply IH.
Qed.

Lemma schedule_poll_keeps_one clock seen q p :
  k_id p ∉ seen ->
  contexts_among seen q -> at_most_one "poll_" q ->
  contexts_among (k_id p :: seen) (schedule_poll clock q p) /\
  at_most_one "poll_" (schedule_poll clock q p).
Proof.
  intros Hfresh Hseen Hone. rewrite schedule_poll_app. split.
  - intros j Hj Hp. apply elem_of_app in Hj as [Hj|Hj].
    + apply list_elem_of_filter in Hj as [_ Hj].
      destruct (Hseen j Hj Hp) as (r & ? & ?). exists r. split; [done | by right].
    + destruct (schedule_poll_new clock p) as [E | (tr & name & E & _)]; rewrite E in Hj.
      * by apply elem_of_nil in Hj.
      * apply list_elem_of_singleton in Hj as ->. exists p. split; [done | by left].
  - intros id. rewrite jobs_for_app, length_app.
    destruct (decide (id = k_id p)) as [-> | Hid].
    + assert (jobs_for "poll_" (k_id p) (remove_named (poll_job_name p) q) = []) as ->.
      { apply filter_empty_if. intros j Hj [Hp Hc].
        apply list_elem_of_filter in Hj as [Hn Hj].
        destruct (Hseen j Hj Hp) as (r' & Hr' & Hin).
        rewrite Hr' in Hc. simpl in Hc. congruence. }
      simpl. destruct (schedule_poll_new clock p) as [-> | (tr & name & -> & _)]; [simpl; lia|].
      etransitivity; [apply length_filter | simpl; lia].
    + assert (jobs_for "poll_" id (schedule_poll clock [] p) = []) as ->.
      { destruct (schedule_poll_new clock p) as [-> | (tr & name & -> & _)]; [done|].
        apply filter_empty_if. intros j Hj [_ Hc].
        apply list_elem_of_singleton in Hj as ->. simpl in Hc. congruence. }
      rewrite Nat.add_0_r. etransitivity; [apply jobs_for_remove_named | apply Hone].
Qed.

Lemma schedule_polls_keeps_one clock ps seen q :
  NoDup (k_id <$> ps) ->
  (forall p, p ∈ ps -> k_id p ∉ seen) ->
  contexts_among seen q -> at_most_one "poll_" q ->
  at_most_one "poll_" (schedule_polls clock ps q).
Proof.
  revert seen q. induction ps as [|p ps IH]; intros seen q Hnd Hfresh Hs Ho; [done|].
  unfold schedule_polls in *. cbn [fold_left].
  rewrite fmap_cons in Hnd. apply NoDup_cons in Hnd as [Hp Hnd].
  case_bool_decide.
  - destruct (schedule_poll_keeps_one clock seen q p) as [Hs' Ho']; auto.
    { apply Hfresh. by left. }
    apply (IH (k_id p :: seen)); auto.
    intros p' Hp' [Heq | Hin]%elem_of_cons.
    + apply Hp. rewrite <- Heq. by apply list_elem_of_fmap_2.
    + eapply Hfresh; [by right | done].
  - apply (IH seen); auto. intros p' Hp'. apply Hfresh. by right.
Qed.

Lemma job_key_remove_named name q q' :
  job_key <$> q = job_key <$> q' ->
  job_key <$> remove_named name q = job_key <$> remove_named name q'.
Proof.
  revert q'. induction q as [|j q IH]; intros [|j' q'] Hq; try done.
  rewrite !fmap_cons in Hq. injection Hq as Hj Hq.
  unfold remove_named in *. rewrite !filter_cons.
  assert (job_name j = job_name j') as Hn by congruence.
  rewrite Hn. case_decide; [rewrite !fmap_cons; f_equal|]; auto.
  unfold job_key. congruence.
Qed.

Lemma job_key_new_reminder clock s r :
  job_key <$> schedule_reminder clock [] (with_status s r) =
  job_key <$> schedule_reminder clock [] r.
Proof.
  unfold schedule_reminder, schedule_reminder_body, bind, run_once, run_daily,
    reminder_job_name. simpl.
  repeat case_match; simplify_eq/=; done.
Qed.

Lemma job_key_schedule_reminders clock (st : item -> option string) rs q q' :
  job_key <$> q = job_key <$> q' ->
  job_key <$> schedule_reminders clock ((fun r => with_status (st r) r) <$> rs) q =
  job_key <$> schedule_reminders clock rs q'.
Proof.
  revert q q'. induction rs as [|r rs IH]; intros q q' Hq; [done|].
  unfold schedule_reminders in *. rewrite fmap_cons. cbn [fold_left].
  apply IH.
  rewrite (schedule_reminder_app clock q), (schedule_reminder_app clock q' r).
  rewrite !fmap_app.
  f_equal; [by apply job_key_remove_named | apply job_key_new_reminder].
Qed.

Lemma schedule_polls_filter clock ps q :
  schedule_polls clock ps q =
  fold_left (schedule_poll clock) (filter (fun p => k_status p = Some "Active") ps) q.
Proof.
  revert q. induction ps as [|p ps IH]; intros q; [done|].
  unfold schedule_polls in *. cbn [fold_left]. rewrite filter_cons.
  rewrite IH. by case_bool_decide; case_decide.
Qed.

Lemma schedule_polls_new_jobs clock ps q j :
  j ∈ schedule_polls clock ps q ->
  j ∈ q \/ exists p, p ∈ ps /\ k_status p = Some "Active" /\ job_context j = Some p.
Proof.
  revert q. induction ps as [|p ps IH]; intros q Hj; [by left|].
  unfold schedule_polls in *. cbn [fold_left] in Hj.
  apply IH in Hj as [Hj | (p' & ? & ? & ?)].
  - case_bool_decide; [|by left].
    rewrite schedule_poll_app in Hj. apply elem_of_app in Hj as [Hj|Hj].
    + left. by apply list_elem_of_filter in Hj as [_ Hj].
    + right. exists p. split; [by left|]. split; [done|].
      destruct (schedule_poll_new clock p) as [E | (tr & name & E & _)]; rewrite E in Hj.
      * by apply elem_of_nil in Hj.
      * by apply list_elem_of_singleton in Hj as ->.
  - right. exists p'. split; [by right | done].
Qed.

(** C1 (amended): when the stored trigger of a record parses to an instant
    that is not after the current Moscow time and at most one hour before
    it, [schedule_poll] on a poll of kind "once" (or "one_time") removes
    the jobs named [poll_<id>] and registers one job named
    [poll_<id>_missed] that fires 5 seconds after the current UTC time
    with the poll as context; [schedule_reminder] on a reminder of kind
    "once" whose trigger is not after the current Moscow time, within
    the hour or not, only removes the jobs named [reminder_<id>] and
    registers nothing. *)
Theorem missed_once_poll_fires_at_once clock q record t :
  strptime_msk (get_or (k_datetime record) "") = Some t ->
  t <= moscow_now clock ->
  (moscow_now clock - t <= seconds 3600 ->
   is_once_poll record = true ->
   schedule_poll clock q record =
     remove_named (poll_job_name record) q ++
     [Build_Job send_poll_cb (RunOnce (utc_now clock + seconds 5)) (Some record)
        (poll_job_name record +:+ "_missed")]) /\
  (k_type record = Some "once" ->
   schedule_reminder clock q record = remove_named (reminder_job_name record) q).
Proof.
  intros Hparse Hpast. split.
  - intros Hgrace Honce. unfold schedule_poll, schedule_poll_body, is_once_poll in *.
    destruct (k_type record) as [ty|] eqn:Hty; [|done]. cbn [getitem bind].
    assert ((String.eqb ty "once" || String.eqb ty "one_time") = true) as ->.
    { apply orb_true_iff in Honce as [Ho|Ho]; apply bool_decide_eq_true in Ho;
        injection Ho as ->; reflexivity. }
    unfold strptime. rewrite Hparse. cbn [bind].
    assert ((moscow_now clock <? t) = false) as -> by lia.
    assert ((t <=? moscow_now clock) = true) as -> by lia.
    assert ((seconds (-3600) <=? t - moscow_now clock) = true) as ->.
    { unfold seconds in *. lia. }
    reflexivity.
  - intros Hty. unfold schedule_reminder, schedule_reminder_body.
    rewrite Hty. cbn [getitem bind]. change (String.eqb "once" "once") with true.
    cbn match. destruct (k_datetime record) as [s|]; [|done].
    cbn [getitem bind get_or] in *. unfold strptime. rewrite Hparse. cbn [bind].
    by assert ((moscow_now clock <? t) = false) as -> by lia.
Qed.

(** C6: rescheduling all reminders (all polls) twice over the same stored
    collection leaves the queue that rescheduling once leaves, whatever
    the clock reads at the first pass ([first]) and at the second
    ([second]): nothing the first pass registered survives the second,
    and with both passes at one reading the second pass changes nothing.
    After the two passes the queue holds at most one reminder job per
    record id and, when the stored poll ids are pairwise distinct, at
    most one poll job per record id. *)
Theorem reschedule_all_idempotent first second rf pf q :
  reschedule_all_reminders second rf (reschedule_all_reminders first rf q) =
    reschedule_all_reminders second rf q /\
  reschedule_all_polls second pf (reschedule_all_polls first pf q) =
    reschedule_all_polls second pf q /\
  (forall id,
     (length (jobs_for "reminder_" id
                (reschedule_all_reminders second rf
                   (reschedule_all_reminders first rf q))) <= 1)%nat) /\
  (NoDup (k_id <$> collection pf) ->
   forall id,
     (length (jobs_for "poll_" id
                (reschedule_all_polls second pf
                   (reschedule_all_polls first pf q))) <= 1)%nat).
Proof.
  unfold reschedule_all_reminders, reschedule_all_polls,
    schedule_all_reminders, schedule_all_polls.
  rewrite load_polls_collection, load_reminders_collection.
  rewrite remove_prefixed_schedule_reminders, remove_prefixed_schedule_polls,
    !remove_prefixed_idem.
  split; [reflexivity|]. split; [reflexivity|]. split.
  - intros id. apply schedule_reminders_keeps_one.
    + intros j Hj Hp. apply list_elem_of_filter in Hj as [Hn _]. congruence.
    + intros id'. rewrite jobs_for_remove_prefixed. simpl. lia.
  - intros Hnd id. apply (schedule_polls_keeps_one second (collection pf) []); auto.
    + intros p _ Hin. by apply elem_of_nil in Hin.
    + intros j Hj Hp. apply list_elem_of_filter in Hj as [Hn _]. congruence.
    + intros id'. rewrite jobs_for_remove_prefixed. simpl. lia.
Qed.

(** What the removal loop of [Schedule] does achieve: after a call no
    two jobs carry the regular name of the record. *)
Lemma schedule_reminder_one_named clock q r :
  (length (filter (fun j => job_name j = reminder_job_name r)
             (schedule_reminder clock q r)) <= 1)%nat.
Proof.
  rewrite schedule_reminder_app, filter_app, length_app.
  unfold remove_named. rewrite (filter_empty_if _ (filter _ q)).
  - etransitivity; [apply Nat.add_le_mono_l, length_filter|].
    destruct (schedule_reminder_new clock r) as [-> | [tr ->]]; simpl; lia.
  - by intros j [Hn _]%list_elem_of_filter.
Qed.

Lemma schedule_poll_one_named clock q p :
  (length (filter (fun j => job_name j = poll_job_name p)
             (schedule_poll clock q p)) <= 1)%nat.
Proof.
  rewrite schedule_poll_app, filter_app, length_app.
  unfold remove_named. rewrite (filter_empty_if _ (filter _ q)).
  - etransitivity; [apply Nat.add_le_mono_l, length_filter|].
    destruct (schedule_poll_new clock p) as [-> | (tr & name & -> & _)]; simpl; lia.
  - by intros j [Hn _]%list_elem_of_filter.
Qed.

End SchedulerFacts.

(** C1, counterexample: a one-time reminder whose trigger was half an
    hour ago gets no job. *)
Lemma missed_once_reminder_gets_no_job :
  k_type reminder_1 = Some "once" /\
  (exists t, @strptime_msk Example.lib (get_or (k_datetime reminder_1) "") = Some t /\
             t <= moscow_now noon /\ moscow_now noon - t <= seconds 3600) /\
  @schedule_reminder Example.lib noon [] reminder_1 = [].
Proof.
  split; [reflexivity|]. split; [|reflexivity].
  eexists. split; [reflexivity|]. split; vm_compute; discriminate.
Qed.

(** C1 (amended), for a poll whose trigger was half an hour ago. *)
Lemma missed_once_poll_fires_at_once_witness :
  @schedule_poll Example.lib noon [] poll_1 =
    [Build_Job send_poll_cb (RunOnce (Example.moscow 2024 5 1 12 0 5)) (Some poll_1)
       "poll_1_missed"].
Proof.
  refine (proj1 (@missed_once_poll_fires_at_once Example.lib noon [] poll_1
            (Example.moscow 2024 5 1 11 30 0) _ _) _ _).
  - reflexivity.
  - vm_compute. discriminate.
  - vm_compute. discriminate.
  - reflexivity.
Defined.

(** C5: [schedule_poll] does not keep one live job per record id.
    Scheduling twice in a row a one-time poll whose trigger was half an
    hour ago leaves two live jobs for its id, both named
    [poll_1_missed]: the removal loop only looks for the name [poll_1]. *)
Lemma schedule_poll_twice_leaves_two_jobs :
  let q := @schedule_poll Example.lib noon
             (@schedule_poll Example.lib noon [] poll_1) poll_1 in
  job_name <$> q = ["poll_1_missed"; "poll_1_missed"] /\
  length (jobs_for "poll_" (Some "1") q) = 2%nat.
Proof. vm_compute. split; reflexivity. Qed.

(** ** Delivery engine *)

Lemma for_each_sheets env calls w :
  exists r, for_each calls (sheets_manager env) w =
            (set_sheets (sheets w ++ received env calls) w, r).
Proof.
  revert w. induction calls as [|c calls IH]; intros w.
  - exists (Ok tt). destruct w. simpl. unfold ret, set_sheets. simpl.
    by rewrite app_nil_r.
  - cbn [for_each received]. unfold mbind at 1, sheets_manager at 1.
    unfold mbind at 1, modify. 
    destruct (sheets_raises env c).
    + by eexists.
    + unfold ret at 1. destruct (IH (set_sheets (sheets w ++ [c]) w)) as [r Hr].
      exists r. rewrite Hr. destruct w. unfold set_sheets. simpl.
      by rewrite <- app_assoc.
Qed.

Lemma mirror_run env calls w :
  mirror env calls w = (set_sheets (sheets w ++ mirrored env calls) w, Ok tt).
Proof.
  unfold mirror, mirrored. destruct (sheets_ready env).
  - unfold catch. destruct (for_each_sheets env calls w) as [r ->].
    by destruct r as [[]|].
  - destruct w. unfold ret, set_sheets. simpl. by rewrite app_nil_r.
Qed.

(** What the opening block of a callback can do. *)
Lemma load_chats_or_restore_cases env w :
  match subscribed_chats_json w with
  | Text (Json (c :: cs)) => load_chats_or_restore env w = (w, Ok (Some (c :: cs)))
  | _ =>
      if sheets_ready env then
        match backup_chats env with
        | Restored chats =>
            load_chats_or_restore env w = (set_chats (json_dump chats) w, Ok (Some chats))
        | NotRestored =>
            load_chats_or_restore env w = (set_chats (json_dump []) w, Ok None)
        | RestoreRaised =>
            load_chats_or_restore env w = (w, Raise SheetsError)
        end
      else load_chats_or_restore env w = (set_chats (json_dump []) w, Ok None)
  end.
Proof.
  unfold load_chats_or_restore, ensure_subscribed_chats_file,
    restore_subscribed_chats_file, read_chats, save_chats, catch, mbind, get,
    lift, modify, ret, raise.
  destruct (subscribed_chats_json w) as [|[| |[|c cs]]] eqn:Hf; simpl;
    rewrite ?Hf; simpl;
    destruct (sheets_ready env); simpl; try done;
    destruct (backup_chats env); simpl; done.
Qed.

Lemma unsubscribe_absent env b w l :
  subscribed_chats_json w = Text (Json l) -> b ∉ l ->
  unsubscribe_user env b w = (w, Ok false).
Proof.
  intros Hf Hb.
  unfold unsubscribe_user, read_chats, catch, mbind, get, lift, ret.
  rewrite Hf. simpl. by rewrite bool_decide_eq_false_2.
Qed.

Lemma for_each_unsubscribe env bs w l :
  subscribed_chats_json w = Text (Json l) ->
  (forall b, b ∈ bs -> b ∉ l) ->
  for_each bs
    (fun b => catch (_ <~ unsubscribe_user env b ;; ret tt) any_exception (ret tt)) w
  = (w, Ok tt).
Proof.
  intros Hf. induction bs as [|b bs IH]; intros Hbs; [done|].
  cbn [for_each]. unfold mbind at 1, catch at 1, mbind at 1.
  rewrite (unsubscribe_absent env b w l Hf) by (apply Hbs; by left).
  unfold ret at 1. apply IH. intros b' Hb'. apply Hbs. by right.
Qed.

Lemma blocked_filtered_out (blocked chats : list Z) b :
  b ∈ blocked -> b ∉ filter (fun cid => cid ∉ blocked) chats.
Proof. intros Hb Hin. apply list_elem_of_filter in Hin as [Hn _]. by apply Hn. Qed.

Lemma load_reminders_m_run w :
  load_reminders_m w = (w, Ok (collection (reminders_json w))).
Proof.
  unfold load_reminders_m, mbind, get, lift. by rewrite load_reminders_collection.
Qed.

Lemma delete_once_reminder_run env r u w :
  delete_once_reminder env r u w =
  (set_sheets (sheets w ++ mirrored env [sync_reminder u "UPDATE"; sync_reminder u "DELETE"])
     (set_reminders (save_reminders (without_id r (collection (reminders_json w)))) w),
   Ok tt).
Proof.
  unfold delete_once_reminder, mbind, modify.
  rewrite load_reminders_m_run. by rewrite mirror_run.
Qed.

Lemma send_reminder_fans_out env r w w1 c cs :
  load_chats_or_restore env w = (w1, Ok (Some (c :: cs))) ->
  let t := fan_out (reminder_step env) 0 (c :: cs) no_tally in
  let u := updated r (moscow_sent_time env) (reminder_delivery_status t) in
  run (send_reminder env r) w =
    {| reminders_json :=
         if is_once_reminder r
         then save_reminders (without_id r (collection (reminders_json w1)))
         else reminders_json w1;
       polls_json := polls_json w1;
       subscribed_chats_json :=
         match blocked_chats t with
         | [] => subscribed_chats_json w1
         | _ :: _ => json_dump (filter (fun cid => cid ∉ blocked_chats t) (c :: cs))
         end;
       job_queue := job_queue w1;
       sheets :=
         sheets w1 ++
         (if is_once_reminder r
          then mirrored env [sync_reminder u "UPDATE"; sync_reminder u "DELETE"]
          else []);
       outbox := outbox w1 ++ attempts t |}.
Proof.
  intros Hload t u. unfold run, send_reminder. unfold catch at 1, mbind at 1.
  rewrite Hload. fold t. unfold mbind at 1, modify at 1.
  unfold mbind at 1.
  set (w2 := set_outbox (outbox w1 ++ attempts t) w1).
  assert (match blocked_chats t with
          | [] => ret tt
          | _ :: _ =>
              _ <~ save_chats (filter (fun cid => cid ∉ blocked_chats t) (c :: cs)) ;;
              for_each (blocked_chats t)
                (fun b => catch (_ <~ unsubscribe_user env b ;; ret tt)
                            any_exception (ret tt))
          end w2 =
          (match blocked_chats t with
           | [] => w2
           | _ :: _ => set_chats (json_dump (filter (fun cid => cid ∉ blocked_chats t) (c :: cs))) w2
           end, Ok tt)) as ->.
  { destruct (blocked_chats t) as [|b bs] eqn:Hb; [done|].
    unfold mbind at 1. unfold save_chats, modify.
    erewrite for_each_unsubscribe; [done | reflexivity |].
    intros b' Hb'. by apply blocked_filtered_out. }
  destruct (is_once_reminder r).
  - fold u. rewrite delete_once_reminder_run. simpl.
    destruct (blocked_chats t); destruct w1; reflexivity.
  - unfold ret. simpl. rewrite app_nil_r.
    destruct (blocked_chats t); destruct w1; reflexivity.
Qed.

Lemma send_reminder_nobody env r w w1 :
  load_chats_or_restore env w = (w1, Ok (Some [])) ->
  let u := updated r (moscow_sent_time env) no_recipients in
  run (send_reminder env r) w =
    if is_once_reminder r then
      set_sheets (sheets w1 ++ mirrored env [sync_reminder u "UPDATE"; sync_reminder u "DELETE"])
        (set_reminders (save_reminders (without_id r (collection (reminders_json w1)))) w1)
    else w1.
Proof.
  intros Hload u. unfold run, send_reminder. unfold catch at 1, mbind at 1.
  rewrite Hload. destruct (is_once_reminder r); [|done].
  fold u. by rewrite delete_once_reminder_run.
Qed.

Lemma send_reminder_gives_up env r w w1 res :
  load_chats_or_restore env w = (w1, res) ->
  res = Ok None \/ (exists e, res = Raise e) ->
  run (send_reminder env r) w = w1.
Proof.
  intros Hload Hres. unfold run, send_reminder. unfold catch at 1, mbind at 1.
  rewrite Hload. by destruct Hres as [-> | [e ->]].
Qed.

Lemma send_poll_gives_up env p w w1 res :
  load_chats_or_restore env w = (w1, res) ->
  res = Ok None \/ (exists e, res = Raise e) ->
  run (send_poll env p) w = w1 \/ run (send_poll env p) w = w.
Proof.
  intros Hload Hres. unfold run, send_poll. unfold catch at 1.
  case_bool_decide; [by right|]. left. unfold mbind at 1.
  rewrite Hload. by destruct Hres as [-> | [e ->]].
Qed.

Lemma load_polls_m_run w : load_polls_m w = (w, Ok (collection (polls_json w))).
Proof.
  unfold load_polls_m, mbind, get, lift. by rewrite load_polls_collection.
Qed.

Lemma send_poll_nobody env p w w1 :
  p <> empty_dict ->
  load_chats_or_restore env w = (w1, Ok (Some [])) ->
  let u := updated p (moscow_sent_time env) no_recipients in
  run (send_poll env p) w =
    if is_once_poll p then
      set_sheets (sheets w1 ++ mirrored env [sync_poll u "UPDATE"; sync_poll u "DELETE"])
        (set_polls (save_polls (without_id p (collection (polls_json w1)))) w1)
    else w1.
Proof.
  intros Hne Hload u. unfold run, send_poll. unfold catch at 1.
  rewrite bool_decide_eq_false_2 by done. unfold mbind at 1.
  rewrite Hload. destruct (is_once_poll p); [|done].
  fold u. unfold mbind, modify. rewrite load_polls_m_run.
  by rewrite mirror_run.
Qed.

Lemma send_poll_fans_out env p w w1 c cs :
  p <> empty_dict ->
  load_chats_or_restore env w = (w1, Ok (Some (c :: cs))) ->
  let t := fan_out (poll_step env) 0 (c :: cs) no_tally in
  let u := updated p (moscow_sent_time env) (poll_delivery_status t) in
  let rewritten := rewrite_in_place p u (collection (polls_json w1)) in
  run (send_poll env p) w =
    {| reminders_json := reminders_json w1;
       polls_json :=
         save_polls (if is_once_poll p then without_id p rewritten else rewritten);
       subscribed_chats_json :=
         match blocked_chats t with
         | [] => subscribed_chats_json w1
         | _ :: _ => json_dump (filter (fun cid => cid ∉ blocked_chats t) (c :: cs))
         end;
       job_queue := job_queue w1;
       sheets :=
         sheets w1 ++
         (match blocked_chats t with
          | [] => []
          | _ :: _ => mirrored env [sync_subscribed_chats_to_sheets None]
          end) ++
         mirrored env [sync_poll u "UPDATE"] ++
         (if is_once_poll p then mirrored env [sync_poll u "DELETE"] else []);
       outbox := outbox w1 ++ attempts t |}.
Proof.
  intros Hne Hload t u rewritten. unfold run, send_poll. unfold catch at 1.
  rewrite bool_decide_eq_false_2 by done. unfold mbind at 1.
  rewrite Hload. fold t. fold u.
  unfold mbind, save_chats, modify. cbv beta iota.
  destruct (blocked_chats t) as [|b bs] eqn:Hb.
  - unfold ret at 1. rewrite load_polls_m_run, mirror_run.
    destruct (is_once_poll p).
    + rewrite load_polls_m_run, mirror_run.
      destruct w1. cbn. rewrite <- !app_assoc. reflexivity.
    + unfold ret. destruct w1. cbn. rewrite app_nil_r. reflexivity.
  - rewrite mirror_run, load_polls_m_run. rewrite mirror_run.
    destruct (is_once_poll p).
    + rewrite load_polls_m_run, mirror_run.
      destruct w1. cbn. rewrite <- !app_assoc. reflexivity.
    + unfold ret. destruct w1. cbn. rewrite app_nil_r, <- !app_assoc. reflexivity.
Qed.

Lemma reminder_step_additive env : additive (reminder_step env).
Proof.
  intros i cid t. unfold reminder_step.
  repeat case_match; simpl; rewrite ?app_nil_r; done.
Qed.

Lemma poll_step_additive env : additive (poll_step env).
Proof.
  intros i cid t. unfold poll_step.
  repeat case_match; simpl; rewrite ?app_nil_r; done.
Qed.

Lemma fan_out_unfold step (Hstep : additive step) chats i0 t :
  blocked_chats (fan_out step i0 chats t) =
    blocked_chats t ++
    concat (imap (fun i cid => blocked_chats (step (i0 + i)%nat cid no_tally)) chats) /\
  attempts (fan_out step i0 chats t) =
    attempts t ++
    concat (imap (fun i cid => attempts (step (i0 + i)%nat cid no_tally)) chats).
Proof.
  revert i0 t. induction chats as [|cid chats IH]; intros i0 t.
  - simpl. by rewrite !app_nil_r.
  - cbn [fan_out]. destruct (IH (S i0) (step i0 cid t)) as [-> ->].
    destruct (Hstep i0 cid t) as [-> ->].
    rewrite !imap_cons. cbn [concat]. rewrite Nat.add_0_r, <- !app_assoc.
    split; do 3 f_equal; apply imap_ext; intros; simpl; by rewrite Nat.add_succ_r.
Qed.

Lemma elem_of_concat_imap {A B} (f : nat -> A -> list B) (l : list A) (b : B) :
  b ∈ concat (imap f l) <-> exists i a, l !! i = Some a /\ b ∈ f i a.
Proof.
  revert f. induction l as [|x l IH]; intros f.
  - simpl. split; [by intros ?%elem_of_nil | by intros (i & a & ? & _)].
  - rewrite imap_cons. cbn [concat]. rewrite elem_of_app, IH. split.
    + intros [Hb | (i & a & Hi & Hb)]; [by exists 0%nat, x | by exists (S i), a].
    + intros ([|i] & a & Hi & Hb); simplify_eq/=; [by left | right; eauto].
Qed.

Lemma reminder_step_targets env i cid c m :
  (c, m) ∈ attempts (reminder_step env i cid no_tally) -> c = cid.
Proof.
  unfold reminder_step. repeat case_match; simpl; intros Hin;
    apply list_elem_of_In in Hin; simpl in Hin; intuition congruence.
Qed.

Lemma poll_step_targets env i cid c m :
  (c, m) ∈ attempts (poll_step env i cid no_tally) -> c = cid.
Proof.
  unfold poll_step. repeat case_match; simpl; intros Hin;
    apply list_elem_of_In in Hin; simpl in Hin; intuition congruence.
Qed.

Lemma reminder_attempts_target_chats env chats c m :
  (c, m) ∈ attempts (fan_out (reminder_step env) 0 chats no_tally) -> c ∈ chats.
Proof.
  rewrite (proj2 (fan_out_unfold _ (reminder_step_additive env) chats 0%nat no_tally)).
  simpl. intros (i & a & Hi & Hin)%elem_of_concat_imap.
  apply reminder_step_targets in Hin as ->. by eapply list_elem_of_lookup_2.
Qed.

Lemma poll_attempts_target_chats env chats c m :
  (c, m) ∈ attempts (fan_out (poll_step env) 0 chats no_tally) -> c ∈ chats.
Proof.
  rewrite (proj2 (fan_out_unfold _ (poll_step_additive env) chats 0%nat no_tally)).
  simpl. intros (i & a & Hi & Hin)%elem_of_concat_imap.
  apply poll_step_targets in Hin as ->. by eapply list_elem_of_lookup_2.
Qed.

Lemma blocked_at_position step (Hstep : additive step) chats i cid :
  chats !! i = Some cid ->
  cid ∈ blocked_chats (step i cid no_tally) ->
  cid ∈ blocked_chats (fan_out step 0 chats no_tally).
Proof.
  intros Hi Hb.
  rewrite (proj1 (fan_out_unfold _ Hstep chats 0%nat no_tally)). simpl.
  apply elem_of_concat_imap. eauto.
Qed.

Lemma load_chats_summary env w w1 res :
  load_chats_or_restore env w = (w1, res) ->
  w1 = set_chats (subscribed_chats_json w1) w /\
  (subscribed_chats_json w1 = subscribed_chats_json w \/
   subscribed_chats_json w1 = json_dump [] \/
   exists l, backup_chats env = Restored l /\ subscribed_chats_json w1 = json_dump l) /\
  (forall chats, res = Ok (Some chats) -> subscribed_chats_json w1 = json_dump chats).
Proof.
  intros Hload. pose proof (load_chats_or_restore_cases env w) as Hc.
  destruct w as [rf pf cf q sh ob]. cbn [subscribed_chats_json] in Hc.
  destruct cf as [|[| |[|c cs]]]; try (destruct (sheets_ready env); [destruct (backup_chats env) eqn:Hb|]);
    rewrite Hc in Hload; simplify_eq; cbn; (split; [done|]); split; eauto; intros; simplify_eq; done.
Qed.

Lemma load_chats_frame env w w1 res :
  load_chats_or_restore env w = (w1, res) ->
  reminders_json w1 = reminders_json w /\ polls_json w1 = polls_json w /\
  job_queue w1 = job_queue w /\ sheets w1 = sheets w /\ outbox w1 = outbox w.
Proof.
  intros Hload. destruct (load_chats_summary _ _ _ _ Hload) as (-> & _). by destruct w.
Qed.

Lemma load_keeps_unsubscribed env w w1 res cid :
  load_chats_or_restore env w = (w1, res) ->
  not_subscribed cid w ->
  (forall l, backup_chats env = Restored l -> cid ∉ l) ->
  not_subscribed cid w1 /\ (forall chats, res = Ok (Some chats) -> cid ∉ chats).
Proof.
  intros Hload Hw Hb. destruct (load_chats_summary _ _ _ _ Hload) as (_ & Hf & Hres).
  assert (not_subscribed cid w1) as H1.
  { intros l Hl. destruct Hf as [Hf | [Hf | (l' & Hl' & Hf)]]; rewrite Hf in Hl.
    - by apply Hw.
    - injection Hl as <-. by apply not_elem_of_nil.
    - injection Hl as <-. by apply Hb. }
  split; [done|]. intros chats ->. apply H1. by apply Hres.
Qed.

Lemma fire_skips cid f w :
  not_subscribed cid w -> backup_without cid f ->
  not_subscribed cid (fire f w) /\ never_sent_to cid w (fire f w).
Proof.
  intros Hw Hb. unfold never_sent_to.
  assert (forall w1 : World, outbox w1 = outbox w ->
            exists new, outbox w1 = outbox w ++ new /\ forall mode, (cid, mode) ∉ new) as Hsame.
  { intros w1 ->. exists []. rewrite app_nil_r. split; [done|]. intros m. apply not_elem_of_nil. }
  destruct f as [env r | env p]; cbn [fire firing_env] in *; unfold backup_without in Hb;
    cbn [firing_env] in Hb.
  - destruct (load_chats_or_restore env w) as [w1 res] eqn:Hload.
    destruct (load_keeps_unsubscribed _ _ _ _ cid Hload Hw Hb) as [H1 Hchats].
    destruct (load_chats_frame _ _ _ _ Hload) as (_ & _ & _ & _ & Hout).
    destruct res as [[[|c cs]|]|e].
    + rewrite (send_reminder_nobody _ _ _ _ Hload).
      destruct (is_once_reminder r); [|by split; [|apply Hsame]].
      split; [by destruct w1 | apply Hsame; by destruct w1].
    + rewrite (send_reminder_fans_out _ _ _ _ _ _ Hload). split.
      * intros l. cbn [subscribed_chats_json]. destruct (blocked_chats _); [apply H1|].
        intros [= <-]. intros Hin. apply list_elem_of_filter in Hin as [_ Hin].
        by apply (Hchats (c :: cs)).
      * eexists. cbn [outbox]. rewrite Hout. split; [done|].
        intros m Hin. apply reminder_attempts_target_chats in Hin.
        by apply (Hchats (c :: cs)).
    + rewrite (send_reminder_gives_up _ _ _ _ _ Hload) by eauto.
      by split; [|apply Hsame].
    + rewrite (send_reminder_gives_up _ _ _ _ _ Hload) by eauto.
      by split; [|apply Hsame].
  - destruct (decide (p = empty_dict)) as [-> | Hne].
    { unfold run, send_poll, catch. rewrite bool_decide_eq_true_2 by done.
      cbn. by split; [|apply Hsame]. }
    destruct (load_chats_or_restore env w) as [w1 res] eqn:Hload.
    destruct (load_keeps_unsubscribed _ _ _ _ cid Hload Hw Hb) as [H1 Hchats].
    destruct (load_chats_frame _ _ _ _ Hload) as (_ & _ & _ & _ & Hout).
    destruct res as [[[|c cs]|]|e].
    + rewrite (send_poll_nobody _ _ _ _ Hne Hload).
      destruct (is_once_poll p); [|by split; [|apply Hsame]].
      split; [by destruct w1 | apply Hsame; by destruct w1].
    + rewrite (send_poll_fans_out _ _ _ _ _ _ Hne Hload). split.
      * intros l. cbn [subscribed_chats_json]. destruct (blocked_chats _); [apply H1|].
        intros [= <-]. intros Hin. apply list_elem_of_filter in Hin as [_ Hin].
        by apply (Hchats (c :: cs)).
      * eexists. cbn [outbox]. rewrite Hout. split; [done|].
        intros m Hin. apply poll_attempts_target_chats in Hin.
        by apply (Hchats (c :: cs)).
    + destruct (send_poll_gives_up env p _ _ _ Hload) as [-> | ->]; eauto;
        by split; [|apply Hsame].
    + destruct (send_poll_gives_up env p _ _ _ Hload) as [-> | ->]; eauto;
        by split; [|apply Hsame].
Qed.

Lemma fire_all_skips cid fs w :
  not_subscribed cid w -> Forall (backup_without cid) fs ->
  never_sent_to cid w (fire_all fs w).
Proof.
  revert w. induction fs as [|f fs IH]; intros w Hw Hfs.
  - exists []. cbn. rewrite app_nil_r. split; [done|]. intros m. apply not_elem_of_nil.
  - apply Forall_cons in Hfs as [Hf Hfs]. cbn [fire_all fold_left].
    destruct (fire_skips cid f w Hw Hf) as [Hw' (new & Hout & Hnew)].
    destruct (IH (fire f w) Hw' Hfs) as (new' & Hout' & Hnew').
    exists (new ++ new'). unfold fire_all in Hout'. rewrite Hout', Hout, app_assoc.
    split; [done|]. intros m [Hin|Hin]%elem_of_app; [by eapply Hnew | by eapply Hnew'].
Qed.

Lemma without_id_no_match record l p :
  p ∈ without_id record l -> k_id p <> k_id record.
Proof. by intros [? _]%list_elem_of_filter. Qed.

Lemma updated_same_id record t s : k_id (updated record t s) = k_id record.
Proof. done. Qed.

Lemma without_id_rewrite_in_place record u l :
  k_id u = k_id record ->
  without_id record (rewrite_in_place record u l) = without_id record l.
Proof.
  intros Hu. unfold rewrite_in_place.
  destruct (list_find _ l) as [[i p]|] eqn:Hfind; [|done].
  apply list_find_Some in Hfind as (Hi & Hp & _).
  rewrite insert_take_drop by (by eapply lookup_lt_Some).
  rewrite <- (take_drop_middle l i p Hi) at 3.
  unfold without_id. rewrite !filter_app, !filter_cons.
  rewrite !decide_False; [done | by intros [] | by intros []].
Qed.

Lemma once_poll_not_empty record : is_once_poll record = true -> record <> empty_dict.
Proof. by intros Ho ->. Qed.

Lemma typed_not_empty record ty : k_type record = Some ty -> record <> empty_dict.
Proof. by intros Ht ->. Qed.

(** C2 (amended): when the opening block of a firing obtains a subscriber
    list (the local list, or the list of a successful emergency restore,
    empty or not), then after the firing of a record of kind "once" the
    collection is what it was without the records carrying its id,
    whatever the gateway answered for each subscriber and whatever the
    Sheets manager did: for reminders after [send_reminder], for polls
    (kind "once" or "one_time") after [send_poll]. *)
Theorem once_record_removed_after_firing env w w1 chats record :
  load_chats_or_restore env w = (w1, Ok (Some chats)) ->
  (k_type record = Some "once" ->
   collection (reminders_json (run (send_reminder env record) w)) =
     without_id record (collection (reminders_json w)) /\
   forall r, r ∈ collection (reminders_json (run (send_reminder env record) w)) ->
             k_id r <> k_id record) /\
  (is_once_poll record = true ->
   collection (polls_json (run (send_poll env record) w)) =
     without_id record (collection (polls_json w)) /\
   forall p, p ∈ collection (polls_json (run (send_poll env record) w)) ->
             k_id p <> k_id record).
Proof.
  intros Hload.
  destruct (load_chats_frame _ _ _ _ Hload) as (Hr & Hp & _).
  split.
  - intros Hty.
    assert (is_once_reminder record = true) as Ho
      by (unfold is_once_reminder; by rewrite bool_decide_eq_true_2).
    assert (collection (reminders_json (run (send_reminder env record) w)) =
            without_id record (collection (reminders_json w))) as ->.
    { destruct chats as [|c cs].
      - rewrite (send_reminder_nobody _ _ _ _ Hload), Ho. cbn. by rewrite Hr.
      - rewrite (send_reminder_fans_out _ _ _ _ _ _ Hload), Ho. cbn. by rewrite Hr. }
    split; [done|]. intros r. apply without_id_no_match.
  - intros Ho. pose proof (once_poll_not_empty _ Ho) as Hne.
    assert (collection (polls_json (run (send_poll env record) w)) =
            without_id record (collection (polls_json w))) as ->.
    { destruct chats as [|c cs].
      - rewrite (send_poll_nobody _ _ _ _ Hne Hload), Ho. cbn. by rewrite Hp.
      - rewrite (send_poll_fans_out _ _ _ _ _ _ Hne Hload), Ho. cbn.
        rewrite Hp. by apply without_id_rewrite_in_place. }
    split; [done|]. intros p. apply without_id_no_match.
Qed.

(** C3 (amended): after a firing of a record of kind "daily" or "weekly"
    with a non-empty subscriber list, [send_reminder] leaves the reminder
    file as it was (the record is still there; [last_sent] is not
    written); [send_poll] replaces the first stored poll carrying the id
    of the record, in place, by the record of the job with [last_sent]
    set to the sent time and [delivery_status] to the summary of the
    fan-out, [f"Sent to {total_sent} chats, {total_failed} failed"] with
    the counters of the loop over the subscriber list. *)
Theorem recurring_record_after_firing env w w1 c cs record :
  load_chats_or_restore env w = (w1, Ok (Some (c :: cs))) ->
  k_type record = Some "daily" \/ k_type record = Some "weekly" ->
  reminders_json (run (send_reminder env record) w) = reminders_json w /\
  forall i p,
    collection (polls_json w) !! i = Some p ->
    k_id p = k_id record ->
    (forall j q, collection (polls_json w) !! j = Some q -> (j < i)%nat ->
                 k_id q <> k_id record) ->
    let status :=
      poll_delivery_status (fan_out (poll_step env) 0 (c :: cs) no_tally) in
    let rewritten := updated record (moscow_sent_time env) status in
    k_last_sent rewritten = Some (moscow_sent_time env) /\
    k_delivery_status rewritten = Some status /\
    collection (polls_json (run (send_poll env record) w)) =
      <[i := rewritten]> (collection (polls_json w)) /\
    collection (polls_json (run (send_poll env record) w)) !! i = Some rewritten.
Proof.
  intros Hload Hty.
  destruct (load_chats_frame _ _ _ _ Hload) as (Hr & Hp & _).
  assert (is_once_reminder record = false /\ is_once_poll record = false /\
          record <> empty_dict) as (Hnr & Hnp & Hne).
  { unfold is_once_reminder, is_once_poll.
    destruct Hty as [Hty|Hty]; rewrite Hty; repeat split; try done; by intros ->. }
  split.
  - rewrite (send_reminder_fans_out _ _ _ _ _ _ Hload), Hnr. cbn. done.
  - intros i p Hi Hid Hfirst.
    cbn zeta. split; [done|]. split; [done|].
    rewrite (send_poll_fans_out _ _ _ _ _ _ Hne Hload), Hnp. cbn. rewrite Hp.
    assert (list_find (fun p => k_id p = k_id record) (collection (polls_json w))
            = Some (i, p)) as Hfind.
    { apply list_find_Some. split; [done|]. split; [done|]. exact Hfirst. }
    unfold rewrite_in_place. rewrite Hfind. split; [done|].
    apply list_lookup_insert_eq. by eapply lookup_lt_Some.
Qed.

(** What the opening block does when the subscriber file holds nobody:
    the empty list counts as a damaged file and the emergency restore
    decides. *)
Lemma load_chats_empty env w :
  collection (subscribed_chats_json w) = [] ->
  load_chats_or_restore env w =
    if sheets_ready env then
      match backup_chats env with
      | Restored chats => (set_chats (json_dump chats) w, Ok (Some chats))
      | NotRestored => (set_chats (json_dump []) w, Ok None)
      | RestoreRaised => (w, Raise SheetsError)
      end
    else (set_chats (json_dump []) w, Ok None).
Proof.
  intros Hempty. pose proof (load_chats_or_restore_cases env w) as Hc.
  destruct (subscribed_chats_json w) as [|[| |[|c cs]]]; try discriminate Hempty;
    destruct (sheets_ready env); try done; by destruct (backup_chats env).
Qed.

(** C8 (amended): a firing that finds no subscriber in the local file (the
    file is missing, empty, invalid or holds the empty list) first tries
    the emergency restore.  When the Sheets manager is not available, or
    its restore reports failure or raises, the firing ends there: no
    send is attempted and neither collection nor the calls received by
    the Sheets manager change, so a record of kind "once" stays stored.
    When the restore hands back the empty list, no send is attempted; a
    record of kind "once" is removed from its collection and the record
    marked "No recipients available - auto-deleted" is what the Sheets
    manager is sent (UPDATE, then DELETE); for a record of kind "daily"
    or "weekly" the collection and the calls received by the Sheets
    manager are as before.  When the restore hands back subscribers, the
    firing goes on with that list. *)
Theorem empty_audience env w record :
  collection (subscribed_chats_json w) = [] ->
  let after_reminder := run (send_reminder env record) w in
  let after_poll := run (send_poll env record) w in
  let marked := updated record (moscow_sent_time env) no_recipients in
  (backup_failed (sheets_ready env) (backup_chats env) ->
     outbox after_reminder = outbox w /\
     outbox after_poll = outbox w /\
     reminders_json after_reminder = reminders_json w /\
     sheets after_reminder = sheets w /\
     polls_json after_poll = polls_json w /\
     sheets after_poll = sheets w) /\
  (sheets_ready env = true -> backup_chats env = Restored [] ->
     outbox after_reminder = outbox w /\
     outbox after_poll = outbox w /\
     (k_type record = Some "once" ->
        k_delivery_status marked = Some no_recipients /\
        collection (reminders_json after_reminder) =
          without_id record (collection (reminders_json w)) /\
        sheets after_reminder =
          sheets w ++
          mirrored env [sync_reminder marked "UPDATE"; sync_reminder marked "DELETE"] /\
        collection (polls_json after_poll) =
          without_id record (collection (polls_json w)) /\
        sheets after_poll =
          sheets w ++ mirrored env [sync_poll marked "UPDATE"; sync_poll marked "DELETE"]) /\
     (k_type record = Some "daily" \/ k_type record = Some "weekly" ->
        reminders_json after_reminder = reminders_json w /\
        sheets after_reminder = sheets w /\
        polls_json after_poll = polls_json w /\
        sheets after_poll = sheets w)) /\
  (forall c cs,
     sheets_ready env = true -> backup_chats env = Restored (c :: cs) ->
     load_chats_or_restore env w =
       (set_chats (json_dump (c :: cs)) w, Ok (Some (c :: cs)))).
Proof.
  intros Hempty. cbn zeta.
  pose proof (load_chats_empty env w Hempty) as Hload.
  split; [|split].
  - intros Hfail.
    assert (exists w1 res,
              load_chats_or_restore env w = (w1, res) /\
              (res = Ok None \/ exists e, res = Raise e)) as (w1 & res & Hl & Hres).
    { destruct Hfail as [Hr | [Hb | Hb]]; rewrite ?Hr, ?Hb in Hload.
      - eexists _, _. split; [exact Hload | by left].
      - destruct (sheets_ready env); eexists _, _; (split; [exact Hload | by left]).
      - destruct (sheets_ready env); eexists _, _; (split; [exact Hload|]);
          [right; by eexists | by left]. }
    destruct (load_chats_frame _ _ _ _ Hl) as (Hr & Hp & _ & Hs & Ho).
    rewrite (send_reminder_gives_up _ record _ _ _ Hl Hres).
    by destruct (send_poll_gives_up _ record _ _ _ Hl Hres) as [-> | ->].
  - intros Hready Hb. rewrite Hready, Hb in Hload.
    destruct (load_chats_frame _ _ _ _ Hload) as (Hr & Hp & _ & Hs & Ho).
    rewrite (send_reminder_nobody _ _ _ _ Hload).
    split; [by destruct (is_once_reminder record), w|].
    split.
    { destruct (decide (record = empty_dict)) as [-> | Hne].
      - unfold run, send_poll, catch. by rewrite bool_decide_eq_true_2.
      - rewrite (send_poll_nobody _ _ _ _ Hne Hload).
        by destruct (is_once_poll record), w. }
    split.
    + intros Hty. pose proof (typed_not_empty _ _ Hty) as Hne.
      rewrite (send_poll_nobody _ _ _ _ Hne Hload).
      unfold is_once_reminder, is_once_poll. rewrite Hty.
      rewrite !bool_decide_eq_true_2 by done. cbn. done.
    + intros Hty.
      assert (is_once_reminder record = false /\ is_once_poll record = false /\
              record <> empty_dict) as (Hnr & Hnp & Hne).
      { unfold is_once_reminder, is_once_poll.
        destruct Hty as [Hty|Hty]; rewrite Hty; repeat split; try done; by intros ->. }
      rewrite (send_poll_nobody _ _ _ _ Hne Hload), Hnr, Hnp. done.
  - intros c cs Hready Hb. by rewrite Hready, Hb in Hload.
Qed.

(** X25: a subscriber whose send fails with an error text that holds one
    of the four texts the loops test for is put on the removal list; for
    a reminder whose first send fails so, the first send is the only
    attempt at that position (no fallback); after the firing the
    persisted subscriber list does not contain the subscriber, and no
    later firing sends to it as long as no restore from the backup store
    hands it back.  The same holds when the fallback send of a reminder
    fails so, and for polls. *)
Theorem unreachable_subscriber_removed env w w1 chats record i cid error_str :
  load_chats_or_restore env w = (w1, Ok (Some chats)) ->
  chats !! i = Some cid ->
  is_unreachable error_str = true ->
  (bot_send_message env i cid HTML = Failed error_str ->
     cid ∈ blocked_chats (fan_out (reminder_step env) 0 chats no_tally) /\
     attempts (reminder_step env i cid no_tally) = [(cid, HTML)] /\
     removed_for_good cid (run (send_reminder env record) w)) /\
  (forall other, bot_send_message env i cid HTML = Failed other ->
     bot_send_message env i cid Plain = Failed error_str ->
     cid ∈ blocked_chats (fan_out (reminder_step env) 0 chats no_tally) /\
     removed_for_good cid (run (send_reminder env record) w)) /\
  (bot_send_poll env i cid = Failed error_str -> record <> empty_dict ->
     cid ∈ blocked_chats (fan_out (poll_step env) 0 chats no_tally) /\
     attempts (poll_step env i cid no_tally) = [(cid, PollMessage)] /\
     removed_for_good cid (run (send_poll env record) w)).
Proof.
  intros Hload Hi Hun.
  assert (forall w', 
    (exists rest, subscribed_chats_json w' = json_dump rest /\ cid ∉ rest) ->
    removed_for_good cid w') as Hgood.
  { intros w' (rest & Hf & Hrest). split; [eauto|].
    intros fs Hfs. apply fire_all_skips; [|done].
    intros l Hl. rewrite Hf in Hl. by injection Hl as <-. }
  assert (exists c cs, chats = c :: cs) as (c & cs & ->).
  { destruct chats; [done | eauto]. }
  split; [|split].
  - intros Hsend.
    assert (blocked_chats (reminder_step env i cid no_tally) = [cid] /\
            attempts (reminder_step env i cid no_tally) = [(cid, HTML)]) as [Hb Ha].
    { unfold reminder_step. by rewrite Hsend, Hun. }
    assert (cid ∈ blocked_chats (fan_out (reminder_step env) 0 (c :: cs) no_tally)) as Hin.
    { eapply blocked_at_position; [apply reminder_step_additive | done |].
      rewrite Hb. by left. }
    split; [done|]. split; [done|]. apply Hgood.
    rewrite (send_reminder_fans_out _ _ _ _ _ _ Hload). cbn [subscribed_chats_json].
    remember (blocked_chats (fan_out _ 0%nat (c :: cs) no_tally)) as bl eqn:Hbl.
    destruct bl as [|b bs]; [by apply elem_of_nil in Hin|].
    eexists. split; [done|]. by apply blocked_filtered_out.
  - intros other Hsend Hplain.
    assert (cid ∈ blocked_chats (reminder_step env i cid no_tally)) as Hb.
    { unfold reminder_step. rewrite Hsend, Hplain, Hun.
      destruct (is_unreachable other); cbn; by left. }
    assert (cid ∈ blocked_chats (fan_out (reminder_step env) 0 (c :: cs) no_tally)) as Hin.
    { eapply blocked_at_position; [apply reminder_step_additive | done | done]. }
    split; [done|]. apply Hgood.
    rewrite (send_reminder_fans_out _ _ _ _ _ _ Hload). cbn [subscribed_chats_json].
    remember (blocked_chats (fan_out _ 0%nat (c :: cs) no_tally)) as bl eqn:Hbl.
    destruct bl as [|b bs]; [by apply elem_of_nil in Hin|].
    eexists. split; [done|]. by apply blocked_filtered_out.
  - intros Hsend Hne.
    assert (blocked_chats (poll_step env i cid no_tally) = [cid] /\
            attempts (poll_step env i cid no_tally) = [(cid, PollMessage)]) as [Hb Ha].
    { unfold poll_step. by rewrite Hsend, Hun. }
    assert (cid ∈ blocked_chats (fan_out (poll_step env) 0 (c :: cs) no_tally)) as Hin.
    { eapply blocked_at_position; [apply poll_step_additive | done |].
      rewrite Hb. by left. }
    split; [done|]. split; [done|]. apply Hgood.
    rewrite (send_poll_fans_out _ _ _ _ _ _ Hne Hload). cbn [subscribed_chats_json].
    remember (blocked_chats (fan_out _ 0%nat (c :: cs) no_tally)) as bl eqn:Hbl.
    destruct bl as [|b bs]; [by apply elem_of_nil in Hin|].
    eexists. split; [done|]. by apply blocked_filtered_out.
Qed.

(** ** Reconciliation *)

Lemma prefixes_exclusive s :
  startswith s "reminder_" = true -> startswith s "poll_" = false.
Proof.
  unfold startswith. destruct s as [|a s]; [done|]. cbn [String.prefix].
  destruct (ascii_dec "r" a) as [<-|]; [|discriminate].
  intros _. by destruct (ascii_dec "p" "r").
Qed.

Section ReconciliationFacts.
Context `{PyLib}.

Lemma reminder_jobs_schedule_poll clock q p :
  reminder_jobs (schedule_poll clock q p) = reminder_jobs q.
Proof.
  rewrite schedule_poll_app. unfold reminder_jobs. rewrite filter_app.
  unfold remove_named. rewrite list_filter_filter_l.
  2:{ intros j Hj Hn. apply prefixes_exclusive in Hj. rewrite Hn in Hj.
      by rewrite (proj1 (poll_names_prefixed p _ (or_introl eq_refl))) in Hj. }
  destruct (schedule_poll_new clock p) as [-> | (tr & name & -> & Hn)];
    [by rewrite app_nil_r|].
  apply poll_names_prefixed in Hn as [_ Hn].
  rewrite filter_cons_False, filter_nil, app_nil_r; [done|].
  cbn [job_name]. congruence.
Qed.

Lemma poll_jobs_schedule_reminder clock q r :
  poll_jobs (schedule_reminder clock q r) = poll_jobs q.
Proof.
  rewrite schedule_reminder_app. unfold poll_jobs. rewrite filter_app.
  pose proof (reminder_name_prefixed r) as [Hr Hp].
  unfold remove_named. rewrite list_filter_filter_l.
  2:{ intros j Hj Hn. rewrite Hn in Hj. congruence. }
  destruct (schedule_reminder_new clock r) as [-> | (tr & ->)];
    [by rewrite app_nil_r|].
  rewrite filter_cons_False, filter_nil, app_nil_r; [done|].
  cbn [job_name]. congruence.
Qed.

Lemma reminder_jobs_reschedule_all_polls clock pf q :
  reminder_jobs (reschedule_all_polls clock pf q) = reminder_jobs q.
Proof.
  unfold reschedule_all_polls, schedule_all_polls.
  rewrite load_polls_collection.
  assert (forall ps q', reminder_jobs (schedule_polls clock ps q') = reminder_jobs q') as ->.
  { induction ps as [|p ps IH]; intros q'; [done|].
    unfold schedule_polls in *. cbn [fold_left]. rewrite IH.
    case_bool_decide; [apply reminder_jobs_schedule_poll | done]. }
  unfold reminder_jobs, remove_prefixed. apply list_filter_filter_l.
  intros j Hj. by apply prefixes_exclusive.
Qed.

Lemma poll_jobs_reschedule_all_reminders clock rf q :
  poll_jobs (reschedule_all_reminders clock rf q) = poll_jobs q.
Proof.
  unfold reschedule_all_reminders, schedule_all_reminders.
  rewrite load_reminders_collection.
  assert (forall rs q', poll_jobs (schedule_reminders clock rs q') = poll_jobs q') as ->.
  { induction rs as [|r rs IH]; intros q'; [done|].
    unfold schedule_reminders in *. cbn [fold_left]. rewrite IH.
    apply poll_jobs_schedule_reminder. }
  unfold poll_jobs, remove_prefixed. apply list_filter_filter_l.
  intros j Hj. destruct (startswith (job_name j) "reminder_") eqn:Hr; [|done].
  apply prefixes_exclusive in Hr. congruence.
Qed.

(** C7: when the Sheets manager is not available the [/restore] command
    changes nothing; when the restore of a collection does not succeed
    (not available, reported failure, or an exception) the command leaves
    the file of that collection and the live jobs of that collection as
    they were, the periodic sync changes nothing, and the start-up check
    leaves the loaded collection and the queue as they were. *)
Theorem failed_restore_changes_nothing env w :
  let after := run (restore_reminders env) w in
  (sheets_ready env = false -> after = w) /\
  (backup_failed (sheets_ready env) (backup_reminders env) ->
     reminders_json after = reminders_json w /\
     reminder_jobs (job_queue after) = reminder_jobs (job_queue w) /\
     run (auto_sync_reminders env) w = w /\
     load_reminders (reminders_json (ensure_reminders_file env w).1) =
       load_reminders (reminders_json w) /\
     job_queue (ensure_reminders_file env w).1 = job_queue w) /\
  (backup_failed (sheets_ready env) (backup_polls env) ->
     polls_json after = polls_json w /\
     poll_jobs (job_queue after) = poll_jobs (job_queue w) /\
     run (auto_sync_polls env) w = w /\
     load_polls (polls_json (ensure_polls_file env w).1) = load_polls (polls_json w) /\
     job_queue (ensure_polls_file env w).1 = job_queue w).
Proof.
  cbn zeta. destruct w as [rf pf cf q sh ob].
  split; [|split].
  - intros Hr. unfold run, restore_reminders, catch. by rewrite Hr.
  - intros Hfail. repeat split.
    + unfold run, restore_reminders, restore_subscribed_chats_file,
        restore_reminders_from_sheets, restore_polls_from_sheets,
        do_reschedule_all_reminders, do_reschedule_all_polls, mirror,
        sheets_manager, save_chats, for_each, catch, mbind, modify, ret, raise.
      destruct Hfail as [Hr | [Hr | Hr]]; rewrite Hr;
        destruct (sheets_ready env); try done;
        destruct (sheets_raises env (log_operation "RESTORE_ALL_START"));
        destruct (backup_chats env); try done;
        destruct (backup_polls env); try done;
        by destruct (sheets_raises env (log_operation "RESTORE_ALL_COMPLETE")).
    + unfold run, restore_reminders, restore_subscribed_chats_file,
        restore_reminders_from_sheets, restore_polls_from_sheets,
        do_reschedule_all_reminders, do_reschedule_all_polls, mirror,
        sheets_manager, save_chats, for_each, catch, mbind, modify, ret, raise.
      destruct Hfail as [Hr | [Hr | Hr]]; rewrite Hr;
        destruct (sheets_ready env); try done;
        destruct (sheets_raises env (log_operation "RESTORE_ALL_START"));
        destruct (backup_chats env); try done;
        destruct (backup_polls env); try done;
        destruct (sheets_raises env (log_operation "RESTORE_ALL_COMPLETE")); try done;
        cbn -[reschedule_all_polls reminder_jobs];
        apply reminder_jobs_reschedule_all_polls.
    + unfold run, auto_sync_reminders, restore_reminders_from_sheets,
        do_reschedule_all_reminders, catch, mbind, modify, ret, raise.
      destruct (sheets_ready env); [|done]. cbn [negb].
      rewrite load_reminders_m_run.
      by destruct Hfail as [Hr | [Hr | Hr]]; rewrite ?Hr.
    + unfold ensure_reminders_file, restore_reminders_from_sheets,
        catch, mbind, modify, ret, raise. rewrite load_reminders_m_run.
      cbn [reminders_json].
      destruct rf as [|[| |[|r rs]]]; cbn;
        destruct Hfail as [Hr | [Hr | Hr]]; rewrite ?Hr; try done;
        by destruct (sheets_ready env).
    + unfold ensure_reminders_file, restore_reminders_from_sheets,
        catch, mbind, modify, ret, raise. rewrite load_reminders_m_run.
      cbn [reminders_json].
      destruct rf as [|[| |[|r rs]]]; cbn;
        destruct Hfail as [Hr | [Hr | Hr]]; rewrite ?Hr; try done;
        by destruct (sheets_ready env).
  - intros Hfail. repeat split.
    + unfold run, restore_reminders, restore_subscribed_chats_file,
        restore_reminders_from_sheets, restore_polls_from_sheets,
        do_reschedule_all_reminders, do_reschedule_all_polls, mirror,
        sheets_manager, save_chats, for_each, catch, mbind, modify, ret, raise.
      destruct Hfail as [Hr | [Hr | Hr]]; rewrite Hr;
        destruct (sheets_ready env); try done;
        destruct (sheets_raises env (log_operation "RESTORE_ALL_START"));
        destruct (backup_chats env); try done;
        destruct (backup_reminders env); try done;
        by destruct (sheets_raises env (log_operation "RESTORE_ALL_COMPLETE")).
    + unfold run, restore_reminders, restore_subscribed_chats_file,
        restore_reminders_from_sheets, restore_polls_from_sheets,
        do_reschedule_all_reminders, do_reschedule_all_polls, mirror,
        sheets_manager, save_chats, for_each, catch, mbind, modify, ret, raise.
      destruct Hfail as [Hr | [Hr | Hr]]; rewrite Hr;
        destruct (sheets_ready env); try done;
        destruct (sheets_raises env (log_operation "RESTORE_ALL_START"));
        destruct (backup_chats env); try done;
        destruct (backup_reminders env); try done;
        destruct (sheets_raises env (log_operation "RESTORE_ALL_COMPLETE")); try done;
        cbn -[reschedule_all_reminders poll_jobs];
        apply poll_jobs_reschedule_all_reminders.
    + unfold run, auto_sync_polls, restore_polls_from_sheets,
        do_reschedule_all_polls, catch, mbind, modify, ret, raise.
      destruct (sheets_ready env); [|done]. cbn [negb].
      rewrite load_polls_m_run.
      by destruct Hfail as [Hr | [Hr | Hr]]; rewrite ?Hr.
    + unfold ensure_polls_file, restore_polls_from_sheets,
        catch, mbind, modify, ret, raise. rewrite load_polls_m_run.
      cbn [polls_json].
      destruct pf as [|[| |[|r rs]]]; cbn;
        destruct Hfail as [Hr | [Hr | Hr]]; rewrite ?Hr; try done;
        by destruct (sheets_ready env).
    + unfold ensure_polls_file, restore_polls_from_sheets,
        catch, mbind, modify, ret, raise. rewrite load_polls_m_run.
      cbn [polls_json].
      destruct pf as [|[| |[|r rs]]]; cbn;
        destruct Hfail as [Hr | [Hr | Hr]]; rewrite ?Hr; try done;
        by destruct (sheets_ready env).
Qed.

End ReconciliationFacts.

(** ** The engine on concrete records *)

(** C2, counterexample: with no subscriber file and no Sheets manager the
    firing returns early and the one-time record is still stored. *)
Lemma once_record_survives_failed_restore :
  k_type reminder_1 = Some "once" /\
  is_once_poll poll_1 = true /\
  reminder_1 ∈ collection (reminders_json (run (send_reminder quiet reminder_1) no_chats_file)) /\
  poll_1 ∈ collection (polls_json (run (send_poll quiet poll_1) no_chats_file)).
Proof.
  split; [reflexivity|]. split; [reflexivity|].
  split; vm_compute; apply list_elem_of_here.
Qed.

(** C2 (amended), with two subscribers. *)
Lemma once_record_removed_after_firing_witness :
  collection (reminders_json (run (send_reminder quiet reminder_1) two_chats)) =
    [daily_reminder] /\
  collection (polls_json (run (send_poll quiet poll_1) two_chats)) = [daily_poll].
Proof.
  pose proof (once_record_removed_after_firing quiet two_chats two_chats
                [100; 200] reminder_1 eq_refl) as [Hr _].
  pose proof (once_record_removed_after_firing quiet two_chats two_chats
                [100; 200] poll_1 eq_refl) as [_ Hp].
  split; [exact (proj1 (Hr eq_refl)) | exact (proj1 (Hp eq_refl))].
Defined.

(** C3, counterexample: a daily reminder is delivered to both subscribers
    and its stored [last_sent] is still absent. *)
Lemma recurring_reminder_last_sent_not_updated :
  let after := run (send_reminder quiet daily_reminder) two_chats in
  k_type daily_reminder = Some "daily" /\
  outbox after = [(100, HTML); (200, HTML)] /\
  collection (reminders_json after) = [reminder_1; daily_reminder] /\
  k_last_sent daily_reminder = None.
Proof. vm_compute. repeat split. Qed.

(** C3 (amended), for the daily poll stored second. *)
Lemma recurring_record_after_firing_witness :
  collection (polls_json (run (send_poll quiet daily_poll) two_chats)) =
    [poll_1; updated daily_poll "2024-05-01 12:00:05" "Sent to 2 chats, 0 failed"].
Proof.
  destruct (recurring_record_after_firing quiet two_chats two_chats 100 [200]
              daily_poll eq_refl (or_introl eq_refl)) as [_ Hp].
  destruct (Hp 1%nat daily_poll eq_refl eq_refl) as (_ & _ & Heq & _).
  - intros [|j] q Hq Hj; [|lia]. injection Hq as <-. discriminate.
  - exact Heq.
Defined.

(** C8, for a one-time reminder after a restore that yields no
    subscriber. *)
Lemma empty_audience_witness :
  let after := run (send_reminder blocked_200 reminder_1) no_chats_file in
  outbox after = [] /\
  collection (reminders_json after) = [daily_reminder] /\
  sheets after =
    [sync_reminder (updated reminder_1 "2024-05-02 09:00:03" no_recipients) "UPDATE";
     sync_reminder (updated reminder_1 "2024-05-02 09:00:03" no_recipients) "DELETE"].
Proof.
  pose proof (empty_audience blocked_200 no_chats_file reminder_1 eq_refl)
    as (_ & Hrestored & _).
  destruct (Hrestored eq_refl eq_refl) as (Ho & _ & Honce & _).
  destruct (Honce eq_refl) as (_ & Hr & Hs & _).
  split; [exact Ho|]. split; [exact Hr | exact Hs].
Defined.

(** C8, counterexample: the subscriber file holds the empty list and
    there is no Sheets manager.  The firing of the one-time reminder
    (poll) sends nothing and ends before the block for "no recipients":
    the record is still stored and nothing is marked.  The same happens
    when the manager is there and its restore raises. *)
Lemma once_record_stays_without_subscribers :
  collection (subscribed_chats_json nobody_subscribed) = [] /\
  k_type reminder_1 = Some "once" /\ k_type poll_1 = Some "once" /\
  run (send_reminder quiet reminder_1) nobody_subscribed = nobody_subscribed /\
  run (send_poll quiet poll_1) nobody_subscribed = nobody_subscribed /\
  run (send_reminder failing_sheets reminder_1) nobody_subscribed = nobody_subscribed /\
  reminder_1 ∈ collection (reminders_json nobody_subscribed) /\
  poll_1 ∈ collection (polls_json nobody_subscribed).
Proof. repeat split; try reflexivity; cbn; by left. Qed.

(** X25, for the blocked chat 200. *)
Lemma unreachable_subscriber_removed_witness :
  removed_for_good 200 (run (send_reminder blocked_200 daily_reminder) two_chats) /\
  removed_for_good 200 (run (send_poll blocked_200 daily_poll) two_chats).
Proof.
  split.
  - refine (proj2 (proj2 (proj1
      (unreachable_subscriber_removed blocked_200 two_chats two_chats [100; 200]
         daily_reminder 1%nat 200 "Forbidden: bot was blocked by the user"
         eq_refl eq_refl eq_refl) eq_refl))).
  - refine (proj2 (proj2 (proj2 (proj2
      (unreachable_subscriber_removed blocked_200 two_chats two_chats [100; 200]
         daily_poll 1%nat 200 "Forbidden: bot was blocked by the user"
         eq_refl eq_refl eq_refl)) eq_refl _))).
    discriminate.
Defined.

(** Scenario D of the specification, for a daily poll: the reachable
    chat gets the poll, the blocked one is removed, the record stays
    with its [last_sent] written, and the next firing only sees the
    reachable chat. *)
Lemma scenario_d :
  let after := run (send_poll blocked_200 daily_poll) two_chats in
  outbox after = [(100, PollMessage); (200, PollMessage)] /\
  subscribed_chats_json after = json_dump [100] /\
  k_last_sent <$> collection (polls_json after) = [None; Some "2024-05-02 09:00:03"] /\
  outbox (run (send_poll quiet daily_poll) after) =
    outbox after ++ [(100, PollMessage)].
Proof. vm_compute. repeat split. Qed.

(** Both loaders return on every state of a [file]. *)
Lemma load_total_everywhere (f : file (list item)) :
  exists reminders polls, load_reminders f = Ok reminders /\ load_polls f = Ok polls.
Proof. destruct f as [|[| |l]]; by eexists _, _. Qed.

(** C6, on the collection of [two_chats] with the second pass a minute
    after the first: the catch-up job of the missed poll is the one of
    the second pass only. *)
Lemma reschedule_all_idempotent_witness :
  let q1 := @reschedule_all_polls Example.lib noon (polls_json two_chats) stale_queue in
  let q2 := @reschedule_all_polls Example.lib a_minute_past_noon (polls_json two_chats) q1 in
  q2 = @reschedule_all_polls Example.lib a_minute_past_noon (polls_json two_chats)
         stale_queue /\
  (length (jobs_for "poll_" (Some "1") q2) <= 1)%nat /\
  @reschedule_all_polls Example.lib noon (polls_json two_chats) q1 = q1.
Proof.
  cbn zeta.
  destruct (@reschedule_all_idempotent Example.lib noon a_minute_past_noon
              (reminders_json two_chats) (polls_json two_chats) stale_queue)
    as (_ & Hp & _ & Hone).
  split; [exact Hp|]. split.
  - apply Hone.
    repeat constructor; rewrite ?elem_of_cons, ?elem_of_nil; intuition discriminate.
  - reflexivity.
Defined.

(** C7, without a Sheets manager, and with a manager whose restore calls
    raise while the queue holds the job of a reminder and the self-ping
    job. *)
Lemma failed_restore_changes_nothing_witness :
  @run (@restore_reminders Example.lib quiet) two_chats = two_chats /\
  reminders_json (@run (@restore_reminders Example.lib failing_sheets)
                    (set_jobs stale_queue two_chats)) =
    reminders_json two_chats /\
  reminder_jobs (job_queue (@run (@restore_reminders Example.lib failing_sheets)
                              (set_jobs stale_queue two_chats))) =
    reminder_jobs stale_queue.
Proof.
  split.
  - exact (proj1 (@failed_restore_changes_nothing Example.lib quiet two_chats) eq_refl).
  - destruct (proj1 (proj2 (@failed_restore_changes_nothing Example.lib failing_sheets
                              (set_jobs stale_queue two_chats))))
      as (Hfile & Hjobs & _).
    + right. right. reflexivity.
    + split; [exact Hfile | exact Hjobs].
Defined.

(** C4: a subscriber that is permanently unreachable is not absent from
    every subsequent firing.

    The only subscriber has blocked the bot and the backup store lists
    it.  The firing of a reminder puts it on the removal list and
    empties the local list, but tells the Sheets manager nothing:
    [save_chats] has already removed the chat when [unsubscribe_user],
    the call that would tell the manager, looks for it.  [send_poll] on
    the same input does call [sync_subscribed_chats_to_sheets].  The
    next firing, in the same environment, finds the list empty, restores
    it from the backup store and sends to the subscriber again.

    A send that fails with "Chat not found", the text of the Telegram
    client for that answer, matches none of the four texts of the test:
    the fallback send is attempted and the chat stays subscribed. *)
Lemma unreachable_subscriber_comes_back :
  let after := run (send_reminder backup_lists_200 daily_reminder) only_200 in
  let later := run (send_reminder backup_lists_200 daily_reminder) after in
  let after_poll := run (send_poll backup_lists_200 daily_poll) only_200 in
  let not_found := run (send_reminder chat_200_not_found daily_reminder) only_200 in
  let poll_not_found := run (send_poll chat_200_not_found daily_poll) only_200 in
  (is_unreachable "Forbidden: bot was blocked by the user" = true /\
   blocked_chats (fan_out (reminder_step backup_lists_200) 0 [200] no_tally) = [200] /\
   outbox after = [(200, HTML)] /\
   subscribed_chats_json after = json_dump [] /\
   sheets after = [] /\
   outbox later = outbox after ++ [(200, HTML)]) /\
  (subscribed_chats_json after_poll = json_dump [] /\
   sync_subscribed_chats_to_sheets None ∈ sheets after_poll) /\
  (is_unreachable "Chat not found" = false /\
   outbox not_found = [(200, HTML); (200, Plain)] /\
   subscribed_chats_json not_found = json_dump [200] /\
   outbox poll_not_found = [(200, PollMessage)] /\
   subscribed_chats_json poll_not_found = json_dump [200]).
Proof.
  cbn zeta. split; [|split].
  - vm_compute. repeat split.
  - split; [reflexivity|]. vm_compute. left.
  - vm_compute. repeat split.
Qed.

Section MoreSchedulerFacts.
Context `{PyLib}.

Lemma schedule_reminders_new_jobs clock rs q j :
  j ∈ schedule_reminders clock rs q ->
  j ∈ q \/ exists r, r ∈ rs /\ job_context j = Some r /\
                    job_name j = reminder_job_name r /\
                    job_callback j = send_reminder_cb.
Proof.
  revert q. induction rs as [|r rs IH]; intros q Hj; [by left|].
  unfold schedule_reminders in *. cbn [fold_left] in Hj.
  apply IH in Hj as [Hj | (r' & ? & ?)].
  - rewrite schedule_reminder_app in Hj. apply elem_of_app in Hj as [Hj|Hj].
    + left. by apply list_elem_of_filter in Hj as [_ Hj].
    + right. exists r. split; [by left|].
      destruct (schedule_reminder_new clock r) as [E | (tr & E)]; rewrite E in Hj.
      * by apply elem_of_nil in Hj.
      * by apply list_elem_of_singleton in Hj as ->.
  - right. exists r'. split; [by right | done].
Qed.

Lemma schedule_polls_new_named clock ps q j :
  j ∈ schedule_polls clock ps q ->
  j ∈ q \/ exists p, p ∈ ps /\ k_status p = Some "Active" /\ job_context j = Some p /\
                    (job_name j = poll_job_name p \/
                     job_name j = poll_job_name p +:+ "_missed") /\
                    job_callback j = send_poll_cb.
Proof.
  revert q. induction ps as [|p ps IH]; intros q Hj; [by left|].
  unfold schedule_polls in *. cbn [fold_left] in Hj.
  apply IH in Hj as [Hj | (p' & ? & ?)].
  - case_bool_decide; [|by left].
    rewrite schedule_poll_app in Hj. apply elem_of_app in Hj as [Hj|Hj].
    + left. by apply list_elem_of_filter in Hj as [_ Hj].
    + right. exists p. split; [by left|]. split; [done|].
      destruct (schedule_poll_new clock p) as [E | (tr & name & E & Hn)]; rewrite E in Hj.
      * by apply elem_of_nil in Hj.
      * by apply list_elem_of_singleton in Hj as ->.
  - right. exists p'. split; [by right | done].
Qed.

(** X6: after [reschedule_all_reminders] the jobs of other kinds are the
    ones that were there, in their order, and every reminder job is the
    job of a stored reminder: it carries that record as context, the
    name [reminder_<id>] and the callback [send_reminder]. *)
Theorem reschedule_all_reminders_no_stale_job clock rf q :
  let q' := reschedule_all_reminders clock rf q in
  remove_prefixed "reminder_" q' = remove_prefixed "reminder_" q /\
  forall j, j ∈ q' -> startswith (job_name j) "reminder_" = true ->
    exists r, r ∈ collection rf /\ job_context j = Some r /\
              job_name j = reminder_job_name r /\ job_callback j = send_reminder_cb.
Proof.
  cbn zeta. unfold reschedule_all_reminders, schedule_all_reminders.
  rewrite load_reminders_collection. split.
  - by rewrite remove_prefixed_schedule_reminders, remove_prefixed_idem.
  - intros j Hj Hp. apply schedule_reminders_new_jobs in Hj as [Hj|Hj]; [|done].
    apply list_elem_of_filter in Hj as [Hn _]. congruence.
Qed.

(** X7: after [reschedule_all_polls] the jobs of other kinds are kept and
    every poll job belongs to a stored poll whose status is "Active". *)
Theorem reschedule_all_polls_no_stale_job clock pf q :
  let q' := reschedule_all_polls clock pf q in
  remove_prefixed "poll_" q' = remove_prefixed "poll_" q /\
  forall j, j ∈ q' -> startswith (job_name j) "poll_" = true ->
    exists p, p ∈ collection pf /\ k_status p = Some "Active" /\
              job_context j = Some p /\
              (job_name j = poll_job_name p \/
               job_name j = poll_job_name p +:+ "_missed") /\
              job_callback j = send_poll_cb.
Proof.
  cbn zeta. unfold reschedule_all_polls, schedule_all_polls.
  rewrite load_polls_collection. split.
  - by rewrite remove_prefixed_schedule_polls, remove_prefixed_idem.
  - intros j Hj Hp. apply schedule_polls_new_named in Hj as [Hj|Hj]; [|done].
    apply list_elem_of_filter in Hj as [Hn _]. congruence.
Qed.

Lemma filter_named_remove_other (name other : string) (q : list Job) :
  other <> name ->
  filter (fun j => job_name j = name) (remove_named other q) =
  filter (fun j => job_name j = name) q.
Proof.
  intros Hne. unfold remove_named. rewrite list_filter_filter.
  apply list_filter_iff. intros j. split; [by intros [? _]|].
  intros Hj. split; [done|]. congruence.
Qed.

Lemma filter_named_remove_same (name : string) (q : list Job) :
  filter (fun j => job_name j = name) (remove_named name q) = [].
Proof.
  apply filter_empty_if. intros j Hj Hn.
  by apply list_elem_of_filter in Hj as [Hj _].
Qed.

Lemma filter_named_new_reminder clock r name :
  filter (fun j => job_name j = name) (schedule_reminder clock [] r) =
  if decide (reminder_job_name r = name) then schedule_reminder clock [] r else [].
Proof.
  destruct (schedule_reminder_new clock r) as [-> | [tr ->]]; [by case_decide|].
  rewrite filter_cons, filter_nil. cbn [job_name]. by repeat case_decide.
Qed.

Lemma schedule_reminders_each clock rs q r :
  r ∈ rs -> only_one_named reminder_job_name r rs ->
  filter (fun j => job_name j = reminder_job_name r) (schedule_reminders clock rs q) =
  schedule_reminder clock [] r.
Proof.
  revert q. induction rs as [|x rs IH] using rev_ind; intros q Hin Hone.
  { by apply elem_of_nil in Hin. }
  unfold schedule_reminders in *. rewrite fold_left_app. cbn [fold_left].
  rewrite schedule_reminder_app, filter_app, filter_named_new_reminder.
  destruct (decide (reminder_job_name x = reminder_job_name r)) as [Heq|Hne].
  - assert (x = r) as -> by (apply Hone; [apply elem_of_app; right; by left | done]).
    by rewrite filter_named_remove_same.
  - rewrite filter_named_remove_other by done. rewrite app_nil_r.
    apply IH.
    + apply elem_of_app in Hin as [Hin|Hin]; [done|].
      apply list_elem_of_singleton in Hin. congruence.
    + intros r' Hr'. apply Hone. apply elem_of_app. by left.
Qed.

(** X8: a full pass gives a stored reminder the job that scheduling it
    alone gives.  When the record is the only stored one with its job
    name, the jobs of that name after [reschedule_all_reminders] are
    exactly what [schedule_reminder] registers for the record on an empty
    queue (one job, or none when the record cannot be scheduled). *)
Theorem reschedule_all_reminders_schedules_each clock rf q r :
  r ∈ collection rf ->
  only_one_named reminder_job_name r (collection rf) ->
  filter (fun j => job_name j = reminder_job_name r)
    (reschedule_all_reminders clock rf q) =
  schedule_reminder clock [] r.
Proof.
  intros Hin Hone. unfold reschedule_all_reminders, schedule_all_reminders.
  rewrite load_reminders_collection. by apply schedule_reminders_each.
Qed.

(** X9: the trigger a recurring reminder gets.  A daily reminder for the
    Moscow time h:m is registered for every day at UTC (h - 3) mod 24 : m
    when 0 <= h < 24 and 0 <= m < 60, and gets no job otherwise.  A weekly
    reminder is registered for the weekday its day names at the same UTC
    time; its hour is not range-checked and the weekday is not moved when
    the hour wraps to the previous day. *)
Theorem recurring_reminder_trigger clock r s h m :
  k_time r = Some s -> split_hm s = Ok (h, m) ->
  (k_type r = Some "daily" ->
   schedule_reminder clock [] r =
     if (0 <=? h) && (h <? 24) && (0 <=? m) && (m <? 60)
     then [Build_Job send_reminder_cb (RunDaily ((h - 3) `mod` 24) m every_day)
             (Some r) (reminder_job_name r)]
     else []) /\
  (forall d weekday,
     k_type r = Some "weekly" -> k_day r = Some d -> days_map (lower d) = Ok weekday ->
     schedule_reminder clock [] r =
       if (0 <=? m) && (m <? 60)
       then [Build_Job send_reminder_cb (RunDaily ((h - 3) `mod` 24) m [weekday])
               (Some r) (reminder_job_name r)]
       else []).
Proof.
  intros Ht Hs.
  assert (forall x, dt_time ((h - 3) `mod` 24) x =
                    if (0 <=? x) && (x <? 60) then Ok ((h - 3) `mod` 24, x)
                    else Raise (ValueError "hour or minute out of range")) as Hutc.
  { intros x. unfold dt_time.
    pose proof (Z.mod_pos_bound (h - 3) 24 ltac:(lia)) as [? ?].
    assert ((0 <=? (h - 3) `mod` 24) = true) as -> by lia.
    assert (((h - 3) `mod` 24 <? 24) = true) as -> by lia. done. }
  split.
  - intros Hty. unfold schedule_reminder, schedule_reminder_body.
    rewrite Hty, Ht. cbn [getitem bind].
    change (String.eqb "daily" "once") with false.
    change (String.eqb "daily" "daily") with true. cbn match.
    rewrite Hs. cbn [bind]. rewrite Hutc. unfold dt_time.
    destruct ((0 <=? h) && (h <? 24)) eqn:Hh; cbn [andb bind].
    + by destruct ((0 <=? m) && (m <? 60)).
    + done.
  - intros d weekday Hty Hd Hwd. unfold schedule_reminder, schedule_reminder_body.
    rewrite Hty, Ht, Hd. cbn [getitem bind].
    change (String.eqb "weekly" "once") with false.
    change (String.eqb "weekly" "daily") with false.
    change (String.eqb "weekly" "weekly") with true. cbn match.
    rewrite Hwd. cbn [bind]. rewrite Hs. cbn [bind]. rewrite Hutc.
    by destruct ((0 <=? m) && (m <? 60)).
Qed.

End MoreSchedulerFacts.

Section SchedulingAllFacts.
Context `{PyLib}.

(** What [schedule_reminder] registers for one record on an empty queue,
    kind by kind. *)
Lemma schedule_reminder_once_job clock r s t :
  k_type r = Some "once" -> k_datetime r = Some s -> strptime_msk s = Some t ->
  schedule_reminder clock [] r =
    if moscow_now clock <? t
    then [Build_Job send_reminder_cb (RunOnce t) (Some r) (reminder_job_name r)]
    else [].
Proof.
  intros Hty Hd Hparse. unfold schedule_reminder, schedule_reminder_body.
  rewrite Hty, Hd. cbn [getitem bind].
  change (String.eqb "once" "once") with true. cbn match.
  unfold strptime. rewrite Hparse. cbn [bind].
  by destruct (moscow_now clock <? t).
Qed.

Lemma utc_hour_in_range (h x : Z) :
  dt_time ((h - 3) `mod` 24) x =
    if (0 <=? x) && (x <? 60) then Ok ((h - 3) `mod` 24, x)
    else Raise (ValueError "hour or minute out of range").
Proof.
  unfold dt_time.
  pose proof (Z.mod_pos_bound (h - 3) 24 ltac:(lia)) as [? ?].
  assert ((0 <=? (h - 3) `mod` 24) = true) as -> by lia.
  by assert (((h - 3) `mod` 24 <? 24) = true) as -> by lia.
Qed.

Lemma schedule_reminder_daily_job clock r s h m :
  k_type r = Some "daily" -> k_time r = Some s -> split_hm s = Ok (h, m) ->
  0 <= h < 24 -> 0 <= m < 60 ->
  schedule_reminder clock [] r =
    [Build_Job send_reminder_cb (RunDaily ((h - 3) `mod` 24) m every_day)
       (Some r) (reminder_job_name r)].
Proof.
  intros Hty Ht Hs Hh Hm. unfold schedule_reminder, schedule_reminder_body.
  rewrite Hty, Ht. cbn [getitem bind].
  change (String.eqb "daily" "once") with false.
  change (String.eqb "daily" "daily") with true. cbn match.
  rewrite Hs. cbn [bind]. rewrite utc_hour_in_range. unfold dt_time.
  assert ((0 <=? h) = true) as -> by lia. assert ((h <? 24) = true) as -> by lia.
  assert ((0 <=? m) = true) as -> by lia. by assert ((m <? 60) = true) as -> by lia.
Qed.

Lemma schedule_reminder_weekly_job clock r d weekday s h m :
  k_type r = Some "weekly" -> k_day r = Some d -> days_map (lower d) = Ok weekday ->
  k_time r = Some s -> split_hm s = Ok (h, m) -> 0 <= m < 60 ->
  schedule_reminder clock [] r =
    [Build_Job send_reminder_cb (RunDaily ((h - 3) `mod` 24) m [weekday])
       (Some r) (reminder_job_name r)].
Proof.
  intros Hty Hd Hwd Ht Hs Hm. unfold schedule_reminder, schedule_reminder_body.
  rewrite Hty, Ht, Hd. cbn [getitem bind].
  change (String.eqb "weekly" "once") with false.
  change (String.eqb "weekly" "daily") with false.
  change (String.eqb "weekly" "weekly") with true. cbn match.
  rewrite Hwd. cbn [bind]. rewrite Hs. cbn [bind]. rewrite utc_hour_in_range.
  assert ((0 <=? m) = true) as -> by lia. by assert ((m <? 60) = true) as -> by lia.
Qed.

(** C9 (amended): [schedule_all_polls] calls [schedule_poll] exactly on the
    stored polls whose status is the string "Active", in their order;
    every job it adds has such a poll as its context, so a poll with a
    missing or different status gets no job.  [schedule_all_reminders]
    filters on nothing: whatever the status fields hold, a stored
    reminder whose job name no other stored reminder takes ends with
    exactly the jobs [schedule_reminder] registers for it.  That is one
    daily job for a reminder of kind "daily" with a time in range, one
    job on its weekday for a reminder of kind "weekly", and for a
    reminder of kind "once" one run-once job when its trigger is after
    the current Moscow time and no job at all when it is not. *)
Theorem schedule_all_polls_only_active clock pf rf q :
  schedule_all_polls clock pf q =
    fold_left (schedule_poll clock)
      (filter (fun p => k_status p = Some "Active") (collection pf)) q /\
  (forall j, j ∈ schedule_all_polls clock pf q ->
     j ∈ q \/ exists p, p ∈ collection pf /\ k_status p = Some "Active" /\
                       job_context j = Some p) /\
  (forall r,
     r ∈ collection rf -> only_one_named reminder_job_name r (collection rf) ->
     let scheduled :=
       filter (fun j => job_name j = reminder_job_name r)
         (schedule_all_reminders clock rf q) in
     scheduled = schedule_reminder clock [] r /\
     (forall s h m,
        k_type r = Some "daily" -> k_time r = Some s -> split_hm s = Ok (h, m) ->
        0 <= h < 24 -> 0 <= m < 60 ->
        scheduled =
          [Build_Job send_reminder_cb (RunDaily ((h - 3) `mod` 24) m every_day)
             (Some r) (reminder_job_name r)]) /\
     (forall d weekday s h m,
        k_type r = Some "weekly" -> k_day r = Some d ->
        days_map (lower d) = Ok weekday ->
        k_time r = Some s -> split_hm s = Ok (h, m) -> 0 <= m < 60 ->
        scheduled =
          [Build_Job send_reminder_cb (RunDaily ((h - 3) `mod` 24) m [weekday])
             (Some r) (reminder_job_name r)]) /\
     (forall s t,
        k_type r = Some "once" -> k_datetime r = Some s -> strptime_msk s = Some t ->
        scheduled =
          if moscow_now clock <? t
          then [Build_Job send_reminder_cb (RunOnce t) (Some r) (reminder_job_name r)]
          else [])) /\
  (forall st : item -> option string,
     job_key <$> schedule_all_reminders clock
        (Text (Json ((fun r => with_status (st r) r) <$> collection rf))) q =
     job_key <$> schedule_all_reminders clock rf q).
Proof.
  split; [|split; [|split]].
  - unfold schedule_all_polls. rewrite load_polls_collection.
    apply schedule_polls_filter.
  - unfold schedule_all_polls. rewrite load_polls_collection.
    intros j. apply schedule_polls_new_jobs.
  - intros r Hr Hone. cbn zeta.
    assert (filter (fun j => job_name j = reminder_job_name r)
              (schedule_all_reminders clock rf q) = schedule_reminder clock [] r) as ->.
    { unfold schedule_all_reminders. rewrite load_reminders_collection.
      by apply schedule_reminders_each. }
    split; [done|]. split; [|split].
    + intros s h m. apply schedule_reminder_daily_job.
    + intros d weekday s h m. apply schedule_reminder_weekly_job.
    + intros s t. apply schedule_reminder_once_job.
  - intros st. unfold schedule_all_reminders.
    rewrite !load_reminders_collection. cbn [collection].
    by apply job_key_schedule_reminders.
Qed.

End SchedulingAllFacts.

(** C9 (amended), on the collections of [two_chats]: the poll marked
    "Deleted" gets no job, the daily reminder (it has no status) gets
    its job at 06:00 UTC. *)
Lemma schedule_all_polls_only_active_witness :
  @schedule_all_polls Example.lib noon (json_dump [deleted_poll; daily_poll]) [] =
    @schedule_poll Example.lib noon [] daily_poll /\
  filter (fun j => job_name j = "reminder_2")
    (@schedule_all_reminders Example.lib noon (reminders_json two_chats) stale_queue) =
    [ {| job_callback := send_reminder_cb; job_trigger := RunDaily 6 0 every_day;
         job_context := Some daily_reminder; job_name := "reminder_2" |} ].
Proof.
  destruct (@schedule_all_polls_only_active Example.lib noon
              (json_dump [deleted_poll; daily_poll]) (reminders_json two_chats)
              stale_queue) as (_ & _ & Hrem & _).
  split.
  - exact (proj1 (@schedule_all_polls_only_active Example.lib noon
                    (json_dump [deleted_poll; daily_poll]) Absent [])).
  - destruct (Hrem daily_reminder) as (_ & Hdaily & _).
    + cbn. right. left.
    + intros r' Hr' Hname. cbn in Hr'. rewrite !elem_of_cons, elem_of_nil in Hr'.
      destruct Hr' as [-> | [-> | []]]; [discriminate | reflexivity].
    + exact (Hdaily "09:00" 9 0 eq_refl eq_refl eq_refl ltac:(lia) ltac:(lia)).
Defined.

(** C9, counterexample: the one-time reminder of [two_chats] is stored,
    its trigger was half an hour ago, and [schedule_all_reminders]
    leaves no job for it: the only job is the one of the daily
    reminder. *)
Lemma stored_reminder_is_not_scheduled :
  reminder_1 ∈ collection (reminders_json two_chats) /\
  k_id reminder_1 = Some "1" /\
  @schedule_all_reminders Example.lib noon (reminders_json two_chats) [] =
    [ {| job_callback := send_reminder_cb; job_trigger := RunDaily 6 0 every_day;
         job_context := Some daily_reminder; job_name := "reminder_2" |} ].
Proof. split; [cbn; by left|]. split; reflexivity. Qed.

Lemma reminder_step_counts env i cid t :
  (total_sent (reminder_step env i cid t) + total_failed (reminder_step env i cid t) =
   S (total_sent t + total_failed t))%nat /\
  (length (blocked_chats (reminder_step env i cid t)) - length (blocked_chats t) <=
   total_failed (reminder_step env i cid t) - total_failed t)%nat /\
  (length (blocked_chats t) <= length (blocked_chats (reminder_step env i cid t)))%nat /\
  (total_failed t <= total_failed (reminder_step env i cid t))%nat /\
  first_attempts (attempts (reminder_step env i cid t)) =
    first_attempts (attempts t) ++ [cid].
Proof.
  unfold reminder_step, first_attempts.
  destruct (bot_send_message env i cid HTML) as [|e]; cbn.
  - rewrite filter_app, fmap_app. cbn. repeat split; lia.
  - destruct (is_unreachable e); cbn.
    + rewrite filter_app, fmap_app, length_app. cbn. repeat split; lia.
    + destruct (bot_send_message env i cid Plain) as [|e2]; cbn.
      * rewrite filter_app, fmap_app. cbn. repeat split; lia.
      * rewrite filter_app, fmap_app. cbn.
        destruct (is_unreachable e2); rewrite ?length_app; cbn; repeat split; lia.
Qed.

Lemma poll_step_counts env i cid t :
  (total_sent (poll_step env i cid t) + total_failed (poll_step env i cid t) =
   S (total_sent t + total_failed t))%nat /\
  (length (blocked_chats (poll_step env i cid t)) - length (blocked_chats t) <=
   total_failed (poll_step env i cid t) - total_failed t)%nat /\
  (length (blocked_chats t) <= length (blocked_chats (poll_step env i cid t)))%nat /\
  (total_failed t <= total_failed (poll_step env i cid t))%nat /\
  attempts (poll_step env i cid t) = attempts t ++ [(cid, PollMessage)].
Proof.
  unfold poll_step.
  destruct (bot_send_poll env i cid) as [|e]; cbn.
  - repeat split; lia.
  - destruct (is_unreachable e); rewrite ?length_app; cbn; repeat split; lia.
Qed.

Lemma fan_out_reminder_counts env chats i t :
  let t' := fan_out (reminder_step env) i chats t in
  (total_sent t' + total_failed t' = total_sent t + total_failed t + length chats)%nat /\
  (length (blocked_chats t') - length (blocked_chats t) <=
   total_failed t' - total_failed t)%nat /\
  (length (blocked_chats t) <= length (blocked_chats t'))%nat /\
  (total_failed t <= total_failed t')%nat /\
  first_attempts (attempts t') = first_attempts (attempts t) ++ chats.
Proof.
  revert i t. induction chats as [|c cs IH]; intros i t; cbn zeta; cbn [fan_out].
  - rewrite app_nil_r. cbn. repeat split; lia.
  - destruct (IH (S i) (reminder_step env i c t)) as (H1 & H2 & H3 & H4 & H5).
    destruct (reminder_step_counts env i c t) as (G1 & G2 & G3 & G4 & G5).
    cbn zeta in *. rewrite H5, G5, <- app_assoc. cbn [length].
    repeat split; try lia; done.
Qed.

Lemma fan_out_poll_counts env chats i t :
  let t' := fan_out (poll_step env) i chats t in
  (total_sent t' + total_failed t' = total_sent t + total_failed t + length chats)%nat /\
  (length (blocked_chats t') - length (blocked_chats t) <=
   total_failed t' - total_failed t)%nat /\
  (length (blocked_chats t) <= length (blocked_chats t'))%nat /\
  (total_failed t <= total_failed t')%nat /\
  attempts t' = attempts t ++ ((fun c => (c, PollMessage)) <$> chats).
Proof.
  revert i t. induction chats as [|c cs IH]; intros i t; cbn zeta; cbn [fan_out].
  - rewrite app_nil_r. cbn. repeat split; lia.
  - destruct (IH (S i) (poll_step env i c t)) as (H1 & H2 & H3 & H4 & H5).
    destruct (poll_step_counts env i c t) as (G1 & G2 & G3 & G4 & G5).
    cbn zeta in *. rewrite H5, G5, <- app_assoc. cbn [length].
    repeat split; try lia; done.
Qed.

(** X10: the fan-out loops account for every subscriber.  Each chat of the
    list gets a first attempt, in the order of the list, whatever
    happened to the chats before it; the two counters add up to the
    number of chats; the removal list is never longer than the failure
    counter and holds chats of the list only. *)
Theorem fan_out_accounts_for_every_chat env chats :
  let t := fan_out (reminder_step env) 0 chats no_tally in
  let p := fan_out (poll_step env) 0 chats no_tally in
  (first_attempts (attempts t) = chats /\
   (total_sent t + total_failed t = length chats)%nat /\
   (length (blocked_chats t) <= total_failed t)%nat /\
   forall cid, cid ∈ blocked_chats t -> cid ∈ chats) /\
  (attempts p = (fun cid => (cid, PollMessage)) <$> chats /\
   (total_sent p + total_failed p = length chats)%nat /\
   (length (blocked_chats p) <= total_failed p)%nat /\
   forall cid, cid ∈ blocked_chats p -> cid ∈ chats).
Proof.
  cbn zeta. split.
  - destruct (fan_out_reminder_counts env chats 0 no_tally) as (H1 & H2 & H3 & H4 & H5).
    cbn in *. repeat split; try lia; try done.
    intros cid Hin.
    destruct (fan_out_unfold _ (reminder_step_additive env) chats 0 no_tally) as [Hb _].
    rewrite Hb in Hin. cbn in Hin.
    apply elem_of_concat_imap in Hin as (i & a & Hi & Hin).
    assert (cid = a) as ->.
    { unfold reminder_step in Hin. revert Hin.
      repeat case_match; cbn; rewrite ?elem_of_nil, ?list_elem_of_singleton; done. }
    by eapply list_elem_of_lookup_2.
  - destruct (fan_out_poll_counts env chats 0 no_tally) as (H1 & H2 & H3 & H4 & H5).
    cbn in *. repeat split; try lia; try done.
    intros cid Hin.
    destruct (fan_out_unfold _ (poll_step_additive env) chats 0 no_tally) as [Hb _].
    rewrite Hb in Hin. cbn in Hin.
    apply elem_of_concat_imap in Hin as (i & a & Hi & Hin).
    assert (cid = a) as ->.
    { unfold poll_step in Hin. revert Hin.
      repeat case_match; cbn; rewrite ?elem_of_nil, ?list_elem_of_singleton; done. }
    by eapply list_elem_of_lookup_2.
Qed.

(** X11: a firing touches neither the job queue nor the other collection:
    [send_reminder] leaves the poll file and [send_poll] the reminder
    file as they were. *)
Theorem firing_keeps_queue_and_other_collection env record w :
  polls_json (run (send_reminder env record) w) = polls_json w /\
  job_queue (run (send_reminder env record) w) = job_queue w /\
  reminders_json (run (send_poll env record) w) = reminders_json w /\
  job_queue (run (send_poll env record) w) = job_queue w.
Proof.
  destruct (load_chats_or_restore env w) as [w1 res] eqn:Hload.
  destruct (load_chats_frame _ _ _ _ Hload) as (Hr & Hp & Hq & _).
  assert (polls_json (run (send_reminder env record) w) = polls_json w /\
          job_queue (run (send_reminder env record) w) = job_queue w) as [-> ->].
  { destruct res as [[[|c cs]|]|e].
    - rewrite (send_reminder_nobody _ _ _ _ Hload).
      by destruct (is_once_reminder record).
    - by rewrite (send_reminder_fans_out _ _ _ _ _ _ Hload).
    - rewrite (send_reminder_gives_up _ record _ _ _ Hload); [done | by left].
    - rewrite (send_reminder_gives_up _ record _ _ _ Hload); [done | right; eauto]. }
  split; [done|]. split; [done|].
  destruct (decide (record = empty_dict)) as [-> | Hne].
  { unfold run, send_poll, catch. by rewrite bool_decide_eq_true_2. }
  destruct res as [[[|c cs]|]|e].
  - rewrite (send_poll_nobody _ _ _ _ Hne Hload). by destruct (is_once_poll record).
  - by rewrite (send_poll_fans_out _ _ _ _ _ _ Hne Hload).
  - destruct (send_poll_gives_up _ record _ _ _ Hload) as [-> | ->]; [by left|done..].
  - destruct (send_poll_gives_up _ record _ _ _ Hload) as [-> | ->]; [right; eauto|done..].
Qed.

Lemma fan_out_ext step step' i chats t :
  (forall i cid t, step i cid t = step' i cid t) ->
  fan_out step i chats t = fan_out step' i chats t.
Proof.
  intros Hext. revert i t. induction chats as [|c cs IH]; intros i t; [done|].
  cbn [fan_out]. by rewrite Hext, IH.
Qed.

(** X12: with a readable, non-empty subscriber file the local outcome of a
    firing does not depend on the Sheets manager.  Two runs whose gateway
    answers agree leave the same files, queue and sends, whether the
    manager is there or not, and whichever of its calls raise. *)
Theorem delivery_does_not_depend_on_backup env env' record w c cs :
  subscribed_chats_json w = json_dump (c :: cs) ->
  same_gateway env env' ->
  local_state (run (send_reminder env record) w) =
    local_state (run (send_reminder env' record) w) /\
  local_state (run (send_poll env record) w) =
    local_state (run (send_poll env' record) w).
Proof.
  intros Hfile (Hmsg & Hpoll & Htime).
  assert (forall e, load_chats_or_restore e w = (w, Ok (Some (c :: cs)))) as Hload.
  { intros e. pose proof (load_chats_or_restore_cases e w) as Hc.
    by rewrite Hfile in Hc. }
  assert (fan_out (reminder_step env) 0 (c :: cs) no_tally =
          fan_out (reminder_step env') 0 (c :: cs) no_tally) as Hr.
  { apply fan_out_ext. intros i cid t. unfold reminder_step. by rewrite !Hmsg. }
  assert (fan_out (poll_step env) 0 (c :: cs) no_tally =
          fan_out (poll_step env') 0 (c :: cs) no_tally) as Hp.
  { apply fan_out_ext. intros i cid t. unfold poll_step. by rewrite Hpoll. }
  split.
  - rewrite (send_reminder_fans_out env _ _ _ _ _ (Hload env)),
            (send_reminder_fans_out env' _ _ _ _ _ (Hload env')).
    unfold local_state. cbn -[fan_out]. by rewrite Hr.
  - destruct (decide (record = empty_dict)) as [-> | Hne].
    { unfold run, send_poll, catch. by rewrite !bool_decide_eq_true_2. }
    rewrite (send_poll_fans_out env _ _ _ _ _ Hne (Hload env)),
            (send_poll_fans_out env' _ _ _ _ _ Hne (Hload env')).
    unfold local_state. cbn -[fan_out]. by rewrite Hp, Htime.
Qed.

(** X13: what [ensure_subscribed_chats_file] leaves.  A file that holds a
    non-empty list is kept and the answer is [True] without any call on
    the Sheets manager being needed.  In every other case in which the
    function returns, the file holds a JSON list afterwards: the list
    the backup store handed back, or the empty list when the answer is
    [False] - an unreadable file is overwritten. *)
Theorem ensure_subscribed_chats_file_result env w :
  (forall c cs, subscribed_chats_json w = Text (Json (c :: cs)) ->
     ensure_subscribed_chats_file env w = (w, Ok true)) /\
  (forall w' ok, ensure_subscribed_chats_file env w = (w', Ok ok) ->
     w' = set_chats (subscribed_chats_json w') w /\
     exists l, subscribed_chats_json w' = Text (Json l) /\
               (ok = false -> l = [] /\ subscribed_chats_json w' = json_dump [])) /\
  (forall w' e, ensure_subscribed_chats_file env w = (w', Raise e) ->
     w' = w /\ sheets_ready env = true /\ backup_chats env = RestoreRaised).
Proof.
  destruct w as [rf pf cf q sh ob].
  unfold ensure_subscribed_chats_file, restore_subscribed_chats_file, read_chats,
    save_chats, catch, mbind, modify, get, lift, ret, raise, set_chats. cbn.
  split; [|split].
  - intros c cs ->. done.
  - intros w' ok.
    destruct cf as [|[| |[|c cs]]]; cbn;
      try (destruct (sheets_ready env); cbn; [destruct (backup_chats env)|]; cbn);
      intros [= <- <-]; cbn; (split; [done|]); eexists; (split; [done|]); done.
  - intros w' e.
    destruct cf as [|[| |[|c cs]]]; cbn;
      try (destruct (sheets_ready env) eqn:Hr; cbn;
             [destruct (backup_chats env) eqn:Hb|]; cbn);
      intros [= <- <-]; done.
Qed.

Section StartupFacts.
Context `{PyLib}.

(** X14: at start-up the local reminders win.  When the reminder file
    holds at least one record, [ensure_reminders_file] answers
    [(True, count)] and changes nothing, whatever the Sheets manager
    would have restored; when the file holds no record and nothing is
    restored the file is rewritten as the empty list and the answer is
    [(False, 0)]. *)
Theorem ensure_reminders_file_prefers_local env w :
  (forall r rs, collection (reminders_json w) = r :: rs ->
     ensure_reminders_file env w = (w, Ok (true, length (r :: rs)))) /\
  (collection (reminders_json w) = [] ->
   backup_failed (sheets_ready env) (backup_reminders env) ->
     ensure_reminders_file env w =
       (set_reminders (save_reminders []) w, Ok (false, 0%nat))).
Proof.
  split.
  - intros r rs Hc. unfold ensure_reminders_file, catch, mbind, ret.
    rewrite load_reminders_m_run, Hc. done.
  - intros Hc Hfail. unfold ensure_reminders_file, restore_reminders_from_sheets,
      catch, mbind, modify, ret, raise.
    rewrite load_reminders_m_run, Hc.
    destruct Hfail as [Hr | [Hr | Hr]]; rewrite ?Hr; try done;
      by destruct (sheets_ready env).
Qed.

End StartupFacts.

(** ** The example platform prints ints and reads them back *)

Lemma digit_pretty_N_char x :
  (x < 10)%N -> Example.digit (pretty_N_char x) = Some (Z.of_N x).
Proof.
  intros Hx.
  assert (x = 0 \/ x = 1 \/ x = 2 \/ x = 3 \/ x = 4 \/ x = 5 \/ x = 6 \/ x = 7 \/
          x = 8 \/ x = 9)%N as Hc by lia.
  repeat (destruct Hc as [-> | Hc]; [reflexivity|]). by subst.
Qed.

Lemma digits_pretty_N_go x s :
  Example.digits 0 (pretty_N_go x s) = Example.digits (Z.of_N x) s.
Proof.
  revert s. induction (N.lt_wf_0 x) as [x _ IH]; intros s.
  assert (x = 0 \/ 0 < x)%N as [-> | Hpos] by lia.
  { by rewrite pretty_N_go_0. }
  rewrite pretty_N_go_step by done.
  rewrite IH by (by apply N.div_lt).
  cbn [Example.digits].
  rewrite digit_pretty_N_char by (apply N.mod_lt; lia).
  f_equal. pose proof (N.div_mod x 10 ltac:(lia)). lia.
Qed.

Lemma int_of_digits s n :
  Example.digits 0 s = Some n -> n <> 0 -> Example.int s = Some n.
Proof.
  destruct s as [|c rest]; [cbn; congruence|].
  intros Hd _. unfold Example.int, Example.number.
  cbn [Example.digits] in Hd.
  destruct (Example.digit c) as [d|] eqn:Hc; [|done].
  assert (c <> "-"%char /\ c <> "+"%char) as [Hm Hp].
  { split; intros ->; vm_compute in Hc; discriminate. }
  assert (Example.digits 0 (String c rest) = Some n) as Hd'.
  { cbn [Example.digits]. by rewrite Hc. }
  destruct c as [[] [] [] [] [] [] [] []]; try done.
Qed.

Lemma int_pretty (n : Z) : Example.int (pretty n) = Some n.
Proof.
  assert (forall p, Example.digits 0 (pretty (N.pos p)) = Some (Z.pos p)) as Hpos.
  { intros p. unfold pretty, pretty_N. rewrite decide_False by done.
    by rewrite digits_pretty_N_go. }
  destruct n as [|p|p]; [done|..].
  - apply int_of_digits; [apply Hpos | done].
  - unfold pretty, pretty_Z. change (pretty p) with (pretty (N.pos p)).
    cbn [Example.int String.app]. unfold Example.number.
    pose proof (Hpos p) as Hd.
    destruct (pretty (N.pos p)) as [|c rest] eqn:E; [cbn in Hd; congruence|].
    change (Example.int ("-" +:+ String c rest))
      with (Z.opp <$> Example.digits 0 (String c rest)).
    by rewrite Hd.
Qed.

#[global] Instance example_str : @PyStr Example.lib :=
  @Build_PyStr Example.lib (pretty : Z -> string) int_pretty.


Section IdentifierFacts.
Context `{PyStr}.

Lemma max_id_fold l m0 :
  let f := fun max_id record =>
             match id_number record with
             | Some n => if max_id <? n then n else max_id
             | None => max_id
             end in
  m0 <= fold_left f l m0 /\
  forall r n, r ∈ l -> id_number r = Some n -> n <= fold_left f l m0.
Proof.
  cbn zeta. revert m0. induction l as [|x l IH]; intros m0.
  - split; [cbn; lia|]. intros r n Hr. by apply elem_of_nil in Hr.
  - cbn [fold_left].
    set (m1 := match id_number x with
               | Some n => if m0 <? n then n else m0
               | None => m0
               end).
    destruct (IH m1) as [Hle Hall].
    assert (m0 <= m1) as Hm.
    { unfold m1. destruct (id_number x) as [k|]; [|lia].
      destruct (m0 <? k) eqn:E; lia. }
    split; [lia|].
    intros r n Hr Hn. apply elem_of_cons in Hr as [-> | Hr]; [|by eapply Hall].
    assert (n <= m1); [|lia].
    unfold m1. rewrite Hn. destruct (m0 <? n) eqn:E; lia.
Qed.

Lemma max_id_of_bounds (records : list item) r n :
  r ∈ records -> id_number r = Some n -> n <= max_id_of records.
Proof. apply (max_id_fold records 0). Qed.

Lemma max_id_of_nonneg records : 0 <= max_id_of records.
Proof. apply (max_id_fold records 0). Qed.

Lemma fresh_number (records : list item) n r :
  (forall r' k, r' ∈ records -> id_number r' = Some k -> k < n) ->
  r ∈ records -> k_id r <> Some (py_str n).
Proof.
  intros Hlt Hr Hid.
  assert (id_number r = Some n) as Hn.
  { unfold id_number. rewrite Hid. cbn. apply py_int_str. }
  specialize (Hlt _ _ Hr Hn). lia.
Qed.

(** X1: the id [get_next_reminder_id] returns is not the id of any stored
    reminder.  It is "1" for an empty or unreadable file; otherwise it
    reads back as an int greater than every stored id that reads as an
    int. *)
Theorem next_reminder_id_is_fresh (reminders_json : file (list item)) :
  exists new_id,
    get_next_reminder_id reminders_json = Ok new_id /\
    (collection reminders_json = [] -> new_id = "1") /\
    forall r, r ∈ collection reminders_json ->
      k_id r <> Some new_id /\
      exists n, py_int new_id = Some n /\ forall k, id_number r = Some k -> k < n.
Proof.
  unfold get_next_reminder_id. rewrite load_reminders_collection. cbn [bind].
  destruct (collection reminders_json) as [|x l] eqn:Hc.
  - exists "1". split; [done|]. split; [done|].
    intros r Hr. by apply elem_of_nil in Hr.
  - eexists. split; [reflexivity|]. split; [done|].
    assert (forall r k, r ∈ x :: l -> id_number r = Some k ->
                        k < max_id_of (x :: l) + 1) as Hlt.
    { intros r k Hr Hk. pose proof (max_id_of_bounds _ _ _ Hr Hk). lia. }
    intros r Hr. split; [by eapply fresh_number|].
    eexists. split; [apply py_int_str|]. intros k. by apply Hlt.
Qed.

(** X2: the id [get_next_poll_id] returns is not the id of any stored
    poll; it reads back as an int greater than every stored id that
    reads as an int and, when the Sheets manager is ready and answers,
    greater than the largest id the manager knows. *)
Theorem next_poll_id_is_fresh env (get_max_poll_id : result Z)
    (polls_json : file (list item)) :
  exists new_id n,
    get_next_poll_id env get_max_poll_id polls_json = Ok new_id /\
    py_int new_id = Some n /\ 0 < n /\
    (forall p, p ∈ collection polls_json ->
       k_id p <> Some new_id /\ forall k, id_number p = Some k -> k < n) /\
    (forall m, sheets_ready env = true -> get_max_poll_id = Ok m -> m < n).
Proof.
  unfold get_next_poll_id. rewrite load_polls_collection. cbn [bind try_except].
  eexists _, _. split; [reflexivity|]. split; [apply py_int_str|].
  pose proof (max_id_of_nonneg (collection polls_json)).
  split; [lia|]. split.
  - assert (forall r k, r ∈ collection polls_json -> id_number r = Some k ->
              k < Z.max (max_id_of (collection polls_json))
                    (if sheets_ready env
                     then match get_max_poll_id with Ok n => n | Raise _ => 0 end
                     else 0) + 1) as Hlt.
    { intros r k Hr Hk. pose proof (max_id_of_bounds _ _ _ Hr Hk). lia. }
    intros p Hp. split; [by eapply fresh_number|]. intros k. by apply Hlt.
  - intros m -> ->. lia.
Qed.

End IdentifierFacts.

(** ** Subscriber registry *)

Lemma list_remove_first chat_id l :
  chat_id ∈ l ->
  exists l1 l2, l = l1 ++ chat_id :: l2 /\ (chat_id ∉ l1) /\
                list_remove chat_id l = l1 ++ l2.
Proof.
  induction l as [|c l IH]; intros Hin; [by apply elem_of_nil in Hin|].
  cbn [list_remove]. case_bool_decide as Hc.
  - subst. exists [], l. split; [done|]. split; [apply not_elem_of_nil | done].
  - apply elem_of_cons in Hin as [-> | Hin]; [done|].
    destruct (IH Hin) as (l1 & l2 & -> & Hn & ->).
    exists (c :: l1), l2. split; [done|]. split; [|done].
    apply not_elem_of_cons. split; [congruence | done].
Qed.

Lemma read_or_empty w :
  catch
    (f <~ get subscribed_chats_json ;;
     lift (data <- open_read f ;;
           if is_blank data then Ok [] else json_loads data))
    (fun e => match e with
              | FileNotFoundError | JSONDecodeError => true
              | _ => false
              end)
    (ret []) w = (w, Ok (collection (subscribed_chats_json w))).
Proof.
  unfold catch, mbind, get, lift, ret.
  by destruct (subscribed_chats_json w) as [|[| |l]].
Qed.

Lemma subscribe_chat_run env chat_id w :
  let l := collection (subscribed_chats_json w) in
  subscribe_chat env chat_id w =
    if bool_decide (chat_id ∉ l) then
      (set_sheets
         (sheets w ++ mirrored env [update_chat_stats chat_id no_status;
                                    log_operation "CHAT_SUBSCRIBE";
                                    sync_subscribed_chats_to_sheets (Some (l ++ [chat_id]))])
         (set_chats (json_dump (l ++ [chat_id])) w), Ok tt)
    else
      (set_sheets (sheets w ++ mirrored env [update_chat_stats chat_id no_status]) w, Ok tt).
Proof.
  cbn zeta. unfold subscribe_chat. unfold mbind at 1. rewrite read_or_empty.
  case_bool_decide.
  - unfold mbind, save_chats, modify. by rewrite mirror_run.
  - by rewrite mirror_run.
Qed.

(** X3: [subscribe_chat] adds a chat once.  A chat that is not listed is
    appended to the stored list, which is otherwise kept in its order; a
    chat that is listed leaves the file untouched; either way the chat
    is listed afterwards, a list without duplicates stays without
    duplicates, and subscribing a second time changes the file no
    further. *)
Theorem subscribe_chat_adds_once env chat_id w :
  let l := collection (subscribed_chats_json w) in
  let w' := run (subscribe_chat env chat_id) w in
  (chat_id ∈ l -> subscribed_chats_json w' = subscribed_chats_json w) /\
  (chat_id ∉ l -> subscribed_chats_json w' = json_dump (l ++ [chat_id])) /\
  chat_id ∈ collection (subscribed_chats_json w') /\
  (NoDup l -> NoDup (collection (subscribed_chats_json w'))) /\
  subscribed_chats_json (run (subscribe_chat env chat_id) w') = subscribed_chats_json w'.
Proof.
  cbn zeta. unfold run. rewrite !subscribe_chat_run.
  destruct (decide (chat_id ∈ collection (subscribed_chats_json w))) as [Hin|Hout].
  - rewrite (bool_decide_eq_false_2 (chat_id ∉ _)) by tauto. cbn.
    rewrite (bool_decide_eq_false_2 (chat_id ∉ _)) by tauto. cbn.
    repeat split; try done.
  - rewrite (bool_decide_eq_true_2 (chat_id ∉ _)) by done. cbn.
    assert (chat_id ∈ (collection (subscribed_chats_json w) ++ [chat_id])) as Hnow.
    { apply elem_of_app. right. by left. }
    rewrite (bool_decide_eq_false_2 (chat_id ∉ _)) by tauto. cbn.
    repeat split; try done.
    intros Hnd. apply NoDup_app. split; [done|]. split; [|apply NoDup_singleton].
    intros c Hc Hc'. apply list_elem_of_singleton in Hc'. by subst.
Qed.

(** X4: [unsubscribe_user] takes the first occurrence of the chat out of
    the stored list and tells the Sheets manager; for a chat that is not
    listed (or a file that cannot be read) it changes nothing and
    answers [False]. *)
Theorem unsubscribe_user_removes_first env chat_id w :
  let l := collection (subscribed_chats_json w) in
  (chat_id ∉ l -> unsubscribe_user env chat_id w = (w, Ok false)) /\
  (chat_id ∈ l ->
   exists l1 l2,
     l = l1 ++ chat_id :: l2 /\ (chat_id ∉ l1) /\
     unsubscribe_user env chat_id w =
       (set_sheets
          (sheets w ++ mirrored env [log_operation "CHAT_UNSUBSCRIBE";
                                     sync_subscribed_chats_to_sheets (Some (l1 ++ l2));
                                     update_chat_stats chat_id "Unsubscribed"])
          (set_chats (json_dump (l1 ++ l2)) w), Ok true) /\
     (NoDup l -> chat_id ∉ (l1 ++ l2))).
Proof.
  cbn zeta.
  assert (unsubscribe_user env chat_id w =
          if bool_decide (chat_id ∈ collection (subscribed_chats_json w)) then
            (set_sheets
               (sheets w ++ mirrored env
                  [log_operation "CHAT_UNSUBSCRIBE";
                   sync_subscribed_chats_to_sheets
                     (Some (list_remove chat_id (collection (subscribed_chats_json w))));
                   update_chat_stats chat_id "Unsubscribed"])
               (set_chats (json_dump (list_remove chat_id
                                        (collection (subscribed_chats_json w)))) w),
             Ok true)
          else (w, Ok false)) as Hrun.
  { unfold unsubscribe_user, catch at 1, mbind at 1.
    assert (catch read_chats
              (fun e => match e with
                        | FileNotFoundError | JSONDecodeError => true
                        | _ => false
                        end) (ret []) w
            = (w, Ok (collection (subscribed_chats_json w)))) as ->.
    { unfold catch, read_chats, mbind, get, lift, ret.
      by destruct (subscribed_chats_json w) as [|[| |l]]. }
    case_bool_decide; [|done].
    unfold mbind, save_chats, modify. by rewrite mirror_run. }
  split.
  - intros Hout. rewrite Hrun. by rewrite bool_decide_eq_false_2.
  - intros Hin. rewrite Hrun, bool_decide_eq_true_2 by done.
    destruct (list_remove_first _ _ Hin) as (l1 & l2 & Hl & Hn & Hrem).
    exists l1, l2. rewrite Hrem. split; [done|]. split; [done|]. split; [done|].
    intros Hnd. rewrite Hl in Hnd. apply NoDup_app in Hnd as (_ & Hd & Hnd2).
    apply NoDup_cons in Hnd2 as [Hn2 _].
    intros [?|?]%elem_of_app; done.
Qed.

(** X5: subscribing a chat that is not listed and unsubscribing it again
    gives back the stored list. *)
Theorem subscribe_then_unsubscribe env env' chat_id w :
  chat_id ∉ collection (subscribed_chats_json w) ->
  let w1 := run (subscribe_chat env chat_id) w in
  exists w2,
    unsubscribe_user env' chat_id w1 = (w2, Ok true) /\
    subscribed_chats_json w2 = json_dump (collection (subscribed_chats_json w)).
Proof.
  intros Hout. cbn zeta. unfold run. rewrite subscribe_chat_run. cbn zeta.
  rewrite bool_decide_eq_true_2 by done. cbn [fst].
  set (l := collection (subscribed_chats_json w)) in *.
  set (w1 := set_sheets _ _).
  assert (collection (subscribed_chats_json w1) = l ++ [chat_id]) as Hc by done.
  destruct (unsubscribe_user_removes_first env' chat_id w1) as [_ Hrem].
  cbn zeta in Hrem. rewrite Hc in Hrem.
  destruct Hrem as (l1 & l2 & Hl & Hn & -> & _).
  { apply elem_of_app. right. by left. }
  eexists. split; [reflexivity|]. cbn. f_equal. f_equal.
  (* the first occurrence is the appended one *)
  assert (l2 = [] /\ l1 = l) as [-> ->]; [|by rewrite app_nil_r].
  destruct l2 as [|x l2 _] using rev_ind.
  - split; [done|]. by apply app_inj_tail in Hl as [? _].
  - rewrite app_comm_cons, app_assoc in Hl. apply app_inj_tail in Hl as [Hl <-].
    exfalso. apply Hout. rewrite Hl. apply elem_of_app. right. by left.
Qed.

(** ** Texts *)

Lemma contains_char_cons (c x : ascii) (s : string) :
  contains (String c "") (String x s) =
  bool_decide (c = x) || contains (String c "") s.
Proof.
  cbn [contains String.prefix]. destruct (ascii_dec c x) as [->|Hne].
  - by rewrite prefix_nil, bool_decide_eq_true_2.
  - by rewrite bool_decide_eq_false_2.
Qed.

Lemma contains_char_app (c : ascii) (a b : string) :
  contains (String c "") (a +:+ b) =
  contains (String c "") a || contains (String c "") b.
Proof.
  induction a as [|x a IH].
  - done.
  - change (String x a +:+ b) with (String x (a +:+ b)).
    rewrite !contains_char_cons, IH. by rewrite orb_assoc.
Qed.

Lemma escape_char_no_bracket (c x : ascii) :
  c = "<"%char \/ c = ">"%char ->
  contains (String c "") (escape_char x) = false.
Proof.
  intros Hc. unfold escape_char.
  destruct (Ascii.eqb x "&"); [destruct Hc as [-> | ->]; reflexivity|].
  destruct (Ascii.eqb x "<") eqn:Hlt; [destruct Hc as [-> | ->]; reflexivity|].
  destruct (Ascii.eqb x ">") eqn:Hgt; [destruct Hc as [-> | ->]; reflexivity|].
  destruct (Ascii.eqb x (ascii_of_nat 34));
    [destruct Hc as [-> | ->]; reflexivity|].
  destruct (Ascii.eqb x "'"); [destruct Hc as [-> | ->]; reflexivity|].
  rewrite contains_char_cons. cbn.
  rewrite orb_false_r. apply bool_decide_eq_false_2.
  destruct Hc as [-> | ->]; intros <-; by rewrite Ascii.eqb_refl in *.
Qed.

Lemma html_escape_no_bracket (c : ascii) (s : string) :
  c = "<"%char \/ c = ">"%char ->
  contains (String c "") (html_escape s) = false.
Proof.
  intros Hc. induction s as [|x s IH]; [done|].
  cbn [html_escape]. by rewrite contains_char_app, escape_char_no_bracket, IH.
Qed.

Lemma prefix_contains_char (c : ascii) (p s : string) :
  String.prefix (String c p) s = true -> contains (String c "") s = true.
Proof.
  destruct s as [|x s]; [done|]. cbn [String.prefix].
  destruct (ascii_dec c x) as [->|]; [|done].
  intros _. rewrite contains_char_cons. by rewrite bool_decide_eq_true_2.
Qed.

Lemma contains_contains_char (c : ascii) (p s : string) :
  contains (String c p) s = true -> contains (String c "") s = true.
Proof.
  induction s as [|x s IH].
  - cbn. intros Hf. by rewrite ?orb_false_r in Hf.
  - intros Hc. cbn [contains] in Hc. apply orb_true_iff in Hc as [Hp | Hr].
    + by eapply prefix_contains_char.
    + rewrite contains_char_cons. rewrite IH by done. apply orb_true_r.
Qed.

(** X15: [safe_html_escape] escapes all or nothing.  A text without "<"
    is escaped by [html.escape]; a text that has both a "<" and a ">"
    somewhere (and no empty link) is returned as it is, whatever stands
    between the brackets; and the result never holds only one of the
    two brackets. *)
Theorem safe_html_escape_all_or_nothing (text : string) :
  let out := safe_html_escape text in
  (contains "<" text = false -> out = html_escape text) /\
  (contains "<" text = true -> contains ">" text = true ->
   contains ("href=" +:+ quote +:+ quote) text = false -> out = text) /\
  contains "<" out = contains ">" out.
Proof.
  cbn zeta. unfold safe_html_escape.
  destruct (String.eqb text "") eqn:He.
  { apply String.eqb_eq in He as ->. repeat split; done. }
  repeat split.
  - intros Hlt.
    assert (contains "<a " text = false) as ->.
    { destruct (contains "<a " text) eqn:E; [|done].
      apply contains_contains_char in E. congruence. }
    cbn [andb]. by rewrite Hlt.
  - intros Hlt Hgt Hhref. rewrite Hhref, andb_false_r. by rewrite Hlt, Hgt.
  - set (t := if _ : bool then _ else text).
    destruct (contains "<" t) eqn:Hlt, (contains ">" t) eqn:Hgt; cbn [andb];
      rewrite ?Hlt, ?Hgt, ?html_escape_no_bracket; auto.
Qed.

Section HandlerFacts.
Context `{PyStr}.

Lemma announce_and_schedule_run env op data reminder w :
  announce_and_schedule env op data reminder w =
    (set_jobs (schedule_reminder (clock env) (job_queue w) reminder)
       (set_sheets
          (sheets w ++
           if sheets_ready env && negb (log_action_raises op)
           then [sync_reminder data "CREATE"] else [])
          w),
     Ok (after_reply op END END)).
Proof.
  destruct w as [rf pf cf q sh ob].
  unfold announce_and_schedule, bookkeeping, sheets_manager, catch, mbind, modify,
    ret, raise, set_jobs, set_sheets. cbn.
  destruct (sheets_ready env); cbn; [|by rewrite app_nil_r].
  destruct (log_action_raises op); cbn; [by rewrite app_nil_r|].
  destruct (sheets_raises env _); cbn; [done|].
  by destruct (update_count_raises op).
Qed.

Lemma next_reminder_id_ok (f : file (list item)) :
  exists new_id,
    get_next_reminder_id f = Ok new_id /\
    forall r, r ∈ collection f -> k_id r <> Some new_id.
Proof.
  unfold get_next_reminder_id. rewrite load_reminders_collection. cbn [bind].
  destruct (collection f) as [|x l] eqn:Hc.
  - exists "1". split; [done|]. intros r Hr. by apply elem_of_nil in Hr.
  - eexists. split; [reflexivity|]. intros r Hr.
    eapply fresh_number; [|done].
    intros r' k Hr' Hk. pose proof (max_id_of_bounds _ _ _ Hr' Hk). lia.
Qed.

Lemma append_and_announce_run env op reminders data reminder w :
  (_ <~ modify (set_reminders (save_reminders (reminders ++ [reminder]))) ;;
   announce_and_schedule env op data reminder) w =
  (set_jobs (schedule_reminder (clock env) (job_queue w) reminder)
     (set_sheets
        (sheets w ++
         if sheets_ready env && negb (log_action_raises op)
         then [sync_reminder data "CREATE"] else [])
        (set_reminders (json_dump (reminders ++ [reminder])) w)),
   Ok (after_reply op END END)).
Proof.
  unfold mbind at 1, modify. by rewrite announce_and_schedule_run.
Qed.

Lemma receive_reminder_text_run env op datetime message_text w new_id :
  get_next_reminder_id (reminders_json w) = Ok new_id ->
  let text := safe_html_escape message_text in
  let reminder := new_once_reminder new_id datetime text in
  receive_reminder_text env op (Some datetime) message_text w =
  (set_jobs (schedule_reminder (clock env) (job_queue w) reminder)
     (set_sheets
        (sheets w ++
         if sheets_ready env && negb (log_action_raises op)
         then [sync_reminder (created_data new_id "once" datetime text) "CREATE"]
         else [])
        (set_reminders (json_dump (collection (reminders_json w) ++ [reminder])) w)),
   Ok (after_reply op END END)).
Proof.
  intros Hid. cbn zeta.
  unfold receive_reminder_text, catch. unfold mbind at 1.
  rewrite load_reminders_m_run.
  assert (forall (k : string -> M (handled Z)),
    (new_id <~ (f <~ get reminders_json ;; lift (get_next_reminder_id f)) ;; k new_id) w
    = k new_id w) as -> by (intros k; unfold mbind, get, lift; by rewrite Hid).
  unfold mbind at 1, lift. cbn [getitem].
  by rewrite append_and_announce_run.
Qed.

Lemma receive_daily_text_run env op time message_text w new_id :
  get_next_reminder_id (reminders_json w) = Ok new_id ->
  let text := safe_html_escape message_text in
  let reminder := new_daily_reminder new_id time text in
  receive_daily_text env op (Some time) message_text w =
  (set_jobs (schedule_reminder (clock env) (job_queue w) reminder)
     (set_sheets
        (sheets w ++
         if sheets_ready env && negb (log_action_raises op)
         then [sync_reminder (created_data new_id "daily" time text) "CREATE"]
         else [])
        (set_reminders (json_dump (collection (reminders_json w) ++ [reminder])) w)),
   Ok (after_reply op END END)).
Proof.
  intros Hid. cbn zeta.
  unfold receive_daily_text, catch. unfold mbind at 1.
  rewrite load_reminders_m_run.
  assert (forall (k : string -> M (handled Z)),
    (new_id <~ (f <~ get reminders_json ;; lift (get_next_reminder_id f)) ;; k new_id) w
    = k new_id w) as -> by (intros k; unfold mbind, get, lift; by rewrite Hid).
  unfold mbind at 1, lift. cbn [getitem].
  by rewrite append_and_announce_run.
Qed.

Lemma receive_weekly_text_run env op day time message_text w new_id :
  get_next_reminder_id (reminders_json w) = Ok new_id ->
  let text := safe_html_escape message_text in
  let reminder := new_weekly_reminder new_id day time text in
  receive_weekly_text env op (Some day) (Some time) message_text w =
  (set_jobs (schedule_reminder (clock env) (job_queue w) reminder)
     (set_sheets
        (sheets w ++
         if sheets_ready env && negb (log_action_raises op)
         then [sync_reminder
                 (created_data new_id "weekly" (day +:+ " " +:+ time) text) "CREATE"]
         else [])
        (set_reminders (json_dump (collection (reminders_json w) ++ [reminder])) w)),
   Ok (after_reply op END END)).
Proof.
  intros Hid. cbn zeta.
  unfold receive_weekly_text, catch. unfold mbind at 1.
  rewrite load_reminders_m_run.
  assert (forall (k : string -> M (handled Z)),
    (new_id <~ (f <~ get reminders_json ;; lift (get_next_reminder_id f)) ;; k new_id) w
    = k new_id w) as -> by (intros k; unfold mbind, get, lift; by rewrite Hid).
  unfold mbind at 1, lift. cbn [getitem]. unfold mbind at 1. cbn [getitem].
  by rewrite append_and_announce_run.
Qed.

(** X16: what the three creating handlers leave.  The new record is
    appended to the stored reminders under an id no stored reminder
    carries, with the trigger as it was entered and the text as
    [safe_html_escape] returns it; the queue is the one
    [schedule_reminder] makes of the old queue and the new record; the
    polls and the subscribers are untouched; and none of this depends on
    the Sheets manager.  When the trigger is missing from the
    conversation data nothing is stored. *)
Theorem new_reminder_is_stored_and_scheduled env op message_text w :
  exists new_id,
    get_next_reminder_id (reminders_json w) = Ok new_id /\
    (forall r, r ∈ collection (reminders_json w) -> k_id r <> Some new_id) /\
    let text := safe_html_escape message_text in
    let stored (reminder : item) (w' : World) :=
      reminders_json w' = json_dump (collection (reminders_json w) ++ [reminder]) /\
      job_queue w' = schedule_reminder (clock env) (job_queue w) reminder /\
      polls_json w' = polls_json w /\
      subscribed_chats_json w' = subscribed_chats_json w /\
      outbox w' = outbox w in
    (forall datetime,
       stored (new_once_reminder new_id datetime text)
         (world_after (receive_reminder_text env op (Some datetime) message_text) w)) /\
    (forall time,
       stored (new_daily_reminder new_id time text)
         (world_after (receive_daily_text env op (Some time) message_text) w)) /\
    (forall day time,
       stored (new_weekly_reminder new_id day time text)
         (world_after (receive_weekly_text env op (Some day) (Some time) message_text) w)) /\
    receive_reminder_text env op None message_text w =
      (w, Ok (after_error_reply op END)) /\
    receive_daily_text env op None message_text w =
      (w, Ok (after_error_reply op END)) /\
    (forall day time,
       day = None \/ time = None ->
       receive_weekly_text env op day time message_text w =
         (w, Ok (after_error_reply op END))).
Proof.
  destruct (next_reminder_id_ok (reminders_json w)) as (new_id & Hid & Hfresh).
  exists new_id. split; [done|]. split; [done|]. cbn zeta.
  assert (forall (k : string -> M (handled Z)),
    (new_id <~ (f <~ get reminders_json ;; lift (get_next_reminder_id f)) ;; k new_id) w
    = k new_id w) as Hnext.
  { intros k. unfold mbind, get, lift. by rewrite Hid. }
  split; [|split; [|split; [|split; [|split]]]].
  - intros datetime. unfold world_after.
    by rewrite (receive_reminder_text_run _ _ _ _ _ _ Hid).
  - intros time. unfold world_after.
    by rewrite (receive_daily_text_run _ _ _ _ _ _ Hid).
  - intros day time. unfold world_after.
    by rewrite (receive_weekly_text_run _ _ _ _ _ _ _ Hid).
  - unfold receive_reminder_text, catch. unfold mbind at 1.
    rewrite load_reminders_m_run, Hnext. unfold mbind at 1, lift. by cbn [getitem].
  - unfold receive_daily_text, catch. unfold mbind at 1.
    rewrite load_reminders_m_run, Hnext. unfold mbind at 1, lift. by cbn [getitem].
  - intros day time Hnone.
    unfold receive_weekly_text, catch. unfold mbind at 1.
    rewrite load_reminders_m_run, Hnext. unfold mbind at 1, lift.
    destruct day as [d|]; cbn [getitem]; [|done].
    destruct Hnone as [? | ->]; [done|]. unfold mbind at 1. by cbn [getitem].
Qed.

Lemma without_id_fresh (r : item) (l : list item) :
  (forall r', r' ∈ l -> k_id r' <> k_id r) ->
  without_id r (l ++ [r]) = l.
Proof.
  intros Hfresh. unfold without_id. rewrite filter_app.
  rewrite (filter_cons_False _ r) by tauto. rewrite filter_nil, app_nil_r.
  induction l as [|x l IH]; [done|].
  rewrite filter_cons_True by (apply Hfresh; by left).
  rewrite IH; [done|]. intros r' Hr'. apply Hfresh. by right.
Qed.

(** X17: a one-time reminder that is created and then fired leaves the
    stored reminders as they were before it was created, whenever the
    firing obtains a subscriber list. *)
Theorem once_reminder_created_then_fired env op env' datetime message_text w w1 chats :
  let created := world_after (receive_reminder_text env op (Some datetime) message_text) w in
  load_chats_or_restore env' created = (w1, Ok (Some chats)) ->
  exists new_id,
    get_next_reminder_id (reminders_json w) = Ok new_id /\
    let reminder := new_once_reminder new_id datetime (safe_html_escape message_text) in
    collection (reminders_json created) = collection (reminders_json w) ++ [reminder] /\
    collection (reminders_json (run (send_reminder env' reminder) created)) =
      collection (reminders_json w).
Proof.
  cbn zeta. intros Hload.
  destruct (next_reminder_id_ok (reminders_json w)) as (new_id & Hid & Hfresh).
  exists new_id. split; [done|].
  set (reminder := new_once_reminder new_id datetime (safe_html_escape message_text)).
  set (created := world_after _ w) in *.
  assert (reminders_json created =
          json_dump (collection (reminders_json w) ++ [reminder])) as Hfile.
  { unfold created, world_after.
    by rewrite (receive_reminder_text_run _ _ _ _ _ _ Hid). }
  split; [by rewrite Hfile|].
  destruct (load_chats_frame _ _ _ _ Hload) as (Hr & _).
  assert (is_once_reminder reminder = true) as Ho by done.
  destruct chats as [|c cs].
  - rewrite (send_reminder_nobody _ _ _ _ Hload), Ho. cbn.
    rewrite Hr, Hfile. cbn [collection json_dump save_reminders reminders_json set_reminders set_sheets].
    by apply without_id_fresh.
  - rewrite (send_reminder_fans_out _ _ _ _ _ _ Hload), Ho. cbn.
    rewrite Hr, Hfile. cbn [collection json_dump save_reminders reminders_json set_reminders set_sheets].
    by apply without_id_fresh.
Qed.

(** X18: a trigger that [receive_reminder_datetime] accepts reads as a
    Moscow time not before the clock reading of that step; the reminder
    [receive_reminder_text] then stores gets its one-time job if the
    trigger is still after the clock reading of the second step, and no
    job at all otherwise - the record is stored either way. *)
Theorem accepted_trigger_is_scheduled_while_future env op env2 op2 text stored
    message_text w :
  receive_reminder_datetime env op text = (Returns REMINDER_TEXT, stored) ->
  exists t new_id,
    stored = Some text /\
    strptime_msk text = Some t /\ moscow_now (clock env) <= t /\
    get_next_reminder_id (reminders_json w) = Ok new_id /\
    let reminder := new_once_reminder new_id text (safe_html_escape message_text) in
    let w' := world_after (receive_reminder_text env2 op2 stored message_text) w in
    reminder ∈ collection (reminders_json w') /\
    job_queue w' =
      remove_named (reminder_job_name reminder) (job_queue w) ++
      (if moscow_now (clock env2) <? t
       then [Build_Job send_reminder_cb (RunOnce t) (Some reminder)
               (reminder_job_name reminder)]
       else []).
Proof.
  unfold receive_reminder_datetime, after_reply, after_error_reply.
  destruct (strptime_msk text) as [t|] eqn:Hparse;
    [|by destruct (error_reply_fails op)].
  destruct (t <? moscow_now (clock env)) eqn:Hpast;
    [by destruct (reply_fails op), (error_reply_fails op)|].
  destruct (reply_fails op); [by destruct (error_reply_fails op)|]. intros [= <-].
  destruct (next_reminder_id_ok (reminders_json w)) as (new_id & Hid & _).
  exists t, new_id. split; [done|]. split; [done|]. split; [lia|]. split; [done|].
  cbn zeta. unfold world_after.
  rewrite (receive_reminder_text_run _ _ _ _ _ _ Hid). cbn.
  split; [apply elem_of_app; right; by left|].
  unfold schedule_reminder, schedule_reminder_body. cbn [k_type new_once_reminder getitem bind].
  change (String.eqb "once" "once") with true. cbn match.
  change (k_datetime (new_once_reminder new_id text (safe_html_escape message_text)))
    with (Some text).
  cbn [getitem bind]. unfold strptime. rewrite Hparse. cbn [bind].
  destruct (moscow_now (clock env2) <? t); [done|]. by rewrite app_nil_r.
Qed.

End HandlerFacts.

(** ** Deleting and clearing *)

Lemma for_each_sync {A} env (call : A -> sheets_call) (l : list A) w :
  for_each l (fun a => catch (sheets_manager env (call a)) any_exception (ret tt)) w =
  (set_sheets (sheets w ++ (call <$> l)) w, Ok tt).
Proof.
  revert w. induction l as [|a l IH]; intros w.
  - destruct w. cbn. unfold ret, set_sheets. cbn. by rewrite app_nil_r.
  - cbn [for_each]. unfold mbind at 1.
    assert (catch (sheets_manager env (call a)) any_exception (ret tt) w =
            (set_sheets (sheets w ++ [call a]) w, Ok tt)) as ->.
    { unfold catch, sheets_manager, mbind, modify, ret, raise.
      by destruct (sheets_raises env (call a)). }
    rewrite IH. destruct w. unfold set_sheets. cbn.
    by rewrite <- app_assoc.
Qed.

Lemma reminder_jobs_remove_prefixed q :
  reminder_jobs (remove_prefixed "reminder_" q) = [] /\
  poll_jobs (remove_prefixed "reminder_" q) = poll_jobs q.
Proof.
  unfold reminder_jobs, poll_jobs, remove_prefixed. split.
  - apply filter_empty_if. intros j Hj Hp.
    apply list_elem_of_filter in Hj as [Hn _]. congruence.
  - apply list_filter_filter_l. intros j Hp.
    destruct (startswith (job_name j) "reminder_") eqn:Hr; [|done].
    apply prefixes_exclusive in Hr. congruence.
Qed.

Lemma poll_jobs_remove_prefixed q :
  poll_jobs (remove_prefixed "poll_" q) = [] /\
  reminder_jobs (remove_prefixed "poll_" q) = reminder_jobs q.
Proof.
  unfold reminder_jobs, poll_jobs, remove_prefixed. split.
  - apply filter_empty_if. intros j Hj Hp.
    apply list_elem_of_filter in Hj as [Hn _]. congruence.
  - apply list_filter_filter_l. intros j Hr.
    apply prefixes_exclusive in Hr. done.
Qed.

Lemma clear_reminders_run env op w :
  clear_reminders env op w =
  (set_jobs (remove_prefixed "reminder_" (job_queue w))
     (set_reminders (json_dump [])
        (set_sheets
           (sheets w ++
            if sheets_ready env && bool_decide (collection (reminders_json w) <> []) &&
               negb (reply_fails op) && negb (log_action_raises op)
            then (fun r => sync_reminder (deleted_reminder_data r) "DELETE") <$>
                   collection (reminders_json w)
            else [])
           w)),
   Ok (after_reply op tt tt)).
Proof.
  unfold clear_reminders, catch at 1. unfold mbind at 1.
  rewrite load_reminders_m_run.
  set (l := collection (reminders_json w)).
  destruct (sheets_ready env && bool_decide (l <> [])) eqn:Hgo; cbn [andb].
  2:{ unfold mbind, modify, ret. destruct w. unfold set_sheets, set_jobs, set_reminders.
      cbn. by rewrite app_nil_r. }
  destruct (reply_fails op); cbn [negb andb].
  { unfold mbind, modify, ret. destruct w. unfold set_sheets, set_jobs, set_reminders.
    cbn. by rewrite app_nil_r. }
  destruct (log_action_raises op); cbn [negb].
  { unfold mbind, modify, ret, catch, bookkeeping, raise. destruct w.
    unfold set_sheets, set_jobs, set_reminders. cbn. by rewrite app_nil_r. }
  unfold mbind at 1. unfold catch at 1. unfold mbind at 1. unfold bookkeeping at 1.
  unfold ret at 1. unfold mbind at 1. rewrite for_each_sync.
  unfold mbind, modify, ret, bookkeeping, raise.
  by destruct (update_count_raises op).
Qed.

Lemma clear_polls_run env op w :
  clear_polls env op w =
  (set_jobs (remove_prefixed "poll_" (job_queue w))
     (set_polls (json_dump [])
        (set_sheets
           (sheets w ++
            if sheets_ready env && bool_decide (collection (polls_json w) <> []) &&
               negb (reply_fails op) && negb (log_action_raises op)
            then (fun p => sync_poll (deleted_poll_data p) "DELETE") <$>
                   collection (polls_json w)
            else [])
           w)),
   Ok (after_reply op tt tt)).
Proof.
  unfold clear_polls, catch at 1. unfold mbind at 1.
  rewrite load_polls_m_run.
  set (l := collection (polls_json w)).
  destruct (sheets_ready env && bool_decide (l <> [])) eqn:Hgo; cbn [andb].
  2:{ unfold mbind, modify, ret. destruct w. unfold set_sheets, set_jobs, set_polls.
      cbn. by rewrite app_nil_r. }
  destruct (reply_fails op); cbn [negb andb].
  { unfold mbind, modify, ret. destruct w. unfold set_sheets, set_jobs, set_polls.
    cbn. by rewrite app_nil_r. }
  destruct (log_action_raises op); cbn [negb].
  { unfold mbind, modify, ret, catch, bookkeeping, raise. destruct w.
    unfold set_sheets, set_jobs, set_polls. cbn. by rewrite app_nil_r. }
  unfold mbind at 1. unfold catch at 1. unfold mbind at 1. unfold bookkeeping at 1.
  unfold ret at 1. unfold mbind at 1. rewrite for_each_sync.
  unfold mbind, modify, ret, bookkeeping, raise.
  by destruct (update_count_raises op).
Qed.

(** X19: [clear_reminders] always empties the reminder file and takes
    every job whose name starts with "reminder_" out of the queue,
    whether the Sheets manager is there or not, whichever of its calls
    raise, and whether the operator can be reached; the other jobs, the
    polls and the subscribers are untouched; the only calls that reach
    the Sheets manager with a record are one DELETE per stored
    reminder, in the order of the file. *)
Theorem clear_reminders_empties env op w :
  let w' := world_after (clear_reminders env op) w in
  reminders_json w' = json_dump [] /\
  job_queue w' = remove_prefixed "reminder_" (job_queue w) /\
  check_active_jobs (job_queue w') = (0%nat, (check_active_jobs (job_queue w)).2) /\
  polls_json w' = polls_json w /\
  subscribed_chats_json w' = subscribed_chats_json w /\
  outbox w' = outbox w /\
  (sheets w' = sheets w \/
   sheets w' = sheets w ++
     ((fun r => sync_reminder (deleted_reminder_data r) "DELETE") <$>
        collection (reminders_json w))) /\
  (sheets_ready env = false -> sheets w' = sheets w).
Proof.
  cbn zeta. unfold world_after. rewrite clear_reminders_run. cbn.
  destruct (reminder_jobs_remove_prefixed (job_queue w)) as [Hr Hp].
  unfold check_active_jobs. rewrite Hr, Hp. cbn.
  repeat split.
  - destruct (_ && _ && _ && _); [by right | left; by rewrite app_nil_r].
  - intros ->. cbn. by rewrite app_nil_r.
Qed.

(** X20: [clear_polls] always empties the poll file and takes every job
    whose name starts with "poll_" out of the queue (the jobs of missed
    polls included); the other jobs, the reminders and the subscribers
    are untouched. *)
Theorem clear_polls_empties env op w :
  let w' := world_after (clear_polls env op) w in
  polls_json w' = json_dump [] /\
  job_queue w' = remove_prefixed "poll_" (job_queue w) /\
  check_active_jobs (job_queue w') = ((check_active_jobs (job_queue w)).1, 0%nat) /\
  reminders_json w' = reminders_json w /\
  subscribed_chats_json w' = subscribed_chats_json w /\
  outbox w' = outbox w /\
  (sheets w' = sheets w \/
   sheets w' = sheets w ++
     ((fun p => sync_poll (deleted_poll_data p) "DELETE") <$>
        collection (polls_json w))) /\
  (sheets_ready env = false -> sheets w' = sheets w).
Proof.
  cbn zeta. unfold world_after. rewrite clear_polls_run. cbn.
  destruct (poll_jobs_remove_prefixed (job_queue w)) as [Hp Hr].
  unfold check_active_jobs. rewrite Hr, Hp. cbn.
  repeat split.
  - destruct (_ && _ && _ && _); [by right | left; by rewrite app_nil_r].
  - intros ->. cbn. by rewrite app_nil_r.
Qed.

Section DeletingFacts.
Context `{PyStr}.


Lemma with_keys_raises (l : list item) r :
  r ∈ l -> id_number r = None ->
  exists msg, with_keys l = Raise (ValueError msg).
Proof.
  induction l as [|x l IH]; intros Hin Hr; [by apply elem_of_nil in Hin|].
  cbn [with_keys]. destruct (id_number x) as [k|] eqn:Hx; [|eauto].
  apply elem_of_cons in Hin as [-> | Hin]; [congruence|].
  destruct (IH Hin Hr) as [msg ->]. eauto.
Qed.

Lemma with_keys_ok (l : list item) :
  (forall r, r ∈ l -> id_number r <> None) -> exists keyed, with_keys l = Ok keyed.
Proof.
  induction l as [|x l IH]; intros Hall; [by eexists|].
  cbn [with_keys]. destruct (id_number x) as [k|] eqn:Hx.
  - destruct IH as [keyed ->]; [intros r Hr; apply Hall; by right|]. by eexists.
  - exfalso. by apply (Hall x); [left|].
Qed.






(** X22: [confirm_delete_reminder] changes nothing - files, queue,
    calls on the Sheets manager - when the text is not a number, when
    the number is not a place of the listing, and also when some stored
    reminder has an id that does not read as an int.  When its replies
    are delivered it asks for the number again, and no exception leaves
    it unless the reply of an [except] branch fails. *)
Theorem delete_reminder_rejects env op message_text w :
  py_int message_text = None \/
  (exists n, py_int message_text = Some n /\
             (n < 1 \/ Z.of_nat (length (collection (reminders_json w))) < n)) \/
  (exists r, r ∈ collection (reminders_json w) /\ id_number r = None) ->
  exists answer,
    confirm_delete_reminder env op message_text w = (w, Ok answer) /\
    (reply_fails op = false -> error_reply_fails op = false ->
     answer = Returns REM_DEL_ID) /\
    (answer = Uncaught -> error_reply_fails op = true).
Proof.
  intros Hcase.
  assert (forall a b : Z, exists answer,
            (w, Ok (after_reply op a b)) = (w, Ok answer) /\
            (reply_fails op = false -> error_reply_fails op = false ->
             answer = Returns a) /\
            (answer = Uncaught -> error_reply_fails op = true)) as Hreply.
  { intros a b. eexists. split; [done|]. unfold after_reply, after_error_reply.
    by destruct (reply_fails op), (error_reply_fails op). }
  assert (forall a : Z, exists answer,
            (w, Ok (after_error_reply op a)) = (w, Ok answer) /\
            (reply_fails op = false -> error_reply_fails op = false ->
             answer = Returns a) /\
            (answer = Uncaught -> error_reply_fails op = true)) as Herror.
  { intros a. eexists. split; [done|]. unfold after_error_reply.
    by destruct (error_reply_fails op). }
  unfold confirm_delete_reminder. unfold catch at 1, catch at 1.
  unfold mbind at 1, lift, to_int.
  destruct (py_int message_text) as [n|] eqn:Hn; [|apply Herror].
  unfold mbind at 1. rewrite load_reminders_m_run.
  set (l := collection (reminders_json w)) in *.
  destruct ((n <? 1) || (Z.of_nat (length l) <? n)) eqn:Hrange; [apply Hreply|].
  destruct Hcase as [? | [(n' & Hn' & Hout) | (r & Hr & Hbad)]]; [done|..].
  { simplify_eq. lia. }
  unfold mbind at 1, lift, sort_by_id.
  destruct (with_keys_raises _ _ Hr Hbad) as [msg ->]. cbn [bind].
  apply Herror.
Qed.

(** X23: [confirm_delete_poll] never finds a poll whose stored id is a
    string, as every id the bot gives is: it compares the stored id with
    the int read from the message.  Whatever the text, nothing is
    deleted, no job is cancelled, the Sheets manager is not called, and
    when its replies are delivered the handler asks for the number
    again. *)
Theorem delete_poll_never_finds env op message_text w :
  exists answer,
    confirm_delete_poll env op message_text w = (w, Ok answer) /\
    (reply_fails op = false -> error_reply_fails op = false ->
     answer = Returns POLL_DEL_ID) /\
    (answer = Uncaught -> error_reply_fails op = true).
Proof.
  unfold confirm_delete_poll. unfold catch at 1, catch at 1.
  unfold mbind at 1, lift, to_int, after_reply, after_error_reply.
  destruct (py_int message_text) as [n|];
    [|eexists; split; [done|]; by destruct (error_reply_fails op)].
  unfold mbind at 1. rewrite load_polls_m_run.
  assert (list_find (fun poll => id_equals_int (k_id poll) n = true)
            (collection (polls_json w)) = None) as ->.
  { apply list_find_None. apply Forall_forall. intros p _. done. }
  cbn [fmap option_fmap option_map]. unfold ret.
  eexists. split; [done|].
  by destruct (reply_fails op), (error_reply_fails op).
Qed.

End DeletingFacts.

Lemma length_filter_filter {A} (P Q : A -> Prop)
    `{!forall x, Decision (P x)} `{!forall x, Decision (Q x)} (l : list A) :
  (length (filter P (filter Q l)) <= length (filter P l))%nat.
Proof.
  induction l as [|x l IH]; [done|].
  rewrite (filter_cons Q). destruct (decide (Q x)).
  - rewrite !filter_cons. destruct (decide (P x)); cbn [length]; lia.
  - rewrite (filter_cons P). destruct (decide (P x)); cbn [length]; lia.
Qed.

Section CountFacts.
Context `{PyLib}.

Lemma reminder_jobs_count clock rs q :
  (length (reminder_jobs (schedule_reminders clock rs q)) <=
   length (reminder_jobs q) + length rs)%nat.
Proof.
  revert q. induction rs as [|r rs IH]; intros q;
    [unfold schedule_reminders; cbn [fold_left length]; lia|].
  unfold schedule_reminders in *. cbn [fold_left length].
  etransitivity; [apply IH|].
  rewrite schedule_reminder_app. unfold reminder_jobs at 1.
  rewrite filter_app, length_app.
  pose proof (length_filter_filter
                (fun job => startswith (job_name job) "reminder_" = true)
                (fun job => job_name job <> reminder_job_name r) q) as Hrem.
  fold (remove_named (reminder_job_name r) q) in Hrem. fold (reminder_jobs q) in Hrem.
  pose proof (length_filter (fun job => startswith (job_name job) "reminder_" = true)
                (schedule_reminder clock [] r)) as Hnew.
  destruct (schedule_reminder_new clock r) as [E | [tr E]]; rewrite E in *;
    cbn [length] in *; lia.
Qed.

Lemma poll_jobs_count clock ps q :
  (length (poll_jobs (schedule_polls clock ps q)) <=
   length (poll_jobs q) +
   length (filter (fun p => k_status p = Some "Active") ps))%nat.
Proof.
  revert q. induction ps as [|p ps IH]; intros q;
    [unfold schedule_polls; rewrite filter_nil; cbn [fold_left length]; lia|].
  unfold schedule_polls in *. cbn [fold_left].
  etransitivity; [apply IH|]. rewrite filter_cons.
  case_bool_decide as Hact.
  - rewrite decide_True by done. cbn [length].
    rewrite schedule_poll_app. unfold poll_jobs at 1.
    rewrite filter_app, length_app.
    pose proof (length_filter_filter
                  (fun job => startswith (job_name job) "poll_" = true)
                  (fun job => job_name job <> poll_job_name p) q) as Hrem.
    fold (remove_named (poll_job_name p) q) in Hrem. fold (poll_jobs q) in Hrem.
    pose proof (length_filter (fun job => startswith (job_name job) "poll_" = true)
                  (schedule_poll clock [] p)) as Hnew.
    destruct (schedule_poll_new clock p) as [E | (tr & name & E & _)]; rewrite E in *;
      cbn [length] in *; lia.
  - rewrite decide_False by done. lia.
Qed.

(** X24: what [check_active_jobs] can report after a rescheduling.
    After [reschedule_all_reminders] the number of reminder jobs is at
    most the number of stored reminders and the number of poll jobs is
    what it was; after [reschedule_all_polls] the number of poll jobs is
    at most the number of stored polls whose status is "Active" and the
    number of reminder jobs is what it was. *)
Theorem job_counts_after_rescheduling clock rf pf q :
  let after_reminders := check_active_jobs (reschedule_all_reminders clock rf q) in
  let after_polls := check_active_jobs (reschedule_all_polls clock pf q) in
  (after_reminders.1 <= length (collection rf))%nat /\
  after_reminders.2 = (check_active_jobs q).2 /\
  (after_polls.2 <=
   length (filter (fun p => k_status p = Some "Active") (collection pf)))%nat /\
  after_polls.1 = (check_active_jobs q).1.
Proof.
  cbn zeta. unfold check_active_jobs. cbn [fst snd].
  rewrite poll_jobs_reschedule_all_reminders, reminder_jobs_reschedule_all_polls.
  repeat split.
  - unfold reschedule_all_reminders, schedule_all_reminders.
    rewrite load_reminders_collection.
    etransitivity; [apply reminder_jobs_count|].
    by rewrite (proj1 (reminder_jobs_remove_prefixed q)).
  - unfold reschedule_all_polls, schedule_all_polls.
    rewrite load_polls_collection.
    etransitivity; [apply poll_jobs_count|].
    by rewrite (proj1 (poll_jobs_remove_prefixed q)).
Qed.

End CountFacts.

(** ** The added facts on concrete inputs *)

(** X1, at the reminders of [two_chats]: the next id is "3". *)
Lemma next_reminder_id_is_fresh_witness :
  @get_next_reminder_id Example.lib example_str (reminders_json two_chats) = Ok "3" /\
  k_id daily_reminder <> Some "3".
Proof.
  destruct (@next_reminder_id_is_fresh Example.lib example_str (reminders_json two_chats))
    as (new_id & Hid & _ & Hfresh).
  assert (new_id = "3") as -> by (pose proof Hid as Hc; vm_compute in Hc; congruence).
  split; [exact Hid|].
  apply (Hfresh daily_reminder). right. left.
Defined.

(** X2, at the polls of [two_chats] with the manager knowing id 10. *)
Lemma next_poll_id_is_fresh_witness :
  @get_next_poll_id Example.lib example_str blocked_200 (Ok 10) (polls_json two_chats)
    = Ok "11".
Proof.
  destruct (@next_poll_id_is_fresh Example.lib example_str blocked_200 (Ok 10)
              (polls_json two_chats)) as (new_id & n & Hid & _ & _ & _ & Hmax).
  pose proof (Hmax 10 eq_refl eq_refl) as Hlt.
  assert (new_id = "11") as -> by (pose proof Hid as Hc; vm_compute in Hc; congruence).
  exact Hid.
Defined.

(** X3, for a new chat and for a listed one. *)
Lemma subscribe_chat_adds_once_witness :
  subscribed_chats_json (run (subscribe_chat quiet 300) two_chats) =
    json_dump [100; 200; 300] /\
  subscribed_chats_json (run (subscribe_chat quiet 200) two_chats) =
    json_dump [100; 200].
Proof.
  split.
  - apply (proj1 (proj2 (subscribe_chat_adds_once quiet 300 two_chats))).
    cbn. rewrite !elem_of_cons, elem_of_nil. intuition discriminate.
  - apply (proj1 (subscribe_chat_adds_once quiet 200 two_chats)).
    cbn. right. left.
Defined.

(** X4, for chat 100 of [two_chats]. *)
Lemma unsubscribe_user_removes_first_witness :
  exists w', unsubscribe_user quiet 100 two_chats = (w', Ok true) /\
             subscribed_chats_json w' = json_dump [200].
Proof.
  destruct (proj2 (unsubscribe_user_removes_first quiet 100 two_chats))
    as (l1 & l2 & Hl & Hn & Hrun & _).
  { cbn. left. }
  eexists. split; [exact Hrun|]. cbn in *.
  destruct l1 as [|c l1].
  - injection Hl as <-. done.
  - injection Hl as <- _. exfalso. apply Hn. left.
Defined.

(** X5, for chat 300. *)
Lemma subscribe_then_unsubscribe_witness :
  exists w2,
    unsubscribe_user quiet 300 (run (subscribe_chat quiet 300) two_chats) = (w2, Ok true) /\
    subscribed_chats_json w2 = json_dump [100; 200].
Proof.
  apply (subscribe_then_unsubscribe quiet quiet 300 two_chats).
  cbn. rewrite !elem_of_cons, elem_of_nil. intuition discriminate.
Defined.

(** X6, on [stale_queue]: the job of the reminder that is gone is gone,
    the self-ping job is kept. *)
Lemma reschedule_all_reminders_no_stale_job_witness :
  remove_prefixed "reminder_"
    (@reschedule_all_reminders Example.lib noon (reminders_json two_chats) stale_queue) =
  remove_prefixed "reminder_" stale_queue /\
  forall j, j ∈ @reschedule_all_reminders Example.lib noon (reminders_json two_chats)
                  stale_queue ->
            job_name j <> "reminder_9".
Proof.
  destruct (@reschedule_all_reminders_no_stale_job Example.lib noon
              (reminders_json two_chats) stale_queue) as [Hkeep Hfresh].
  split; [exact Hkeep|].
  intros j Hj Hname.
  destruct (Hfresh j Hj) as (r & Hr & _ & Hrn & _).
  { by rewrite Hname. }
  rewrite Hname in Hrn. cbn in Hr.
  rewrite !elem_of_cons, elem_of_nil in Hr.
  destruct Hr as [-> | [-> | []]]; discriminate.
Defined.

(** X7, on a queue holding the job of the deleted poll. *)
Lemma reschedule_all_polls_no_stale_job_witness :
  Forall (fun j => job_context j = Some daily_poll)
    (@reschedule_all_polls Example.lib noon (json_dump [deleted_poll; daily_poll])
       [ {| job_callback := send_poll_cb; job_trigger := RunDaily 7 0 every_day;
            job_context := Some deleted_poll; job_name := "poll_4" |} ]).
Proof.
  apply Forall_forall. intros j Hj.
  destruct (proj2 (@reschedule_all_polls_no_stale_job Example.lib noon
                     (json_dump [deleted_poll; daily_poll]) _) j Hj)
    as (p & Hp & Hact & Hctx & _).
  { vm_compute in Hj. apply list_elem_of_singleton in Hj. by subst. }
  cbn in Hp. rewrite !elem_of_cons, elem_of_nil in Hp.
  destruct Hp as [-> | [-> | []]]; [discriminate | exact Hctx].
Defined.

(** X8, for the daily reminder of [two_chats]. *)
Lemma reschedule_all_reminders_schedules_each_witness :
  filter (fun j => job_name j = "reminder_2")
    (@reschedule_all_reminders Example.lib noon (reminders_json two_chats) stale_queue) =
  [ {| job_callback := send_reminder_cb; job_trigger := RunDaily 6 0 every_day;
       job_context := Some daily_reminder; job_name := "reminder_2" |} ].
Proof.
  apply (@reschedule_all_reminders_schedules_each Example.lib noon
           (reminders_json two_chats) stale_queue daily_reminder).
  - cbn. right. left.
  - intros r' Hr' Hname. cbn in Hr'. rewrite !elem_of_cons, elem_of_nil in Hr'.
    destruct Hr' as [-> | [-> | []]]; [discriminate | reflexivity].
Defined.

(** X9: the daily reminder for 09:00 runs at 06:00 UTC; the weekly
    reminder for Monday 01:30 is registered for weekday 0 at 22:30 UTC. *)
Lemma recurring_reminder_trigger_witness :
  @schedule_reminder Example.lib noon [] daily_reminder =
    [ {| job_callback := send_reminder_cb; job_trigger := RunDaily 6 0 every_day;
         job_context := Some daily_reminder; job_name := "reminder_2" |} ] /\
  @schedule_reminder Example.lib noon [] monday_night =
    [ {| job_callback := send_reminder_cb; job_trigger := RunDaily 22 30 [0];
         job_context := Some monday_night; job_name := "reminder_7" |} ].
Proof.
  split.
  - exact (proj1 (@recurring_reminder_trigger Example.lib noon daily_reminder
                    "09:00" 9 0 eq_refl eq_refl) eq_refl).
  - exact (proj2 (@recurring_reminder_trigger Example.lib noon monday_night
                    "01:30" 1 30 eq_refl eq_refl)
             "понедельник" 0 eq_refl eq_refl eq_refl).
Defined.

(** X10, with chat 200 blocked. *)
Lemma fan_out_accounts_for_every_chat_witness :
  let t := fan_out (reminder_step blocked_200) 0 [100; 200] no_tally in
  (total_sent t, total_failed t, blocked_chats t) = (1%nat, 1%nat, [200]) /\
  forall cid, cid ∈ blocked_chats t -> cid ∈ [100; 200].
Proof.
  split; [reflexivity|].
  exact (proj2 (proj2 (proj2 (proj1
           (fan_out_accounts_for_every_chat blocked_200 [100; 200]))))).
Defined.

(** X12: with the Sheets manager absent and with the manager raising on
    every call the one-time reminder is delivered and removed alike. *)
Lemma delivery_does_not_depend_on_backup_witness :
  local_state (run (send_reminder quiet reminder_1) two_chats) =
  local_state (run (send_reminder failing_sheets reminder_1) two_chats).
Proof.
  apply (delivery_does_not_depend_on_backup quiet failing_sheets reminder_1 two_chats
           100 [200] eq_refl).
  repeat split.
Defined.

(** X13: a missing file with no Sheets manager becomes the empty list. *)
Lemma ensure_subscribed_chats_file_result_witness :
  exists w', ensure_subscribed_chats_file quiet no_chats_file = (w', Ok false) /\
             subscribed_chats_json w' = json_dump [].
Proof.
  eexists. split; [reflexivity|].
  destruct (proj1 (proj2 (ensure_subscribed_chats_file_result quiet no_chats_file))
              _ false eq_refl) as (_ & l & Hl & Hempty).
  exact (proj2 (Hempty eq_refl)).
Defined.

(** X14, at the reminders of [two_chats], whatever the backup holds. *)
Lemma ensure_reminders_file_prefers_local_witness :
  ensure_reminders_file backup_lists_200 two_chats = (two_chats, Ok (true, 2%nat)).
Proof.
  exact (proj1 (ensure_reminders_file_prefers_local backup_lists_200 two_chats)
           reminder_1 [daily_reminder] eq_refl).
Defined.

(** X15: a comparison with both brackets is returned unescaped. *)
Lemma safe_html_escape_all_or_nothing_witness :
  safe_html_escape "1 < 2 and 3 > 2 & <script>" = "1 < 2 and 3 > 2 & <script>" /\
  safe_html_escape "a & b > c" = "a &amp; b &gt; c".
Proof.
  split.
  - exact (proj1 (proj2 (safe_html_escape_all_or_nothing
                           "1 < 2 and 3 > 2 & <script>")) eq_refl eq_refl eq_refl).
  - exact (proj1 (safe_html_escape_all_or_nothing "a & b > c") eq_refl).
Defined.

(** X16: a daily reminder added to [two_chats] gets the id "3". *)
Lemma new_reminder_is_stored_and_scheduled_witness :
  let w' := world_after (@receive_daily_text Example.lib example_str quiet reachable
                           (Some "08:00") "Tea") two_chats in
  collection (reminders_json w') =
    [reminder_1; daily_reminder; new_daily_reminder "3" "08:00" "Tea"] /\
  job_queue w' =
    [ {| job_callback := send_reminder_cb; job_trigger := RunDaily 5 0 every_day;
         job_context := Some (new_daily_reminder "3" "08:00" "Tea");
         job_name := "reminder_3" |} ].
Proof.
  cbn zeta.
  destruct (@new_reminder_is_stored_and_scheduled Example.lib example_str quiet reachable
              "Tea" two_chats) as (new_id & Hid & Hfresh & _ & Hdaily & _).
  assert (new_id = "3") as -> by (pose proof Hid as Hc; vm_compute in Hc; congruence).
  destruct (Hdaily "08:00") as (Hfile & Hq & _).
  split; [by rewrite Hfile | by rewrite Hq].
Defined.

(** X17: a one-time reminder for 13:00 is added to [two_chats] and
    fired. *)
Lemma once_reminder_created_then_fired_witness :
  let created := world_after (@receive_reminder_text Example.lib example_str quiet
                                reachable (Some "2024-05-01 13:00") "Call") two_chats in
  collection (reminders_json created) =
    [reminder_1; daily_reminder; new_once_reminder "3" "2024-05-01 13:00" "Call"] /\
  collection (reminders_json
                (run (send_reminder quiet
                        (new_once_reminder "3" "2024-05-01 13:00" "Call")) created)) =
    [reminder_1; daily_reminder].
Proof.
  cbn zeta.
  destruct (@once_reminder_created_then_fired Example.lib example_str quiet reachable
              quiet "2024-05-01 13:00" "Call" two_chats
              (world_after (@receive_reminder_text Example.lib example_str quiet
                              reachable (Some "2024-05-01 13:00") "Call") two_chats)
              [100; 200] eq_refl) as (new_id & Hid & Hcreated & Hfired).
  assert (new_id = "3") as -> by (pose proof Hid as Hc; vm_compute in Hc; congruence).
  split; [exact Hcreated | exact Hfired].
Defined.

(** X18: a trigger one hour ahead is accepted at noon and scheduled. *)
Lemma accepted_trigger_is_scheduled_while_future_witness :
  job_queue (world_after (@receive_reminder_text Example.lib example_str quiet reachable
                            (Some "2024-05-01 13:00") "Call") two_chats) =
  [ {| job_callback := send_reminder_cb;
       job_trigger := RunOnce (Example.moscow 2024 5 1 13 0 0);
       job_context := Some (new_once_reminder "3" "2024-05-01 13:00" "Call");
       job_name := "reminder_3" |} ].
Proof.
  destruct (@accepted_trigger_is_scheduled_while_future Example.lib example_str
              quiet reachable quiet reachable "2024-05-01 13:00"
              (Some "2024-05-01 13:00") "Call" two_chats eq_refl)
    as (t & new_id & _ & Ht & _ & Hid & _ & Hq).
  assert (new_id = "3") as -> by (pose proof Hid as Hc; vm_compute in Hc; congruence).
  assert (t = Example.moscow 2024 5 1 13 0 0) as ->
    by (pose proof Ht as Hc; vm_compute in Hc; vm_compute; congruence).
  exact Hq.
Defined.

(** X19, on [two_chats] with a stale job and the self-ping job. *)
Lemma clear_reminders_empties_witness :
  let w' := world_after (clear_reminders quiet reachable)
              (set_jobs stale_queue two_chats) in
  collection (reminders_json w') = [] /\
  job_name <$> job_queue w' = ["ping_self"] /\
  sheets w' = [].
Proof.
  cbn zeta.
  destruct (clear_reminders_empties quiet reachable (set_jobs stale_queue two_chats))
    as (Hfile & Hq & _ & _ & _ & _ & _ & Hsheets).
  rewrite Hfile, Hq, (Hsheets eq_refl). repeat split.
Defined.

(** X20, on [two_chats] with the job of a missed poll. *)
Lemma clear_polls_empties_witness :
  let w' := world_after (clear_polls quiet reachable)
              (set_jobs (@schedule_poll Example.lib noon stale_queue poll_1) two_chats) in
  collection (polls_json w') = [] /\
  job_name <$> job_queue w' = ["reminder_9"; "ping_self"] /\
  sheets w' = [].
Proof.
  cbn zeta.
  destruct (clear_polls_empties quiet reachable
              (set_jobs (@schedule_poll Example.lib noon stale_queue poll_1) two_chats))
    as (Hfile & Hq & _ & _ & _ & _ & _ & Hsheets).
  rewrite Hfile, Hq, (Hsheets eq_refl). repeat split.
Defined.


(** X22: a text that is not a number. *)
Lemma delete_reminder_rejects_witness :
  @confirm_delete_reminder Example.lib quiet reachable "two" two_chats =
    (two_chats, Ok (Returns REM_DEL_ID)).
Proof.
  destruct (@delete_reminder_rejects Example.lib quiet reachable "two"
              two_chats (or_introl eq_refl)) as (answer & Hrun & Hanswer & _).
  rewrite Hrun, (Hanswer eq_refl eq_refl). reflexivity.
Defined.

(** X23: the id of the first poll of [two_chats] is entered. *)
Lemma delete_poll_never_finds_witness :
  @confirm_delete_poll Example.lib example_str quiet reachable "1" two_chats =
    (two_chats, Ok (Returns POLL_DEL_ID)).
Proof.
  destruct (@delete_poll_never_finds Example.lib example_str quiet reachable "1"
              two_chats) as (answer & Hrun & Hanswer & _).
  rewrite Hrun, (Hanswer eq_refl eq_refl). reflexivity.
Defined.
